(** * Lead qualification engine: a shallow embedding and its properties

    The development follows [src/qualifier.py], [src/chatgpt_scorer.py],
    [src/claude_analyzer.py] and [src/config.py].  Each Python class is a
    module of the same name ([LeadQualifier], [ChatGPTScorer],
    [ClaudeAnalyzer], [TwoTierQualifier]) and each method a definition of
    the same name inside it.

    Python [int] is [Z]; [str] is [string], with case folding and character
    classes as Python has them on ASCII code points; [Optional[T]] is
    [option T]; a [datetime] is naive.  A call that may raise returns a
    [Res].  The external services (the two AI providers, the document
    search, [json.loads], the clock) are arguments of the definitions that
    reach them. *)

From Stdlib Require Import ZArith List Bool String Ascii Lia DecimalString.
Import ListNotations.

Set Warnings "-register-all".

Local Open Scope string_scope.
Local Open Scope list_scope.
Local Open Scope Z_scope.

(* ===================================================================== *)
(** ** Exceptions and results *)
(* ===================================================================== *)

Inductive exn_kind : Type :=
| OverflowError | TypeError | ValueError | AttributeError | IndexError
| JSONDecodeError | ServiceError.

(** A raised exception: its class and the text [str(e)] gives. *)
Record exn : Type := mkExn { exn_class : exn_kind; exn_text : string }.

Inductive Res (A : Type) : Type :=
| Ok (a : A)
| Raise (e : exn).
Arguments Ok {A} a.
Arguments Raise {A} e.

Definition bind {A B : Type} (m : Res A) (k : A -> Res B) : Res B :=
  match m with
  | Ok a => k a
  | Raise e => Raise e
  end.

Notation "x <- m ;; k" := (bind m (fun x => k))
  (at level 61, m at next level, right associativity).

(** [try: m except h] is Python's [try ... except Exception as e]. *)
Definition try_except {A : Type} (m : Res A) (h : exn -> A) : A :=
  match m with
  | Ok a => a
  | Raise e => h e
  end.

(* ===================================================================== *)
(** ** Python string operations (ASCII) *)
(* ===================================================================== *)

(** A [str] is modelled as a string of ASCII characters (code points
    below 128), and on such text the operations below are Python's.  Text
    with other code points is outside the model: Python's case mapping,
    [isspace] and digit classes are Unicode-aware ([str.upper] maps the
    ligature U+FB02 to "FL", [str.lower] maps the Kelvin sign to "k"),
    which a character-by-character ASCII mapping does not render. *)

Module PyStr.

Definition code (c : ascii) : nat := nat_of_ascii c.

(** The text is ASCII: every code point is below 128. *)
Definition is_ascii_char (c : ascii) : bool := Nat.ltb (code c) 128.
Fixpoint is_ascii (s : string) : bool :=
  match s with
  | EmptyString => true
  | String c s' => (is_ascii_char c && is_ascii s')%bool
  end.

Definition between (lo hi : nat) (c : ascii) : bool :=
  (Nat.leb lo (code c) && Nat.leb (code c) hi)%bool.

Definition is_upper_char : ascii -> bool := between 65 90.
Definition is_lower_char : ascii -> bool := between 97 122.
Definition is_digit_char : ascii -> bool := between 48 57.
Definition is_alpha_char (c : ascii) : bool :=
  (is_upper_char c || is_lower_char c)%bool.

(** [str.isspace] on one character: TAB..CR, FS..US and the blank. *)
Definition is_space_char (c : ascii) : bool :=
  (between 9 13 c || between 28 32 c)%bool.

(** The regular-expression class [\w]. *)
Definition is_word_char (c : ascii) : bool :=
  (is_alpha_char c || is_digit_char c || Nat.eqb (code c) 95)%bool.

Definition lower_char (c : ascii) : ascii :=
  if is_upper_char c then ascii_of_nat (code c + 32) else c.
Definition upper_char (c : ascii) : ascii :=
  if is_lower_char c then ascii_of_nat (code c - 32) else c.

Fixpoint map_chars (f : ascii -> ascii) (s : string) : string :=
  match s with
  | EmptyString => EmptyString
  | String c s' => String (f c) (map_chars f s')
  end.

(** [str.lower] and [str.upper] on ASCII text. *)
Definition lower : string -> string := map_chars lower_char.
Definition upper : string -> string := map_chars upper_char.

Fixpoint lstrip (s : string) : string :=
  match s with
  | EmptyString => EmptyString
  | String c s' => if is_space_char c then lstrip s' else s
  end.

Fixpoint rstrip (s : string) : string :=
  match s with
  | EmptyString => EmptyString
  | String c s' =>
      match rstrip s' with
      | EmptyString => if is_space_char c then EmptyString else String c EmptyString
      | r => String c r
      end
  end.

Definition strip (s : string) : string := rstrip (lstrip s).

Definition is_empty (s : string) : bool :=
  match s with EmptyString => true | _ => false end.

Definition startswith (p s : string) : bool := String.prefix p s.

Fixpoint drop (n : nat) (s : string) : string :=
  match n, s with
  | O, _ => s
  | S n', String _ s' => drop n' s'
  | S _, EmptyString => EmptyString
  end.

Fixpoint take (n : nat) (s : string) : string :=
  match n, s with
  | S n', String c s' => String c (take n' s')
  | _, _ => EmptyString
  end.

Definition head (s : string) : option ascii :=
  match s with EmptyString => None | String c _ => Some c end.

(** [sub in s]. *)
Fixpoint contains (sub s : string) : bool :=
  (String.prefix sub s ||
   match s with
   | EmptyString => false
   | String _ s' => contains sub s'
   end)%bool.

(** [any(kw in s for kw in kws)]. *)
Definition any_in (kws : list string) (s : string) : bool :=
  existsb (fun kw => contains kw s) kws.

(** [x in xs] for a list of strings. *)
Definition mem (x : string) (xs : list string) : bool :=
  existsb (String.eqb x) xs.

Definition join (sep : string) (xs : list string) : string :=
  String.concat sep xs.

(** [str.title]: a letter is upper-cased after a non-letter and
    lower-cased after a letter. *)
Fixpoint title_from (prev_alpha : bool) (s : string) : string :=
  match s with
  | EmptyString => EmptyString
  | String c s' =>
      String (if prev_alpha then lower_char c else upper_char c)
             (title_from (is_alpha_char c) s')
  end.
Definition title : string -> string := title_from false.

(** [str(n)] for an [int]. *)
Definition of_Z (n : Z) : string := NilZero.string_of_int (Z.to_int n).

(** An f-string, given as the list of its pieces. *)
Definition fstr (parts : list string) : string := String.concat "" parts.

(** Truthiness of an [Optional[str]]: [None] and [""] are false. *)
Definition truthy (o : option string) : bool :=
  match o with
  | Some s => negb (is_empty s)
  | None => false
  end.

(** [o or d]. *)
Definition or_else (o : option string) (d : string) : string :=
  match o with
  | Some s => if is_empty s then d else s
  | None => d
  end.

End PyStr.

(* ===================================================================== *)
(** ** Naive datetimes *)
(* ===================================================================== *)

(** A naive [datetime] is its proleptic Gregorian ordinal (day 1 is
    0001-01-01) and the microsecond of the day.  The calendar fields are
    recovered by the algorithm of CPython's [datetime] module. *)
Module Datetime.

Record t : Type := mk { ordinal : Z; usec_of_day : Z }.

Definition MAXORDINAL : Z := 3652059.

Definition is_leap (year : Z) : bool :=
  ((year mod 4 =? 0) && (negb (year mod 100 =? 0) || (year mod 400 =? 0)))%bool.

Definition days_before_year (year : Z) : Z :=
  let y := year - 1 in y * 365 + y / 4 - y / 100 + y / 400.

Definition DAYS_IN_MONTH : list Z :=
  [-1; 31; 28; 31; 30; 31; 30; 31; 31; 30; 31; 30; 31].
Definition DAYS_BEFORE_MONTH : list Z :=
  [-1; 0; 31; 59; 90; 120; 151; 181; 212; 243; 273; 304; 334].

Definition tbl (l : list Z) (i : Z) : Z := nth (Z.to_nat i) l 0.

Definition b2z (b : bool) : Z := if b then 1 else 0.

Definition days_before_month (year month : Z) : Z :=
  tbl DAYS_BEFORE_MONTH month + b2z ((2 <? month) && is_leap year).

Definition ymd2ord (year month day : Z) : Z :=
  days_before_year year + days_before_month year month + day.

Definition DI400Y : Z := 146097.
Definition DI100Y : Z := 36524.
Definition DI4Y : Z := 1461.

Definition ord2ymd (n0 : Z) : Z * Z * Z :=
  let n := n0 - 1 in
  let n400 := n / DI400Y in
  let n := n mod DI400Y in
  let year := n400 * 400 + 1 in
  let n100 := n / DI100Y in
  let n := n mod DI100Y in
  let n4 := n / DI4Y in
  let n := n mod DI4Y in
  let n1 := n / 365 in
  let n := n mod 365 in
  let year := year + n100 * 100 + n4 * 4 + n1 in
  if ((n1 =? 4) || (n100 =? 4))%bool then (year - 1, 12, 31)
  else
    let leapyear := ((n1 =? 3) && (negb (n4 =? 24) || (n100 =? 3)))%bool in
    let month := Z.shiftr (n + 50) 5 in
    let preceding := tbl DAYS_BEFORE_MONTH month + b2z ((2 <? month) && leapyear) in
    if n <? preceding then
      let month := month - 1 in
      let preceding :=
        preceding - (tbl DAYS_IN_MONTH month + b2z ((month =? 2) && leapyear)) in
      (year, month, n - preceding + 1)
    else (year, month, n - preceding + 1).

Definition year (d : t) : Z := fst (fst (ord2ymd (ordinal d))).
Definition month (d : t) : Z := snd (fst (ord2ymd (ordinal d))).
Definition day (d : t) : Z := snd (ord2ymd (ordinal d)).

(** [datetime(y, m, d)] at midnight. *)
Definition of_ymd (y m d : Z) : t := mk (ymd2ord y m d) 0.

(** [a >= b]: field-wise comparison, which on naive values is the
    lexicographic order on (day, time of day). *)
Definition geb (a b : t) : bool :=
  ((ordinal b <? ordinal a) ||
   ((ordinal a =? ordinal b) && (usec_of_day b <=? usec_of_day a)))%bool.

(** [d + timedelta(days=n)]: the time of day is kept, and a result
    outside 0001-01-01 .. 9999-12-31 raises [OverflowError].  So does the
    [timedelta] itself when [n] exceeds 999999999 in magnitude, with one
    text while [n] fits a C [int] and another beyond. *)
Definition add_days (d : t) (n : Z) : Res t :=
  if (Z.abs n <=? 999999999) then
    let o := ordinal d + n in
    if ((0 <? o) && (o <=? MAXORDINAL))%bool
    then Ok (mk o (usec_of_day d))
    else Raise (mkExn OverflowError "date value out of range")
  else if ((-2147483648 <=? n) && (n <=? 2147483647))%bool
  then Raise (mkExn OverflowError
                (PyStr.fstr ["days="; PyStr.of_Z n;
                             "; must have magnitude <= 999999999"]))
  else Raise (mkExn OverflowError "Python int too large to convert to C int").

End Datetime.

(* ===================================================================== *)
(** ** Configuration ([src/config.py]) *)
(* ===================================================================== *)

Record QualificationConfig : Type := mkQualificationConfig {
  medical_treatment_points : Z;
  clear_liability_points : Z;
  identified_insurance_points : Z;
  sol_buffer_points : Z;
  serious_injury_points : Z;
  tri_county_bonus : Z;
  tier1_threshold : Z;
  tier2_threshold : Z;
  sol_years : Z;
  min_sol_months_remaining : Z;
  state : string;
  preferred_counties : list string;
  accepted_counties : list string;
  disputed_liability_keywords : list string;
  insufficient_treatment_keywords : list string;
  serious_injury_keywords : list string;
  clear_liability_keywords : list string
}.

(** The dataclass defaults, with the two county lists supplied. *)
Definition default_config (preferred accepted : list string) : QualificationConfig :=
  {| medical_treatment_points := 3;
     clear_liability_points := 3;
     identified_insurance_points := 2;
     sol_buffer_points := 1;
     serious_injury_points := 2;
     tri_county_bonus := 5;
     tier1_threshold := 11;
     tier2_threshold := 7;
     sol_years := 3;
     min_sol_months_remaining := 18;
     state := "SC";
     preferred_counties := preferred;
     accepted_counties := accepted;
     disputed_liability_keywords :=
       ["disputed"; "my client may be at fault"; "unclear"; "comparative";
        "contributory"; "both parties"; "shared fault"; "partial fault"];
     insufficient_treatment_keywords :=
       ["none yet"; "no treatment"; "hasn't seen doctor"; "refused treatment";
        "self-treating"; "home remedies only"];
     serious_injury_keywords :=
       ["fracture"; "broken"; "surgery"; "surgical"; "operation"; "permanent";
        "disability"; "amputation"; "traumatic brain"; "tbi"; "spinal cord";
        "paralysis"; "herniated"; "torn"; "rupture"; "internal bleeding"];
     clear_liability_keywords :=
       ["rear-end"; "rear end"; "rearend"; "ran red light"; "ran stop sign";
        "ran the light"; "ran the sign"; "speeding"; "dui"; "dwi"; "drunk";
        "intoxicated"; "bac"; "failed sobriety"; "citation issued";
        "ticket issued"; "at fault"; "100% fault"; "admitted fault"] |}.

Record ClaudeConfig : Type := mkClaudeConfig {
  api_key : string;
  model : string;
  max_tokens : Z
}.

(** [ClaudeConfig()]: no key. *)
Definition ClaudeConfig_default : ClaudeConfig :=
  {| api_key := ""; model := "claude-sonnet-4-20250514"; max_tokens := 2048 |}.

Record ScoringThresholds : Type := mkScoringThresholds {
  fast_track : Z;
  claude_review : Z;
  need_info : Z
}.

Definition ScoringThresholds_default : ScoringThresholds :=
  {| fast_track := 75; claude_review := 50; need_info := 25 |}.

(* ===================================================================== *)
(** ** Leads ([src/airtable_client.py]) *)
(* ===================================================================== *)

Record Lead : Type := mkLead {
  record_id : string;
  name : string;
  phone : option string;
  email : option string;
  lead_source : option string;
  accident_date : option Datetime.t;
  accident_location : option string;
  injury_description : option string;
  medical_treatment : option string;
  insurance_carrier : option string;
  liability_notes : option string
}.

(* ===================================================================== *)
(** ** Python idioms *)
(* ===================================================================== *)

(** Truthiness of a list: non-empty. *)
Definition nonempty {A : Type} (l : list A) : bool :=
  match l with
  | [] => false
  | _ :: _ => true
  end.

(** [filter(None, xs)] on optional strings. *)
Definition filter_truthy (xs : list (option string)) : list string :=
  flat_map (fun o => if PyStr.truthy o then [PyStr.or_else o ""] else []) xs.

(** [[x] if b else []], for the [if b: details.append(x)] idiom. *)
Definition when {A : Type} (b : bool) (x : A) : list A := if b then [x] else [].

Definition nl : string := String (ascii_of_nat 10) EmptyString.


(* ===================================================================== *)
(** ** Rule-based engine: data ([src/qualifier.py]) *)
(* ===================================================================== *)

Inductive QualificationTier : Type :=
| TIER_1_AUTO_ACCEPT
| TIER_2_REVIEW
| TIER_3_AUTO_DECLINE.

Definition tier_value (t : QualificationTier) : string :=
  match t with
  | TIER_1_AUTO_ACCEPT => "tier1"
  | TIER_2_REVIEW => "tier2"
  | TIER_3_AUTO_DECLINE => "tier3"
  end.

Definition tier_eqb (a b : QualificationTier) : bool :=
  match a, b with
  | TIER_1_AUTO_ACCEPT, TIER_1_AUTO_ACCEPT
  | TIER_2_REVIEW, TIER_2_REVIEW
  | TIER_3_AUTO_DECLINE, TIER_3_AUTO_DECLINE => true
  | _, _ => false
  end.

Record SafetyFlag : Type := mkSafetyFlag {
  flag_type : string;
  description : string;
  severity : string
}.

(** The fields [medical_treatment_points] and [serious_injury_points] of the
    dataclass are [medical_treatment_pts] and [serious_injury_pts] here, the
    longer names being those of the configuration fields. *)
Record QualificationResult : Type := mkQualificationResult {
  tier : QualificationTier;
  total_score : Z;
  medical_treatment_met : bool;
  medical_treatment_pts : Z;
  liability_met : bool;
  liability_points : Z;
  insurance_identified : bool;
  insurance_points : Z;
  sol_adequate : bool;
  sol_points : Z;
  serious_injury : bool;
  serious_injury_pts : Z;
  geographic_bonus : Z;
  county : option string;
  is_tri_county : bool;
  is_in_sc : bool;
  months_until_sol : option Z;
  estimated_case_value : option Z;
  injury_type : string;
  qualification_notes : string;
  strengths : list string;
  concerns : list string;
  missing_info : list string;
  recommended_questions : list string;
  safety_flags : list SafetyFlag;
  ai_analysis : option string
}.

(** What [_get_ai_analysis] interpolates into its prompt. *)
Record AiRequest : Type := mkAiRequest {
  req_lead : Lead;
  req_score : Z;
  req_tier : QualificationTier;
  req_flags : list SafetyFlag;
  req_model : string;
  req_max_tokens : Z
}.

(** The commentary service: [messages.create(...)] followed by
    [message.content[0].text] either yields text or raises. *)
Definition CommentaryService : Type := AiRequest -> Res string.

(** The two clock readings of one run: [datetime.now()] in the SOL
    calculator, and the rendered timestamp of the notes. *)
Record Clock : Type := mkClock { today : Datetime.t; stamp : string }.

(* ===================================================================== *)
(** ** The rule-based engine: class [LeadQualifier] *)
(* ===================================================================== *)

Module LeadQualifier.

(** *** Geography resolver *)

(** [\b] between the character before and the character after a position. *)
Definition word_boundary (prev next : option ascii) : bool :=
  let w o := match o with Some c => PyStr.is_word_char c | None => false end in
  xorb (w prev) (w next).

(** Length of the longest prefix whose characters satisfy [p]. *)
Fixpoint run_length (p : ascii -> bool) (s : string) : nat :=
  match s with
  | String c s' => if p c then S (run_length p s') else O
  | EmptyString => O
  end.

(** [\s*county\b] after the group: [m] blanks are tried first, then fewer. *)
Fixpoint match_tail (rest : string) (m : nat) : bool :=
  let r := PyStr.drop m rest in
  ((String.prefix "county" r &&
    word_boundary (Some "y"%char) (PyStr.head (PyStr.drop 6 r))) ||
   match m with
   | O => false
   | S m' => match_tail rest m'
   end)%bool.

(** [([a-z]+)] greedy: [k] letters are tried first, then fewer, down to one. *)
Fixpoint match_group (s : string) (k : nat) : option string :=
  match k with
  | O => None
  | S k' =>
      let rest := PyStr.drop k s in
      if match_tail rest (run_length PyStr.is_space_char rest)
      then Some (PyStr.take k s)
      else match_group s k'
  end.

(** A match of [\b([a-z]+)\s*county\b] starting exactly here. *)
Definition match_here (prev : option ascii) (s : string) : option string :=
  if word_boundary prev (PyStr.head s)
  then match_group s (run_length PyStr.is_lower_char s)
  else None.

(** [re.search(county_pattern, s)]: the leftmost match, its group 1. *)
Fixpoint search_county (prev : option ascii) (s : string) : option string :=
  match match_here prev s with
  | Some g => Some g
  | None =>
      match s with
      | EmptyString => None
      | String c s' => search_county (Some c) s'
      end
  end.

Definition city_to_county : list (string * string) :=
  [("charleston", "charleston");
   ("north charleston", "charleston");
   ("mount pleasant", "charleston");
   ("mt pleasant", "charleston");
   ("summerville", "dorchester");
   ("goose creek", "berkeley");
   ("moncks corner", "berkeley");
   ("columbia", "richland");
   ("greenville", "greenville");
   ("spartanburg", "spartanburg");
   ("myrtle beach", "horry");
   ("florence", "florence");
   ("rock hill", "york");
   ("anderson", "anderson");
   ("hilton head", "beaufort")].

(** The [for city, county_name in city_to_county.items()] loop with its
    [break]. *)
Definition lookup_city (location_lower : string) : option string :=
  match find (fun p => PyStr.contains (fst p) location_lower) city_to_county with
  | Some p => Some (snd p)
  | None => None
  end.

Definition _analyze_geography (cfg : QualificationConfig) (location : option string)
  : option string * bool * bool :=
  if negb (PyStr.truthy location) then (None, false, false)
  else
    let location_lower := PyStr.lower (PyStr.or_else location "") in
    let county :=
      match search_county None location_lower with
      | Some g => Some g
      | None => lookup_city location_lower
      end in
    let is_in_sc :=
      if (match county with
          | Some c => PyStr.truthy county && PyStr.mem c (accepted_counties cfg)
          | None => false
          end)%bool then true
      else if PyStr.any_in [", sc"; "south carolina"; ", s.c."] location_lower then true
      else false in
    let is_tri_county :=
      match county with
      | Some c => if PyStr.truthy county then PyStr.mem c (preferred_counties cfg) else false
      | None => false
      end in
    (county, is_tri_county, is_in_sc).

(** *** Statute-of-limitations calculator *)

Definition _calculate_sol_remaining (cfg : QualificationConfig) (today : Datetime.t)
    (accident_date : option Datetime.t) : Res (option Z) :=
  match accident_date with
  | None => Ok None
  | Some d =>
      sol_expiration <- Datetime.add_days d (sol_years cfg * 365) ;;
      if Datetime.geb today sol_expiration then Ok (Some 0)
      else
        let months :=
          (Datetime.year sol_expiration - Datetime.year today) * 12
          + (Datetime.month sol_expiration - Datetime.month today) in
        Ok (Some (Z.max 0 months))
  end.

(** *** Safety-flag detector *)

(** A [for kw in kws: if test kw: flags.append(mk kw); break] loop. *)
Definition first_flag (kws : list string) (test : string -> bool)
    (mk : string -> SafetyFlag) : list SafetyFlag :=
  match find test kws with
  | Some kw => [mk kw]
  | None => []
  end.

Definition _check_safety_rules (cfg : QualificationConfig) (lead : Lead)
  : list SafetyFlag :=
  let all_text :=
    PyStr.lower (PyStr.join " "
      (filter_truthy [injury_description lead; medical_treatment lead;
                      liability_notes lead])) in
  let disputed :=
    first_flag (disputed_liability_keywords cfg)
      (fun kw => PyStr.contains (PyStr.lower kw) all_text)
      (fun kw => mkSafetyFlag "disputed_liability"
                   (PyStr.fstr ["Liability may be disputed: found '"; kw; "'"]) "review") in
  let med_text := PyStr.lower (PyStr.or_else (medical_treatment lead) "") in
  let treatment :=
    if (PyStr.is_empty med_text
        || PyStr.mem (PyStr.strip med_text) [""; "none"; "n/a"])%bool
    then [mkSafetyFlag "no_medical_treatment"
            "No medical treatment information provided" "review"]
    else
      first_flag (insufficient_treatment_keywords cfg)
        (fun kw => PyStr.contains (PyStr.lower kw) med_text)
        (fun kw => mkSafetyFlag "insufficient_treatment"
                     (PyStr.fstr ["Medical treatment may be insufficient: '"; kw; "'"])
                     "review") in
  let minor :=
    first_flag ["minor"; "child"; "age 17"; "age 16"; "age 15";
                "year old"; "years old"; "minor child"; "juvenile"]
      (fun ind => PyStr.contains ind all_text)
      (fun _ => mkSafetyFlag "minor_plaintiff"
                  "Plaintiff may be a minor - requires special handling" "review") in
  let multi :=
    first_flag ["multiple vehicles"; "multi-vehicle"; "chain reaction";
                "three car"; "four car"; "several parties"; "multiple parties"]
      (fun ind => PyStr.contains ind all_text)
      (fun _ => mkSafetyFlag "multiple_parties"
                  "Multiple parties involved - requires review" "review") in
  let commercial :=
    first_flag ["commercial"; "truck"; "18-wheeler"; "semi"; "tractor-trailer";
                "delivery van"; "box truck"; "company vehicle"; "fleet"]
      (fun ind => PyStr.contains ind all_text)
      (fun _ => mkSafetyFlag "commercial_vehicle"
                  "Commercial vehicle involved - potential higher value case"
                  "review") in
  disputed ++ treatment ++ minor ++ multi ++ commercial.

(** *** Component scorers *)

Definition details_or (details : list string) (dflt : string) : string :=
  match details with
  | [] => dflt
  | _ => PyStr.join "; " details
  end.

Definition _analyze_medical_treatment (cfg : QualificationConfig) (lead : Lead)
  : bool * Z * string :=
  let med_text := PyStr.lower (PyStr.or_else (medical_treatment lead) "") in
  let injury_text := PyStr.lower (PyStr.or_else (injury_description lead) "") in
  let combined := PyStr.fstr [med_text; " "; injury_text] in
  let has_er :=
    PyStr.any_in ["emergency room"; "er visit"; "emergency department";
                  "ed visit"; "hospital"] combined in
  let has_ortho :=
    PyStr.any_in ["orthopedic"; "orthopaedic"; "orthopedist"] combined in
  let has_surgery := PyStr.any_in ["surgery"; "surgical"; "operation"] combined in
  let has_followup :=
    PyStr.any_in ["physical therapy"; "pt"; "chiropractor"; "follow-up";
                  "followup"; "specialist"] combined in
  let details :=
    when has_er "ER visit documented" ++ when has_ortho "Orthopedic care"
    ++ when has_surgery "Surgical intervention"
    ++ when has_followup "Follow-up care documented" in
  let treatment_met := ((has_er && (has_ortho || has_followup)) || has_surgery)%bool in
  let points := if treatment_met then medical_treatment_points cfg else 0 in
  (treatment_met, points, details_or details "No qualifying treatment documented").

Definition _analyze_liability (cfg : QualificationConfig) (lead : Lead)
  : bool * Z * string :=
  let liability_text := PyStr.lower (PyStr.or_else (liability_notes lead) "") in
  if PyStr.is_empty (PyStr.strip liability_text)
  then (false, 0, "No liability information provided")
  else
    let kw_hit :=
      find (fun kw => PyStr.contains (PyStr.lower kw) liability_text)
           (clear_liability_keywords cfg) in
    let details1 :=
      match kw_hit with
      | Some kw => [PyStr.fstr ["Clear liability indicator: "; kw]]
      | None => []
      end in
    let rear_end :=
      (PyStr.contains "rear" liability_text && PyStr.contains "end" liability_text)%bool in
    let details2 :=
      details1 ++
      when (rear_end && negb (PyStr.mem "Rear-end collision" details1))%bool
           "Rear-end collision (presumed liability)" in
    let dui := PyStr.any_in ["dui"; "dwi"; "drunk"; "intoxicated"; "bac"] liability_text in
    let cited :=
      PyStr.any_in ["citation"; "ticket"; "cited"; "ticketed"] liability_text in
    let details :=
      details2 ++ when dui "DUI/DWI involved"
      ++ when cited "Citation issued to defendant" in
    let clear_liability :=
      ((match kw_hit with Some _ => true | None => false end)
       || rear_end || dui || cited)%bool in
    let points := if clear_liability then clear_liability_points cfg else 0 in
    (clear_liability, points, details_or details "Liability unclear or not documented").

Definition _analyze_insurance (cfg : QualificationConfig) (lead : Lead) : bool * Z :=
  let carrier :=
    PyStr.lower (PyStr.strip (PyStr.or_else (insurance_carrier lead) "")) in
  if (PyStr.is_empty carrier
      || PyStr.mem carrier [""; "unknown"; "n/a"; "none"; "tbd"])%bool
  then (false, 0)
  else if PyStr.mem carrier ["uninsured"; "uninsured motorist"; "um"; "no insurance"]
  then (false, 0)
  else (true, identified_insurance_points cfg).

Definition _analyze_sol (cfg : QualificationConfig) (months_remaining : option Z)
  : bool * Z :=
  match months_remaining with
  | None => (false, 0)
  | Some m =>
      if m <? min_sol_months_remaining cfg then (false, 0)
      else if 24 <? m then (true, sol_buffer_points cfg)
      else (true, 0)
  end.

Definition injury_type_map : list (list string * string) :=
  [(["fracture"; "broken"; "break"], "Fracture injuries");
   (["surgery"; "surgical"], "Surgical case");
   (["traumatic brain"; "tbi"; "concussion"; "head injury"], "Head/Brain injury");
   (["spinal"; "spine"; "back injury"; "neck injury"; "herniated"], "Spinal injuries");
   (["torn"; "rupture"; "acl"; "mcl"; "rotator cuff"], "Torn ligament/tendon");
   (["whiplash"; "strain"; "sprain"], "Whiplash/soft tissue")].

Definition _analyze_injury_severity (cfg : QualificationConfig) (lead : Lead)
  : bool * Z * string :=
  let injury_text := PyStr.lower (PyStr.or_else (injury_description lead) "") in
  let med_text := PyStr.lower (PyStr.or_else (medical_treatment lead) "") in
  let combined := PyStr.fstr [injury_text; " "; med_text] in
  let injury_type :=
    match find (fun p => PyStr.any_in (fst p) combined) injury_type_map with
    | Some p => snd p
    | None => "Soft tissue injuries"
    end in
  let is_serious := PyStr.any_in (serious_injury_keywords cfg) combined in
  let points := if is_serious then serious_injury_points cfg else 0 in
  (is_serious, points, injury_type).

(** *** Tier decision function *)

Definition _determine_tier (cfg : QualificationConfig) (score : Z)
    (safety_flags : list SafetyFlag) (is_in_sc sol_adequate : bool)
  : QualificationTier :=
  if negb is_in_sc then TIER_3_AUTO_DECLINE
  else if negb sol_adequate then TIER_3_AUTO_DECLINE
  else
    let review_flags :=
      filter (fun f => PyStr.mem (severity f) ["block"; "review"]) safety_flags in
    if (nonempty review_flags && (tier1_threshold cfg <=? score))%bool
    then TIER_2_REVIEW
    else if tier1_threshold cfg <=? score then TIER_1_AUTO_ACCEPT
    else if tier2_threshold cfg <=? score then TIER_2_REVIEW
    else TIER_3_AUTO_DECLINE.

(** *** Analysis lists, case value, notes *)

Definition _build_analysis_lists (lead : Lead)
    (medical_met liability_met insurance_met sol_adequate serious is_tri_county : bool)
    (county : option string) (medical_details liability_details : string)
  : list string * list string * list string * list string :=
  let strengths :=
    when medical_met (PyStr.fstr ["Medical treatment threshold met: "; medical_details])
    ++ when liability_met (PyStr.fstr ["Clear liability established: "; liability_details])
    ++ when insurance_met
         (PyStr.fstr ["Insurance carrier identified: ";
                      match insurance_carrier lead with Some s => s | None => "None" end])
    ++ when sol_adequate "Statute of limitations adequate"
    ++ when serious "Serious injury documented"
    ++ when is_tri_county
         (PyStr.fstr ["Tri-county area (";
                      if PyStr.truthy county
                      then PyStr.title (PyStr.or_else county "")
                      else "Unknown";
                      " County)"]) in
  let concerns :=
    when (negb medical_met) "Medical treatment may not meet threshold"
    ++ when (negb liability_met) "Liability not clearly established"
    ++ when (negb insurance_met) "Insurance carrier not identified or UM-only"
    ++ when (negb sol_adequate) "Statute of limitations concern" in
  let no_date := match accident_date lead with None => true | Some _ => false end in
  let missing_info :=
    when no_date "Accident date not provided"
    ++ when (negb (PyStr.truthy (accident_location lead))) "Accident location not provided"
    ++ when (negb (PyStr.truthy (injury_description lead))) "Injury description not provided"
    ++ when (negb (PyStr.truthy (medical_treatment lead)))
         "Medical treatment details not provided"
    ++ when (negb (PyStr.truthy (liability_notes lead))) "Liability notes not provided" in
  let questions :=
    (if medical_met then []
     else ["What medical treatment have you received so far?";
           "Have you seen an orthopedic specialist or had any imaging (X-ray, MRI)?"])
    ++ (if liability_met then []
        else ["How did the accident occur? Who was at fault?";
              "Was a police report filed? Were any citations issued?"])
    ++ when (negb insurance_met) "Do you know the at-fault driver's insurance company?"
    ++ when no_date "When did the accident occur?" in
  (strengths, concerns, missing_info, questions).

(** The estimate is a float in the source; each value it can take is a
    whole number of dollars, kept here as an integer. *)
Definition _estimate_case_value (serious medical_met liability_met is_tri_county : bool)
  : option Z :=
  if negb (medical_met && liability_met) then None
  else
    let base_value := if serious then 75000 else 25000 in
    Some (if is_tri_county then base_value * 12 / 10 else base_value).

(** [self.claude_client]: a client exists exactly when an API key is set. *)
Definition claude_client (cc : ClaudeConfig) : bool :=
  negb (PyStr.is_empty (api_key cc)).

(** The commentary call.  The second component is the list of requests
    sent to the service. *)
Definition _get_ai_analysis (cc : ClaudeConfig) (svc : CommentaryService)
    (lead : Lead) (score : Z) (tier : QualificationTier) (flags : list SafetyFlag)
  : option string * list AiRequest :=
  if negb (claude_client cc) then (None, [])
  else
    let req := mkAiRequest lead score tier flags (model cc) (max_tokens cc) in
    (try_except (text <- svc req ;; Ok (Some text)) (fun _ => None), [req]).

(** [for x in xs: notes += f"{pre}{x}\n"]. *)
Definition bullet_lines (pre : string) (xs : list string) : string :=
  PyStr.fstr (map (fun x => PyStr.fstr [pre; x; nl]) xs).

(** [for i, q in enumerate(questions, i0): notes += f"  {i}. {q}\n"]. *)
Fixpoint numbered_lines (i : Z) (qs : list string) : string :=
  match qs with
  | [] => ""
  | q :: qs' =>
      PyStr.fstr [PyStr.fstr ["  "; PyStr.of_Z i; ". "; q; nl]; numbered_lines (i + 1) qs']
  end.

(** [timestamp] is the text [datetime.now().strftime(...)] produced. *)
Definition _generate_qualification_notes (timestamp : string)
    (tier : QualificationTier) (score : Z)
    (strengths concerns missing_info questions : list string)
    (safety_flags : list SafetyFlag) (ai_analysis : option string) : string :=
  let ai_text := PyStr.or_else ai_analysis "" in
  match tier with
  | TIER_1_AUTO_ACCEPT =>
      PyStr.fstr
        [PyStr.fstr ["Auto-qualified "; timestamp; "."; nl; nl];
         PyStr.fstr ["Score: "; PyStr.of_Z score; " points"; nl; nl];
         PyStr.fstr ["CRITERIA MET:"; nl];
         bullet_lines "  - " strengths;
         if PyStr.truthy ai_analysis
         then PyStr.fstr [nl; "AI ASSESSMENT:"; nl; ai_text; nl] else "";
         PyStr.fstr [nl; "Recommended intake call within 24 hours."]]
  | TIER_2_REVIEW =>
      PyStr.fstr
        [PyStr.fstr ["Flagged for review "; timestamp; "."; nl; nl];
         PyStr.fstr ["Score: "; PyStr.of_Z score; " points"; nl; nl];
         if nonempty strengths
         then PyStr.fstr ["STRENGTHS:"; nl; bullet_lines "  + " strengths; nl] else "";
         if nonempty concerns
         then PyStr.fstr ["CONCERNS:"; nl; bullet_lines "  - " concerns; nl] else "";
         if nonempty safety_flags
         then PyStr.fstr ["SAFETY FLAGS:"; nl;
                          bullet_lines "  ! " (map description safety_flags); nl]
         else "";
         if nonempty missing_info
         then PyStr.fstr ["MISSING INFORMATION:"; nl;
                          bullet_lines "  ? " missing_info; nl]
         else "";
         if nonempty questions
         then PyStr.fstr ["RECOMMENDED QUESTIONS:"; nl; numbered_lines 1 questions; nl]
         else "";
         if PyStr.truthy ai_analysis
         then PyStr.fstr ["AI ASSESSMENT:"; nl; ai_text; nl] else ""]
  | TIER_3_AUTO_DECLINE =>
      PyStr.fstr
        [PyStr.fstr ["Auto-declined "; timestamp; "."; nl; nl];
         PyStr.fstr ["Score: "; PyStr.of_Z score; " points"; nl; nl];
         PyStr.fstr ["REASONS FOR DECLINE:"; nl];
         bullet_lines "  - " concerns;
         if nonempty safety_flags
         then bullet_lines "  - " (map description safety_flags) else ""]
  end.

(** *** Rule-based qualification engine *)

(** [LeadQualifier.qualify_lead].  The result comes with the requests
    sent to the commentary service during the run. *)
Definition qualify_lead (cfg : QualificationConfig) (cc : ClaudeConfig)
    (svc : CommentaryService) (clk : Clock) (lead : Lead)
  : Res (QualificationResult * list AiRequest) :=
  let '(county, is_tri_county, is_in_sc) :=
    _analyze_geography cfg (accident_location lead) in
  months_until_sol <- _calculate_sol_remaining cfg (today clk) (accident_date lead) ;;
  let safety_flags := _check_safety_rules cfg lead in
  let '(medical_met, medical_points, medical_details) :=
    _analyze_medical_treatment cfg lead in
  let '(liability_met, liability_points, liability_details) :=
    _analyze_liability cfg lead in
  let '(insurance_met, insurance_points) := _analyze_insurance cfg lead in
  let '(sol_adequate, sol_points) := _analyze_sol cfg months_until_sol in
  let '(serious, serious_points, injury_type) := _analyze_injury_severity cfg lead in
  let geographic_bonus :=
    if negb is_in_sc then 0
    else if is_tri_county then tri_county_bonus cfg
    else 0 in
  let total_score :=
    medical_points + liability_points + insurance_points + sol_points
    + serious_points + geographic_bonus in
  let tier := _determine_tier cfg total_score safety_flags is_in_sc sol_adequate in
  let '(strengths, concerns, missing_info, questions) :=
    _build_analysis_lists lead medical_met liability_met insurance_met sol_adequate
      serious is_tri_county county medical_details liability_details in
  let estimated_value :=
    _estimate_case_value serious medical_met liability_met is_tri_county in
  let '(ai_analysis, sent) :=
    if (claude_client cc && negb (tier_eqb tier TIER_3_AUTO_DECLINE))%bool
    then _get_ai_analysis cc svc lead total_score tier safety_flags
    else (None, []) in
  let notes :=
    _generate_qualification_notes (stamp clk) tier total_score strengths concerns
      missing_info questions safety_flags ai_analysis in
  Ok ({| tier := tier;
         total_score := total_score;
         medical_treatment_met := medical_met;
         medical_treatment_pts := medical_points;
         liability_met := liability_met;
         liability_points := liability_points;
         insurance_identified := insurance_met;
         insurance_points := insurance_points;
         sol_adequate := sol_adequate;
         sol_points := sol_points;
         serious_injury := serious;
         serious_injury_pts := serious_points;
         geographic_bonus := geographic_bonus;
         county := county;
         is_tri_county := is_tri_county;
         is_in_sc := is_in_sc;
         months_until_sol := months_until_sol;
         estimated_case_value := estimated_value;
         injury_type := injury_type;
         qualification_notes := notes;
         strengths := strengths;
         concerns := concerns;
         missing_info := missing_info;
         recommended_questions := questions;
         safety_flags := safety_flags;
         ai_analysis := ai_analysis |}, sent).

End LeadQualifier.
Import LeadQualifier.

Definition set_ai_analysis (r : QualificationResult) (a : option string)
  : QualificationResult :=
  {| tier := tier r;
     total_score := total_score r;
     medical_treatment_met := medical_treatment_met r;
     medical_treatment_pts := medical_treatment_pts r;
     liability_met := liability_met r;
     liability_points := liability_points r;
     insurance_identified := insurance_identified r;
     insurance_points := insurance_points r;
     sol_adequate := sol_adequate r;
     sol_points := sol_points r;
     serious_injury := serious_injury r;
     serious_injury_pts := serious_injury_pts r;
     geographic_bonus := geographic_bonus r;
     county := county r;
     is_tri_county := is_tri_county r;
     is_in_sc := is_in_sc r;
     months_until_sol := months_until_sol r;
     estimated_case_value := estimated_case_value r;
     injury_type := injury_type r;
     qualification_notes := qualification_notes r;
     strengths := strengths r;
     concerns := concerns r;
     missing_info := missing_info r;
     recommended_questions := recommended_questions r;
     safety_flags := safety_flags r;
     ai_analysis := a |}.

(** [qualify_lead_fallback]: a qualifier built with [ClaudeConfig()], then
    the commentary field overwritten. *)
Definition qualify_lead_fallback (cfg : QualificationConfig)
    (svc : CommentaryService) (clk : Clock) (lead : Lead)
  : Res (QualificationResult * list AiRequest) :=
  p <- qualify_lead cfg ClaudeConfig_default svc clk lead ;;
  Ok (set_ai_analysis (fst p)
        (Some "AI analysis unavailable - using keyword-based scoring only"),
      snd p).

(* ===================================================================== *)
(** ** Decoded JSON and the dynamic operations applied to it *)
(* ===================================================================== *)

(** A Python [float] as [json.loads] can produce it. *)
Inductive pyfloat : Type :=
| FNum (num : Z) (den : positive)
| FNaN
| FInf (negative : bool).

(** What [json.loads] returns: [None], [bool], [int], [float], [str],
    [list] or [dict] (items in insertion order). *)
Inductive json : Type :=
| JNull
| JBool (b : bool)
| JInt (n : Z)
| JFloat (f : pyfloat)
| JStr (s : string)
| JArr (items : list json)
| JObj (fields : list (string * json)).

Module Py.

Definition raise {A : Type} (k : exn_kind) (msg : string) : Res A :=
  Raise (mkExn k msg).

Fixpoint assoc (k : string) (kv : list (string * json)) : option json :=
  match kv with
  | [] => None
  | (k', v) :: kv' => if String.eqb k k' then Some v else assoc k kv'
  end.

(** [data.get(key, default)]; only a [dict] has [get]. *)
Definition get (data : json) (key : string) (default : json) : Res json :=
  match data with
  | JObj kv => Ok (match assoc key kv with Some v => v | None => default end)
  | _ => raise AttributeError "object has no attribute 'get'"
  end.

Fixpoint digits_value (acc : Z) (s : string) (after_digit : bool) : option Z :=
  match s with
  | EmptyString => if after_digit then Some acc else None
  | String c s' =>
      if PyStr.is_digit_char c
      then digits_value (acc * 10 + Z.of_nat (PyStr.code c - 48)) s' true
      else if (Nat.eqb (PyStr.code c) 95 && after_digit)%bool
      then match s' with
           | String d _ => if PyStr.is_digit_char d then digits_value acc s' false
                           else None
           | EmptyString => None
           end
      else None
  end.

(** The blanks [int()] skips around a literal: TAB..CR and the space.
    The separators FS..US (0x1c-0x1f), which [str.strip()] removes, are not
    among them: [int("\x1f5")] raises. *)
Definition is_int_blank (c : ascii) : bool :=
  (PyStr.between 9 13 c || Nat.eqb (PyStr.code c) 32)%bool.

Fixpoint skip_blanks (s : string) : string :=
  match s with
  | EmptyString => EmptyString
  | String c s' => if is_int_blank c then skip_blanks s' else s
  end.

Fixpoint drop_trailing_blanks (s : string) : string :=
  match s with
  | EmptyString => EmptyString
  | String c s' =>
      match drop_trailing_blanks s' with
      | EmptyString => if is_int_blank c then EmptyString else String c EmptyString
      | r => String c r
      end
  end.

(** [int(s)] for a string: blanks skipped at both ends, an optional sign,
    decimal digits with single underscores between them. *)
Definition int_of_string (s : string) : option Z :=
  match drop_trailing_blanks (skip_blanks s) with
  | String "-"%char r => option_map Z.opp (digits_value 0 r false)
  | String "+"%char r => digits_value 0 r false
  | r => digits_value 0 r false
  end.

(** The builtin [int(x)]. *)
Definition int (x : json) : Res Z :=
  match x with
  | JInt n => Ok n
  | JBool b => Ok (if b then 1 else 0)
  | JFloat (FNum n d) => Ok (Z.quot n (Z.pos d))
  | JFloat FNaN => raise ValueError "cannot convert float NaN to integer"
  | JFloat (FInf _) => raise OverflowError "cannot convert float infinity to integer"
  | JStr s =>
      match int_of_string s with
      | Some n => Ok n
      | None => raise ValueError "invalid literal for int() with base 10"
      end
  | JNull | JArr _ | JObj _ =>
      raise TypeError "int() argument must be a string or a number"
  end.

(** [x.upper()]; only a [str] has it. *)
Definition upper (x : json) : Res string :=
  match x with
  | JStr s => Ok (PyStr.upper s)
  | _ => raise AttributeError "object has no attribute 'upper'"
  end.

(** The builtin [len(x)]. *)
Definition len (x : json) : Res Z :=
  match x with
  | JStr s => Ok (Z.of_nat (String.length s))
  | JArr l => Ok (Z.of_nat (List.length l))
  | JObj kv => Ok (Z.of_nat (List.length kv))
  | _ => raise TypeError "object has no len()"
  end.

(** Truth value of a decoded value. *)
Definition truthy (x : json) : bool :=
  match x with
  | JNull => false
  | JBool b => b
  | JInt n => negb (n =? 0)
  | JFloat (FNum n _) => negb (n =? 0)
  | JFloat _ => true
  | JStr s => negb (PyStr.is_empty s)
  | JArr l => nonempty l
  | JObj kv => nonempty kv
  end.

Fixpoint all_strings (l : list json) : option (list string) :=
  match l with
  | [] => Some []
  | JStr s :: l' => option_map (cons s) (all_strings l')
  | _ :: _ => None
  end.

Fixpoint chars (s : string) : list string :=
  match s with
  | EmptyString => []
  | String c s' => String c EmptyString :: chars s'
  end.

(** [sep.join(x)]: [x] must be iterable and yield only strings. *)
Definition join (sep : string) (x : json) : Res string :=
  match x with
  | JArr l =>
      match all_strings l with
      | Some ss => Ok (PyStr.join sep ss)
      | None => raise TypeError "sequence item: expected str instance"
      end
  | JStr s => Ok (PyStr.join sep (chars s))
  | JObj kv => Ok (PyStr.join sep (map fst kv))
  | _ => raise TypeError "can only join an iterable"
  end.

End Py.

(* ===================================================================== *)
(** ** Tier-1 scorer ([src/chatgpt_scorer.py]) *)
(* ===================================================================== *)

Inductive Recommendation : Type :=
| FAST_TRACK
| CLAUDE_REVIEW
| DECLINE
| NEED_INFO.

Definition recommendation_value (r : Recommendation) : string :=
  match r with
  | FAST_TRACK => "FAST-TRACK"
  | CLAUDE_REVIEW => "CLAUDE-REVIEW"
  | DECLINE => "DECLINE"
  | NEED_INFO => "NEED-INFO"
  end.

Record ChatGPTScoringResult : Type := mkChatGPTScoringResult {
  score : Z;
  recommendation : Recommendation;
  analysis : json;
  red_flags : json;
  confidence : Z;
  incident_type_score : Z;
  injury_severity_score : Z;
  liability_score : Z;
  insurance_score : Z;
  sol_score : Z;
  geographic_score : Z;
  raw_response : option string
}.

Record OpenAIConfig : Type := mkOpenAIConfig {
  openai_api_key : string;
  openai_model : string;
  openai_max_tokens : Z
}.

(** What [_format_lead_data] interpolates: the lead's fields and the whole
    days since the incident. *)
Record LeadData : Type := mkLeadData {
  ld_lead : Lead;
  ld_days_since : option Z
}.

Record ScoringRequest : Type := mkScoringRequest {
  sr_lead_data : LeadData;
  sr_model : string;
  sr_max_tokens : Z
}.

(** [s.split(sep, 1)[1]]. *)
Fixpoint split1_tail (sep : ascii) (s : string) : Res string :=
  match s with
  | EmptyString => Py.raise IndexError "list index out of range"
  | String c s' => if Ascii.eqb c sep then Ok s' else split1_tail sep s'
  end.

(** [s.rsplit(sep, 1)[0]]: the text before the last occurrence of [sep],
    or all of [s] when there is none. *)
Fixpoint before_last (sep s : string) : option string :=
  match s with
  | EmptyString => if String.prefix sep "" then Some "" else None
  | String c s' =>
      match before_last sep s' with
      | Some h => Some (String c h)
      | None => if String.prefix sep s then Some "" else None
      end
  end.
Definition rsplit1_head (sep s : string) : string :=
  match before_last sep s with
  | Some h => h
  | None => s
  end.

Definition endswith (suffix s : string) : bool :=
  let n := String.length s in
  let k := String.length suffix in
  (Nat.leb k n && String.eqb (PyStr.drop (n - k) s) suffix)%bool.

Definition fence : string := "```".

(** The clean-up both parsers apply before [json.loads]. *)
Definition clean_response (raw : option string) : Res string :=
  match raw with
  | None => Py.raise AttributeError "'NoneType' object has no attribute 'strip'"
  | Some raw_response =>
      let cleaned := PyStr.strip raw_response in
      cleaned <- (if PyStr.startswith fence cleaned
                  then split1_tail (ascii_of_nat 10) cleaned
                  else Ok cleaned) ;;
      let cleaned :=
        if endswith fence cleaned then rsplit1_head fence cleaned else cleaned in
      Ok (PyStr.strip cleaned)
  end.

(** [json.loads], given; [None] stands for [JSONDecodeError]. *)
Definition JsonLoads : Type := string -> option json.

Definition loads_or_raise (loads : JsonLoads) (s : string) : Res json :=
  match loads s with
  | Some v => Ok v
  | None => Py.raise JSONDecodeError "Expecting value"
  end.

(** [try: body except json.JSONDecodeError: handler]. *)
Definition except_json_decode {A : Type} (body : Res A) (handler : A) : Res A :=
  match body with
  | Ok a => Ok a
  | Raise e =>
      match exn_class e with
      | JSONDecodeError => Ok handler
      | _ => Raise e
      end
  end.

(** The Tier-1 provider: the completion call followed by
    [response.choices[0].message.content], which may be [None]. *)
Definition ScoringService : Type := ScoringRequest -> Res (option string).

(** *** Class [ChatGPTScorer] *)

Module ChatGPTScorer.

(** [(datetime.now() - lead.accident_date).days]; the template then
    prints the number only when it is truthy. *)
Definition _format_lead_data (now : Datetime.t) (lead : Lead) : LeadData :=
  let days_since :=
    match accident_date lead with
    | Some d =>
        Some (Datetime.ordinal now - Datetime.ordinal d
              - (if Datetime.usec_of_day now <? Datetime.usec_of_day d then 1 else 0))
    | None => None
    end in
  mkLeadData lead
    match days_since with
    | Some n => if n =? 0 then None else Some n
    | None => None
    end.

Definition _determine_recommendation (th : ScoringThresholds) (score : Z)
    (gpt_recommendation : string) (missing_info : json) : Res Recommendation :=
  if fast_track th <=? score then Ok FAST_TRACK
  else if claude_review th <=? score then Ok CLAUDE_REVIEW
  else
    c1 <- (if need_info th <=? score
           then n <- Py.len missing_info ;; Ok (0 <? n)
           else Ok false) ;;
    if (c1 : bool) then Ok NEED_INFO
    else
      c2 <- (if String.eqb gpt_recommendation "NEED-INFO"
             then n <- Py.len missing_info ;; Ok (0 <? n)
             else Ok false) ;;
      if (c2 : bool) then Ok NEED_INFO else Ok DECLINE.

Definition scorer_parse_error : ChatGPTScoringResult :=
  {| score := 0;
     recommendation := CLAUDE_REVIEW;
     analysis := JStr "Failed to parse scoring response. Escalating to Claude.";
     red_flags := JArr [JStr "Parse error - response was not valid JSON"];
     confidence := 0;
     incident_type_score := 0;
     injury_severity_score := 0;
     liability_score := 0;
     insurance_score := 0;
     sol_score := 0;
     geographic_score := 0;
     raw_response := None |}.

(** The body of [_parse_response]'s [try] block. *)
Definition _parse_response_body (loads : JsonLoads) (th : ScoringThresholds)
    (raw : option string) : Res ChatGPTScoringResult :=
    (cleaned <- clean_response raw ;;
     data <- loads_or_raise loads cleaned ;;
     components <- Py.get data "component_scores" (JObj []) ;;
     v <- Py.get data "score" (JInt 0) ;;
     score <- Py.int v ;;
     v <- Py.get data "recommendation" (JStr "CLAUDE-REVIEW") ;;
     rec_str <- Py.upper v ;;
     missing_info <- Py.get data "missing_information" (JArr []) ;;
     recommendation <- _determine_recommendation th score rec_str missing_info ;;
     analysis <- Py.get data "analysis" (JStr "No analysis provided") ;;
     red_flags <- Py.get data "red_flags" (JArr []) ;;
     v <- Py.get data "confidence" (JInt 50) ;;
     confidence <- Py.int v ;;
     v <- Py.get components "incident_type" (JInt 0) ;;
     incident_type <- Py.int v ;;
     v <- Py.get components "injury_severity" (JInt 0) ;;
     injury_severity <- Py.int v ;;
     v <- Py.get components "liability" (JInt 0) ;;
     liability <- Py.int v ;;
     v <- Py.get components "insurance" (JInt 0) ;;
     insurance <- Py.int v ;;
     v <- Py.get components "sol" (JInt 0) ;;
     sol <- Py.int v ;;
     v <- Py.get components "geographic" (JInt 0) ;;
     geographic <- Py.int v ;;
     Ok {| score := score;
           recommendation := recommendation;
           analysis := analysis;
           red_flags := red_flags;
           confidence := confidence;
           incident_type_score := incident_type;
           injury_severity_score := injury_severity;
           liability_score := liability;
           insurance_score := insurance;
           sol_score := sol;
           geographic_score := geographic;
           raw_response := None |}).

(** [ChatGPTScorer._parse_response]. *)
Definition _parse_response (loads : JsonLoads) (th : ScoringThresholds)
    (raw : option string) : Res ChatGPTScoringResult :=
  except_json_decode (_parse_response_body loads th raw) scorer_parse_error.

Definition set_raw_response (r : ChatGPTScoringResult) (raw : option string)
  : ChatGPTScoringResult :=
  {| score := score r;
     recommendation := recommendation r;
     analysis := analysis r;
     red_flags := red_flags r;
     confidence := confidence r;
     incident_type_score := incident_type_score r;
     injury_severity_score := injury_severity_score r;
     liability_score := liability_score r;
     insurance_score := insurance_score r;
     sol_score := sol_score r;
     geographic_score := geographic_score r;
     raw_response := raw |}.

Definition scorer_failure (e : exn) : ChatGPTScoringResult :=
  {| score := 0;
     recommendation := CLAUDE_REVIEW;
     analysis :=
       JStr (PyStr.fstr ["ChatGPT scoring failed: "; exn_text e;
                         ". Escalating to Claude for manual review."]);
     red_flags := JArr [JStr "API Error - scoring failed"];
     confidence := 0;
     incident_type_score := 0;
     injury_severity_score := 0;
     liability_score := 0;
     insurance_score := 0;
     sol_score := 0;
     geographic_score := 0;
     raw_response := None |}.

(** The body of [score_lead]'s [try] block. *)
Definition score_lead_body (loads : JsonLoads) (cfg : OpenAIConfig)
    (th : ScoringThresholds) (svc : ScoringService) (lead_data : LeadData)
  : Res ChatGPTScoringResult :=
  raw_response <-
    svc (mkScoringRequest lead_data (openai_model cfg) (openai_max_tokens cfg)) ;;
  result <- _parse_response loads th raw_response ;;
  Ok (set_raw_response result raw_response).

(** [ChatGPTScorer.score_lead]. *)
Definition score_lead (loads : JsonLoads) (cfg : OpenAIConfig)
    (th : ScoringThresholds) (svc : ScoringService) (now : Datetime.t) (lead : Lead)
  : ChatGPTScoringResult :=
  let lead_data := _format_lead_data now lead in
  try_except (score_lead_body loads cfg th svc lead_data) scorer_failure.

End ChatGPTScorer.
Import ChatGPTScorer.

(* ===================================================================== *)
(** ** Tier-2 analyzer ([src/claude_analyzer.py]) *)
(* ===================================================================== *)

(** Fields that share a name with a field of another dataclass carry the
    suffix [_t2]. *)
Record ClaudeAnalysisResult : Type := mkClaudeAnalysisResult {
  deep_analysis : json;
  case_comparisons : json;
  carrier_strategy : json;
  missing_gaps : json;
  recommended_questions_t2 : json;
  final_recommendation : json;
  confidence_t2 : Z;
  estimated_value_range : json;
  negotiation_notes : json;
  raw_response_t2 : option string
}.

Record CarrierIntel : Type := mkCarrierIntel {
  tendency : string;
  intel_notes : string;
  litigation_likelihood : string
}.

Definition CARRIER_INTELLIGENCE : list (string * CarrierIntel) :=
  [("state farm",
    mkCarrierIntel "moderate"
      "Generally reasonable but slow. Expect 60-day response times. Often settles at 70-80% of demand."
      "low");
   ("geico",
    mkCarrierIntel "aggressive"
      "Known for lowball offers. Initial offers typically 40-50% of demand. Be prepared to litigate."
      "high");
   ("allstate",
    mkCarrierIntel "aggressive"
      "Boxing gloves mentality. Low initial offers. Recommend strong demand with litigation threat."
      "high");
   ("usaa",
    mkCarrierIntel "fair"
      "Generally fair and professional. Often settles reasonably. Good faith negotiators."
      "low");
   ("progressive",
    mkCarrierIntel "moderate"
      "Varies by adjuster. Document everything. Mid-range settlement tendency."
      "moderate");
   ("nationwide",
    mkCarrierIntel "moderate"
      "Professional but firm. Expect negotiations. Usually settles before trial."
      "moderate");
   ("liberty mutual",
    mkCarrierIntel "aggressive"
      "Corporate defense mindset. Low offers. May require litigation to get fair value."
      "high");
   ("farmers",
    mkCarrierIntel "moderate"
      "Reasonable in clear liability cases. Can be difficult in disputed liability."
      "moderate")].

Record CaseMatch : Type := mkCaseMatch {
  file_name : string;
  snippet : string
}.

(** The document-search collaborator: [search(keywords, max_results)]. *)
Definition DriveSearcher : Type := list string -> Z -> Res (list CaseMatch).

(** What [CLAUDE_ANALYSIS_PROMPT.format] interpolates. *)
Record AnalysisRequest : Type := mkAnalysisRequest {
  ar_gpt_score : Z;
  ar_gpt_recommendation : string;
  ar_gpt_analysis : json;
  ar_gpt_red_flags : string;
  ar_lead_data : LeadData;
  ar_case_comparisons : string;
  ar_carrier_intel : string;
  ar_model : string;
  ar_max_tokens : Z
}.

(** The Tier-2 provider: [messages.create] then [message.content[0].text]. *)
Definition AnalysisService : Type := AnalysisRequest -> Res string.

(** *** Class [ClaudeAnalyzer] *)

Module ClaudeAnalyzer.

Definition search_keywords (lead : Lead) : list string :=
  let from_injury :=
    if PyStr.truthy (injury_description lead) then
      let injury_lower := PyStr.lower (PyStr.or_else (injury_description lead) "") in
      when (PyStr.any_in ["fracture"; "broken"] injury_lower) "fracture"
      ++ when (PyStr.any_in ["surgery"; "surgical"] injury_lower) "surgery"
      ++ when (PyStr.any_in ["herniated"; "disc"; "bulging"] injury_lower) "herniated disc"
      ++ when (PyStr.any_in ["tbi"; "concussion"; "brain"] injury_lower) "TBI"
    else [] in
  let from_liability :=
    if PyStr.truthy (liability_notes lead) then
      let liability_lower := PyStr.lower (PyStr.or_else (liability_notes lead) "") in
      when (PyStr.contains "rear" liability_lower
            && PyStr.contains "end" liability_lower)%bool "rear-end"
      ++ when (PyStr.any_in ["slip"; "fall"; "premises"] liability_lower)
           "premises liability"
    else [] in
  let keywords :=
    from_injury ++ from_liability
    ++ filter_truthy [insurance_carrier lead]
    ++ filter_truthy [accident_location lead] in
  if nonempty keywords then keywords else ["settlement"; "personal injury"].

Definition _search_similar_cases (drive : option DriveSearcher) (lead : Lead) : string :=
  match drive with
  | None => "Google Drive search not configured. No case comparisons available."
  | Some searcher =>
      try_except
        (matches <- searcher (search_keywords lead) 5 ;;
         Ok (if nonempty matches
             then PyStr.join nl
                    (map (fun m => PyStr.fstr ["- "; file_name m; ": "; snippet m]) matches)
             else "No similar cases found in firm files."))
        (fun e => PyStr.fstr ["Drive search error: "; exn_text e])
  end.

Definition _get_carrier_intelligence (carrier : option string) : string :=
  if negb (PyStr.truthy carrier)
  then "Insurance carrier not identified. Cannot provide carrier-specific strategy."
  else
    let carrier_text := PyStr.or_else carrier "" in
    let carrier_lower := PyStr.strip (PyStr.lower carrier_text) in
    match find (fun p => (PyStr.contains (fst p) carrier_lower
                          || PyStr.contains carrier_lower (fst p))%bool)
               CARRIER_INTELLIGENCE with
    | Some (_, intel) =>
        PyStr.fstr [nl; "Carrier: "; carrier_text; nl;
                    "Settlement Tendency: "; tendency intel; nl;
                    "Litigation Likelihood: "; litigation_likelihood intel; nl;
                    "Notes: "; intel_notes intel; nl]
    | None =>
        PyStr.fstr ["Carrier '"; carrier_text;
                    "' not in intelligence database. Use standard negotiation approach."]
    end.

(** The same text as in the scorer class.
    [(datetime.now() - lead.accident_date).days]; the template then
    prints the number only when it is truthy. *)
Definition _format_lead_data (now : Datetime.t) (lead : Lead) : LeadData :=
  let days_since :=
    match accident_date lead with
    | Some d =>
        Some (Datetime.ordinal now - Datetime.ordinal d
              - (if Datetime.usec_of_day now <? Datetime.usec_of_day d then 1 else 0))
    | None => None
    end in
  mkLeadData lead
    match days_since with
    | Some n => if n =? 0 then None else Some n
    | None => None
    end.

(** [raw_response[:2000]]. *)
Definition analyzer_parse_error (raw_response : string) : ClaudeAnalysisResult :=
  {| deep_analysis :=
       JStr (if PyStr.is_empty raw_response then "Parse error"
             else PyStr.take 2000 raw_response);
     case_comparisons := JStr "Unable to parse structured response";
     carrier_strategy := JStr "Manual review required";
     missing_gaps := JArr [JStr "Response parsing failed"];
     recommended_questions_t2 := JArr [];
     final_recommendation := JStr "Need More Info";
     confidence_t2 := 0;
     estimated_value_range := JNull;
     negotiation_notes := JNull;
     raw_response_t2 := None |}.

(** The body of [_parse_response]'s [try] block. *)
Definition _parse_response_body (loads : JsonLoads) (raw_response : string)
  : Res ClaudeAnalysisResult :=
    (cleaned <- clean_response (Some raw_response) ;;
     data <- loads_or_raise loads cleaned ;;
     deep <- Py.get data "deep_analysis" (JStr "No analysis provided") ;;
     comparisons <- Py.get data "case_comparisons" (JStr "No comparisons available") ;;
     strategy <- Py.get data "carrier_strategy" (JStr "Standard approach recommended") ;;
     gaps <- Py.get data "missing_gaps" (JArr []) ;;
     questions <- Py.get data "recommended_questions" (JArr []) ;;
     final <- Py.get data "final_recommendation" (JStr "Need More Info") ;;
     v <- Py.get data "confidence" (JInt 50) ;;
     conf <- Py.int v ;;
     value_range <- Py.get data "estimated_value_range" JNull ;;
     negotiation <- Py.get data "negotiation_notes" JNull ;;
     Ok {| deep_analysis := deep;
           case_comparisons := comparisons;
           carrier_strategy := strategy;
           missing_gaps := gaps;
           recommended_questions_t2 := questions;
           final_recommendation := final;
           confidence_t2 := conf;
           estimated_value_range := value_range;
           negotiation_notes := negotiation;
           raw_response_t2 := None |}).

(** [ClaudeAnalyzer._parse_response]. *)
Definition _parse_response (loads : JsonLoads) (raw_response : string)
  : Res ClaudeAnalysisResult :=
  except_json_decode (_parse_response_body loads raw_response)
    (analyzer_parse_error raw_response).

Definition set_raw_response_t2 (r : ClaudeAnalysisResult) (raw : option string)
  : ClaudeAnalysisResult :=
  {| deep_analysis := deep_analysis r;
     case_comparisons := case_comparisons r;
     carrier_strategy := carrier_strategy r;
     missing_gaps := missing_gaps r;
     recommended_questions_t2 := recommended_questions_t2 r;
     final_recommendation := final_recommendation r;
     confidence_t2 := confidence_t2 r;
     estimated_value_range := estimated_value_range r;
     negotiation_notes := negotiation_notes r;
     raw_response_t2 := raw |}.

Definition analyzer_failure (e : exn) : ClaudeAnalysisResult :=
  {| deep_analysis := JStr (PyStr.fstr ["Claude analysis failed: "; exn_text e]);
     case_comparisons := JStr "Unable to retrieve case comparisons due to API error.";
     carrier_strategy := JStr "Manual review required.";
     missing_gaps := JArr [JStr "Unable to complete analysis"];
     recommended_questions_t2 := JArr [];
     final_recommendation := JStr "Need More Info";
     confidence_t2 := 0;
     estimated_value_range := JNull;
     negotiation_notes := JNull;
     raw_response_t2 := None |}.

(** The red-flags argument of the prompt:
    [", ".join(flags) if flags else "None"]. *)
Definition render_red_flags (flags : json) : Res string :=
  if Py.truthy flags then Py.join ", " flags else Ok "None".

(** The body of [analyze_lead]'s [try] block. *)
Definition analyze_lead_body (loads : JsonLoads) (svc : AnalysisService)
    (req : AnalysisRequest) : Res ClaudeAnalysisResult :=
  raw_response <- svc req ;;
  result <- _parse_response loads raw_response ;;
  Ok (set_raw_response_t2 result (Some raw_response)).

(** The prompt arguments, computed before the [try] block is entered. *)
Definition build_analysis_request (cc : ClaudeConfig) (drive : option DriveSearcher)
    (now : Datetime.t) (lead : Lead) (gpt_result : ChatGPTScoringResult)
  : Res AnalysisRequest :=
  let comparisons := _search_similar_cases drive lead in
  let carrier_intel := _get_carrier_intelligence (insurance_carrier lead) in
  flags_text <- render_red_flags (red_flags gpt_result) ;;
  Ok {| ar_gpt_score := score gpt_result;
        ar_gpt_recommendation := recommendation_value (recommendation gpt_result);
        ar_gpt_analysis := analysis gpt_result;
        ar_gpt_red_flags := flags_text;
        ar_lead_data := _format_lead_data now lead;
        ar_case_comparisons := comparisons;
        ar_carrier_intel := carrier_intel;
        ar_model := model cc;
        ar_max_tokens := max_tokens cc |}.

(** [ClaudeAnalyzer.analyze_lead]. *)
Definition analyze_lead (loads : JsonLoads) (cc : ClaudeConfig)
    (drive : option DriveSearcher) (svc : AnalysisService) (now : Datetime.t)
    (lead : Lead) (gpt_result : ChatGPTScoringResult) : Res ClaudeAnalysisResult :=
  req <- build_analysis_request cc drive now lead gpt_result ;;
  Ok (try_except (analyze_lead_body loads svc req) analyzer_failure).

End ClaudeAnalyzer.
Import ClaudeAnalyzer.

(* ===================================================================== *)
(** ** Two-tier qualification engine ([src/qualifier.py]) *)
(* ===================================================================== *)

Record TwoTierResult : Type := mkTwoTierResult {
  chatgpt_score : Z;
  chatgpt_recommendation : string;
  chatgpt_analysis : json;
  chatgpt_red_flags : json;
  chatgpt_confidence : Z;
  claude_triggered : bool;
  claude_analysis : option json;
  claude_case_comparisons : option json;
  claude_carrier_strategy : option json;
  claude_recommendation : option json;
  claude_confidence : option Z;
  final_decision : json;
  final_confidence : Z
}.

(** Everything a [TwoTierQualifier] holds or reaches. *)
Record TwoTierEnv : Type := mkTwoTierEnv {
  env_loads : JsonLoads;
  env_openai : OpenAIConfig;
  env_claude : ClaudeConfig;
  env_thresholds : ScoringThresholds;
  env_scoring : ScoringService;
  env_analysis : AnalysisService;
  env_drive : option DriveSearcher;
  env_now : Datetime.t
}.

(** The result as initialised from the Tier-1 data. *)
Definition tier1_only (g : ChatGPTScoringResult) (decision : string) : TwoTierResult :=
  {| chatgpt_score := score g;
     chatgpt_recommendation := recommendation_value (recommendation g);
     chatgpt_analysis := analysis g;
     chatgpt_red_flags := red_flags g;
     chatgpt_confidence := confidence g;
     claude_triggered := false;
     claude_analysis := None;
     claude_case_comparisons := None;
     claude_carrier_strategy := None;
     claude_recommendation := None;
     claude_confidence := None;
     final_decision := JStr decision;
     final_confidence := confidence g |}.

Definition with_tier2 (g : ChatGPTScoringResult) (c : ClaudeAnalysisResult)
  : TwoTierResult :=
  {| chatgpt_score := score g;
     chatgpt_recommendation := recommendation_value (recommendation g);
     chatgpt_analysis := analysis g;
     chatgpt_red_flags := red_flags g;
     chatgpt_confidence := confidence g;
     claude_triggered := true;
     claude_analysis := Some (deep_analysis c);
     claude_case_comparisons := Some (case_comparisons c);
     claude_carrier_strategy := Some (carrier_strategy c);
     claude_recommendation := Some (final_recommendation c);
     claude_confidence := Some (confidence_t2 c);
     final_decision := final_recommendation c;
     final_confidence := confidence_t2 c |}.

Definition tier1_result (env : TwoTierEnv) (lead : Lead) : ChatGPTScoringResult :=
  score_lead (env_loads env) (env_openai env) (env_thresholds env) (env_scoring env)
    (env_now env) lead.

Definition tier2_result (env : TwoTierEnv) (lead : Lead) (g : ChatGPTScoringResult)
  : Res ClaudeAnalysisResult :=
  analyze_lead (env_loads env) (env_claude env) (env_drive env) (env_analysis env)
    (env_now env) lead g.

(** *** Class [TwoTierQualifier] *)

Module TwoTierQualifier.

(** [TwoTierQualifier.qualify_lead]. *)
Definition qualify_lead (env : TwoTierEnv) (lead : Lead) : Res TwoTierResult :=
  let gpt_result := tier1_result env lead in
  match recommendation gpt_result with
  | FAST_TRACK => Ok (tier1_only gpt_result "Accept")
  | CLAUDE_REVIEW =>
      claude_result <- tier2_result env lead gpt_result ;;
      Ok (with_tier2 gpt_result claude_result)
  | NEED_INFO => Ok (tier1_only gpt_result "Need More Info")
  | DECLINE => Ok (tier1_only gpt_result "Decline")
  end.

End TwoTierQualifier.

(* ===================================================================== *)
(** ** Specification-side definitions *)
(* ===================================================================== *)

(** The tier rules in the order the specification lists them.  [counts]
    says which safety flags count as present for rule 3. *)
Definition spec_tier_rules (counts : SafetyFlag -> bool) (cfg : QualificationConfig)
    (score : Z) (flags : list SafetyFlag) (in_jurisdiction sol_ok : bool)
  : QualificationTier :=
  if negb in_jurisdiction then TIER_3_AUTO_DECLINE
  else if negb sol_ok then TIER_3_AUTO_DECLINE
  else if (existsb counts flags && (tier1_threshold cfg <=? score))%bool then TIER_2_REVIEW
  else if tier1_threshold cfg <=? score then TIER_1_AUTO_ACCEPT
  else if tier2_threshold cfg <=? score then TIER_2_REVIEW
  else TIER_3_AUTO_DECLINE.

(** Rule 3 as worded: any flag at all. *)
Definition any_flag (_ : SafetyFlag) : bool := true.

(** Rule 3 as coded: a flag whose severity is block or review. *)
Definition reviewable (f : SafetyFlag) : bool :=
  (String.eqb (severity f) "block" || String.eqb (severity f) "review")%bool.

(** Strictness order on tiers: decline below review below accept. *)
Definition tier_rank (t : QualificationTier) : Z :=
  match t with
  | TIER_3_AUTO_DECLINE => 0
  | TIER_2_REVIEW => 1
  | TIER_1_AUTO_ACCEPT => 2
  end.

(** The coarser order of the monotonicity property: a review reached at an
    accept-level score (one forced by flags) ranks with an accept. *)
Definition favourability (cfg : QualificationConfig) (score : Z)
    (t : QualificationTier) : Z :=
  match t with
  | TIER_3_AUTO_DECLINE => 0
  | TIER_2_REVIEW => if tier1_threshold cfg <=? score then 2 else 1
  | TIER_1_AUTO_ACCEPT => 2
  end.

(** The six scored components. *)
Inductive Component : Type :=
| Medical | Liability | Insurance | Sol | Serious | Geographic.

Definition Component_eqb (a b : Component) : bool :=
  match a, b with
  | Medical, Medical | Liability, Liability | Insurance, Insurance
  | Sol, Sol | Serious, Serious | Geographic, Geographic => true
  | _, _ => false
  end.

Definition component_points (r : QualificationResult) (c : Component) : Z :=
  match c with
  | Medical => medical_treatment_pts r
  | Liability => liability_points r
  | Insurance => insurance_points r
  | Sol => sol_points r
  | Serious => serious_injury_pts r
  | Geographic => geographic_bonus r
  end.

(** A component's met state; for the geographic bonus, the condition under
    which it is granted. *)
Definition component_met (r : QualificationResult) (c : Component) : bool :=
  match c with
  | Medical => medical_treatment_met r
  | Liability => liability_met r
  | Insurance => insurance_identified r
  | Sol => sol_adequate r
  | Serious => serious_injury r
  | Geographic => (is_in_sc r && is_tri_county r)%bool
  end.

Definition configured_points (cfg : QualificationConfig) (c : Component) : Z :=
  match c with
  | Medical => medical_treatment_points cfg
  | Liability => clear_liability_points cfg
  | Insurance => identified_insurance_points cfg
  | Sol => sol_buffer_points cfg
  | Serious => serious_injury_points cfg
  | Geographic => tri_county_bonus cfg
  end.

Definition six_component_sum (r : QualificationResult) : Z :=
  medical_treatment_pts r + liability_points r + insurance_points r
  + sol_points r + serious_injury_pts r + geographic_bonus r.

(** [r1] and [r2] differ in the met state of [c] alone: [c] is met in [r1],
    unmet in [r2], and every other component scores the same in both. *)
Definition flipped_only (c : Component) (r1 r2 : QualificationResult) : Prop :=
  component_met r1 c = true /\ component_met r2 c = false /\
  forall c', c' <> c -> component_points r1 c' = component_points r2 c'.

(** More than 24 months remain. *)
Definition sol_buffer_earned (r : QualificationResult) : bool :=
  match months_until_sol r with
  | Some m => 24 <? m
  | None => false
  end.

(** The SOL expiration date of the lead is a representable [datetime]
    (always so when the lead has no accident date). *)
Definition sol_representable (cfg : QualificationConfig) (lead : Lead) : bool :=
  match accident_date lead with
  | None => true
  | Some d =>
      match Datetime.add_days d (sol_years cfg * 365) with
      | Ok _ => true
      | Raise _ => false
      end
  end.

(** The deterministic part of a result: every field but the AI narrative
    and the notes that quote it. *)
Definition same_deterministic_output (r1 r2 : QualificationResult) : Prop :=
  tier r1 = tier r2 /\ total_score r1 = total_score r2 /\
  medical_treatment_met r1 = medical_treatment_met r2 /\
  medical_treatment_pts r1 = medical_treatment_pts r2 /\
  liability_met r1 = liability_met r2 /\
  liability_points r1 = liability_points r2 /\
  insurance_identified r1 = insurance_identified r2 /\
  insurance_points r1 = insurance_points r2 /\
  sol_adequate r1 = sol_adequate r2 /\
  sol_points r1 = sol_points r2 /\
  serious_injury r1 = serious_injury r2 /\
  serious_injury_pts r1 = serious_injury_pts r2 /\
  geographic_bonus r1 = geographic_bonus r2 /\
  county r1 = county r2 /\
  is_tri_county r1 = is_tri_county r2 /\
  is_in_sc r1 = is_in_sc r2 /\
  months_until_sol r1 = months_until_sol r2 /\
  estimated_case_value r1 = estimated_case_value r2 /\
  injury_type r1 = injury_type r2 /\
  strengths r1 = strengths r2 /\
  concerns r1 = concerns r2 /\
  missing_info r1 = missing_info r2 /\
  recommended_questions r1 = recommended_questions r2 /\
  safety_flags r1 = safety_flags r2.

(** The Tier-1 override rules in the order the specification lists them. *)
Definition spec_recommendation (th : ScoringThresholds) (score : Z)
    (label : string) (missing : list json) : Recommendation :=
  if fast_track th <=? score then FAST_TRACK
  else if claude_review th <=? score then CLAUDE_REVIEW
  else if ((need_info th <=? score) && nonempty missing)%bool then NEED_INFO
  else if (String.eqb label "NEED-INFO" && nonempty missing)%bool then NEED_INFO
  else DECLINE.

Definition tier2_fields_null (r : TwoTierResult) : Prop :=
  claude_analysis r = None /\ claude_case_comparisons r = None /\
  claude_carrier_strategy r = None /\ claude_recommendation r = None /\
  claude_confidence r = None.

(** The Tier-1 provider call of one run. *)
Definition tier1_call (env : TwoTierEnv) (lead : Lead) : Res (option string) :=
  env_scoring env
    (mkScoringRequest (ChatGPTScorer._format_lead_data (env_now env) lead)
       (openai_model (env_openai env)) (openai_max_tokens (env_openai env))).

(** Tier 1 failed: the call raised, or the reply could not be turned into
    a scoring result (clean-up, JSON decoding or a field conversion raised). *)
Inductive tier1_failed (env : TwoTierEnv) (lead : Lead) : Prop :=
| tier1_call_raised (e : exn) :
    tier1_call env lead = Raise e -> tier1_failed env lead
| tier1_parse_raised (raw : option string) (e : exn) :
    tier1_call env lead = Ok raw ->
    ChatGPTScorer._parse_response_body (env_loads env) (env_thresholds env) raw = Raise e ->
    tier1_failed env lead.

(** Tier 2 failed on request [req]: the call raised, or the reply could
    not be turned into an analysis result. *)
Inductive tier2_failed (env : TwoTierEnv) (req : AnalysisRequest) : Prop :=
| tier2_call_raised (e : exn) :
    env_analysis env req = Raise e -> tier2_failed env req
| tier2_parse_raised (raw : string) (e : exn) :
    env_analysis env req = Ok raw ->
    ClaudeAnalyzer._parse_response_body (env_loads env) raw = Raise e ->
    tier2_failed env req.

(** The shape shared by the two conservative Tier-1 results. *)
Definition conservative (g : ChatGPTScoringResult) : Prop :=
  score g = 0 /\ recommendation g = CLAUDE_REVIEW /\ confidence g = 0 /\
  exists text, red_flags g = JArr [JStr text].

Definition tier2_request (env : TwoTierEnv) (lead : Lead) (g : ChatGPTScoringResult)
  : Res AnalysisRequest :=
  build_analysis_request (env_claude env) (env_drive env) (env_now env) lead g.

(* ===================================================================== *)
(** ** Worked inputs *)
(* ===================================================================== *)

Module Sample.

Definition tri_county : list string := ["charleston"; "berkeley"; "dorchester"].

Definition sc_counties : list string :=
  ["anderson"; "beaufort"; "berkeley"; "charleston"; "dorchester"; "florence";
   "greenville"; "horry"; "richland"; "spartanburg"; "york"].

Definition cfg : QualificationConfig := default_config tri_county sc_counties.

(** Preferred counties configured, accepted counties left empty. *)
Definition cfg_preferred_only : QualificationConfig :=
  default_config ["charleston"] [].

Definition clock : Clock :=
  mkClock (Datetime.of_ymd 2026 1 1) "2026-01-01 00:00:00".

Definition keyed : ClaudeConfig :=
  {| api_key := "sk-test"; model := "claude-sonnet-4-20250514"; max_tokens := 2048 |}.

Definition commentary : CommentaryService := fun _ => Ok "Strong case.".
Definition commentary_down : CommentaryService :=
  fun _ => Raise (mkExn ServiceError "connection refused").

Definition info_flag : SafetyFlag :=
  mkSafetyFlag "intake_note" "Referred by a former client" "info".

Definition lead_on (date : option Datetime.t) (location : string) : Lead :=
  {| record_id := "recTEST123";
     name := "Test Lead";
     phone := Some "(843) 555-1234";
     email := Some "test@example.com";
     lead_source := Some "Website";
     accident_date := date;
     accident_location := Some location;
     injury_description := Some "Fractured vertebrae, herniated disc";
     medical_treatment := Some "ER visit and orthopedic surgery";
     insurance_carrier := Some "State Farm";
     liability_notes := Some "Rear-end collision, citation issued to defendant" |}.

(** Accident two months before the clock: 34 months remain. *)
Definition lead_recent : Lead :=
  lead_on (Some (Datetime.of_ymd 2025 11 2)) "Charleston, SC".
(** Accident 2024-12-01: 23 months remain (adequate, no buffer point). *)
Definition lead_23_months : Lead :=
  lead_on (Some (Datetime.of_ymd 2024 12 1)) "Charleston, SC".
(** Accident 2024-01-01: 11 months remain (inadequate). *)
Definition lead_11_months : Lead :=
  lead_on (Some (Datetime.of_ymd 2024 1 1)) "Charleston, SC".
Definition lead_out_of_state : Lead :=
  lead_on (Some (Datetime.of_ymd 2025 11 2)) "Atlanta, GA".

(** A decoder that knows two replies. *)
Definition loads : JsonLoads :=
  fun s =>
    if String.eqb s "{}" then Some (JObj [])
    else if String.eqb s "t2-accept"
    then Some (JObj [("final_recommendation", JStr "Accept"); ("confidence", JInt 80)])
    else None.

Definition env_with (scoring : ScoringService) (analysis : AnalysisService)
  : TwoTierEnv :=
  {| env_loads := loads;
     env_openai := mkOpenAIConfig "sk-openai" "gpt-4-turbo-preview" 1024;
     env_claude := keyed;
     env_thresholds := ScoringThresholds_default;
     env_scoring := scoring;
     env_analysis := analysis;
     env_drive := None;
     env_now := Datetime.of_ymd 2026 1 1 |}.

Definition down {A B : Type} : A -> Res B :=
  fun _ => Raise (mkExn ServiceError "connection refused").

(** Tier 1 unreachable, Tier 2 answers. *)
Definition env_tier1_down : TwoTierEnv := env_with down (fun _ => Ok "t2-accept").
(** Tier 1 answers with an empty object (score 0: decline). *)
Definition env_tier1_empty : TwoTierEnv := env_with (fun _ => Ok (Some "{}")) down.
(** Both tiers unreachable. *)
Definition env_all_down : TwoTierEnv := env_with down down.

End Sample.

(* ===================================================================== *)
(** ** Calendar bookkeeping for the SOL calculator *)
(* ===================================================================== *)

(** The month count [year * 12 + month] of the day with ordinal [n]. *)
Definition month_index (n : Z) : Z :=
  fst (fst (Datetime.ord2ymd n)) * 12 + snd (fst (Datetime.ord2ymd n)).

(** [p] holds at [start], [start + 1], ..., [count] values in all. *)
Fixpoint all_from (p : Z -> bool) (start : Z) (count : nat) : bool :=
  match count with
  | O => true
  | S c => (p start && all_from p (start + 1) c)%bool
  end.

(** From one day to the next the month count does not decrease, and the
    month field is between 1 and 12. *)
Definition month_step_ok (n : Z) : bool :=
  let a := fst (Datetime.ord2ymd n) in
  let b := fst (Datetime.ord2ymd (n + 1)) in
  ((fst a * 12 + snd a <=? fst b * 12 + snd b)
   && (1 <=? snd a) && (snd a <=? 12))%bool.

(* ===================================================================== *)
(** ** Letter case of a lead's free text *)
(* ===================================================================== *)

(** An optional text field in capitals. *)
Definition shout (o : option string) : option string := option_map PyStr.upper o.

(** The lead with its five free-text case facts in capitals. *)
Definition upper_lead (l : Lead) : Lead :=
  {| record_id := record_id l;
     name := name l;
     phone := phone l;
     email := email l;
     lead_source := lead_source l;
     accident_date := accident_date l;
     accident_location := shout (accident_location l);
     injury_description := shout (injury_description l);
     medical_treatment := shout (medical_treatment l);
     insurance_carrier := shout (insurance_carrier l);
     liability_notes := shout (liability_notes l) |}.

(** The five free-text case facts of the lead are ASCII text. *)
Definition ascii_field (o : option string) : bool :=
  match o with
  | Some s => PyStr.is_ascii s
  | None => true
  end.

Definition ascii_lead (l : Lead) : bool :=
  (ascii_field (accident_location l) && ascii_field (injury_description l)
   && ascii_field (medical_treatment l) && ascii_field (insurance_carrier l)
   && ascii_field (liability_notes l))%bool.

(** Everything a result decides or scores, leaving out the texts that
    quote the lead (strengths, notes) and the AI narrative. *)
Definition same_scoring (r1 r2 : QualificationResult) : Prop :=
  tier r1 = tier r2 /\ total_score r1 = total_score r2 /\
  medical_treatment_met r1 = medical_treatment_met r2 /\
  liability_met r1 = liability_met r2 /\
  insurance_identified r1 = insurance_identified r2 /\
  sol_adequate r1 = sol_adequate r2 /\
  serious_injury r1 = serious_injury r2 /\
  geographic_bonus r1 = geographic_bonus r2 /\
  county r1 = county r2 /\
  is_tri_county r1 = is_tri_county r2 /\
  is_in_sc r1 = is_in_sc r2 /\
  months_until_sol r1 = months_until_sol r2 /\
  estimated_case_value r1 = estimated_case_value r2 /\
  injury_type r1 = injury_type r2 /\
  safety_flags r1 = safety_flags r2 /\
  concerns r1 = concerns r2 /\
  missing_info r1 = missing_info r2 /\
  recommended_questions r1 = recommended_questions r2.

(* ===================================================================== *)
(** ** Further definitions for the geography resolver and the AI tiers *)
(* ===================================================================== *)

(** Every character of [s] satisfies [p]. *)
Fixpoint all_chars (p : ascii -> bool) (s : string) : bool :=
  match s with
  | EmptyString => true
  | String c s' => (p c && all_chars p s')%bool
  end.

(** How far a Tier-1 recommendation carries a lead: decline, ask for
    information, escalate to Tier 2, accept. *)
Definition recommendation_rank (r : Recommendation) : Z :=
  match r with
  | DECLINE => 0
  | NEED_INFO => 1
  | CLAUDE_REVIEW => 2
  | FAST_TRACK => 3
  end.

(** [TwoTierQualifier.get_status_for_decision]:
    [status_map.get(decision, "In Review")].  A [list] or [dict] cannot be
    hashed as a key. *)
Definition get_status_for_decision (decision : json) : Res string :=
  match decision with
  | JStr s =>
      Ok (if String.eqb s "Accept" then "Accepted"
          else if String.eqb s "Decline" then "Declined"
          else if String.eqb s "Need More Info" then "Need More Info"
          else "In Review")
  | JArr _ | JObj _ => Py.raise TypeError "unhashable type"
  | _ => Ok "In Review"
  end.


(* ===================================================================== *)
(** ** The orchestrator ([src/main.py]) *)
(* ===================================================================== *)

(** [l[:n]] for a Python integer [n]: a negative [n] counts from the end,
    and the bounds are clamped to the list. *)
Definition py_prefix {A : Type} (n : Z) (l : list A) : list A :=
  if 0 <=? n then firstn (Z.to_nat n) l
  else firstn (List.length l - Z.to_nat (- n)) l.

Module ProcessedLead.
Record t : Type := mk {
  record_id : string;
  name : string;
  timestamp : Datetime.t;
  tier : string;
  score : Z;
  status : string;
  injury_type : string;
  county : option string;
  clio_matter_url : option string;
  error : option string
}.
End ProcessedLead.

(** The dictionary [get_stats] returns. *)
Record HistoryStats : Type := mkHistoryStats {
  total_processed : Z;
  auto_accepted : Z;
  needs_review : Z;
  auto_declined : Z;
  errors : Z
}.

(** [sum(1 for l in h if p(l))]. *)
Definition count_if {A : Type} (p : A -> bool) (h : list A) : Z :=
  Z.of_nat (List.length (filter p h)).

Module ProcessingHistory.
Record t : Type := mk { max_size : Z; _history : list ProcessedLead.t }.

Definition init (max_size : Z) : t := mk max_size [].

Definition add (lead : ProcessedLead.t) (self : t) : t :=
  let inserted := lead :: _history self in
  mk (max_size self)
     (if max_size self <? Z.of_nat (List.length inserted)
      then py_prefix (max_size self) inserted
      else inserted).

Definition get_recent (limit : Z) (self : t) : list ProcessedLead.t :=
  py_prefix limit (_history self).

Definition get_stats (self : t) : HistoryStats :=
  let h := _history self in
  {| total_processed := Z.of_nat (List.length h);
     auto_accepted := count_if (fun l => String.eqb (ProcessedLead.tier l) "tier1") h;
     needs_review := count_if (fun l => String.eqb (ProcessedLead.tier l) "tier2") h;
     auto_declined := count_if (fun l => String.eqb (ProcessedLead.tier l) "tier3") h;
     errors := count_if (fun l => PyStr.truthy (ProcessedLead.error l)) h |}.
End ProcessingHistory.

(** [QualificationUpdate] of [src/airtable_client.py]. *)
Module QualificationUpdate.
Record t : Type := mk {
  status : string;
  qualification_score : Z;
  qualification_notes : string;
  auto_qualified : bool;
  county : option string;
  estimated_case_value : option Z
}.
End QualificationUpdate.

(** [MatterCreateRequest] and [CreatedMatter] of [src/clio_client.py]. *)
Module MatterCreateRequest.
Record t : Type := mk {
  client_name : string;
  matter_description : string;
  injury_type : string;
  accident_location : string;
  accident_date : option Datetime.t;
  lead_source : option string;
  phone : option string;
  email : option string
}.
End MatterCreateRequest.

Record CreatedMatter : Type := mkCreatedMatter { matter_id : Z; web_url : string }.

(** The calls a run makes on the outside world: the requests its
    qualifier sends to the commentary service, and the calls of the
    orchestrator on the Airtable client, the Clio client and the e-mail
    handler. *)
Inductive Action : Type :=
| RequestCommentary (request : AiRequest)
| GetNewLeads
| UpdateLead (record_id : string) (update : QualificationUpdate.t)
| CreateMatter (request : MatterCreateRequest.t)
| SendAutoAcceptNotification (lead : Lead) (result : QualificationResult)
    (clio_url : option string)
| SendReviewNotification (lead : Lead) (result : QualificationResult)
| SendDeclineNotification (lead : Lead) (result : QualificationResult)
| SendReferralEmail (lead : Lead)
| SendErrorNotification (error_message : string) (lead : option Lead).

(** The collaborators.  Each answers a call with a value or by raising,
    and may answer differently depending on the calls made before it (the
    first argument). *)
Record Services : Type := mkServices {
  get_new_leads : list Action -> Res (list Lead);
  update_lead : list Action -> string -> QualificationUpdate.t -> Res bool;
  create_matter : list Action -> MatterCreateRequest.t -> Res (option CreatedMatter);
  send_auto_accept_notification :
    list Action -> Lead -> QualificationResult -> option string -> Res bool;
  send_review_notification : list Action -> Lead -> QualificationResult -> Res bool;
  send_decline_notification : list Action -> Lead -> QualificationResult -> Res bool;
  send_referral_email : list Action -> Lead -> Res bool;
  send_error_notification : list Action -> string -> option Lead -> Res bool
}.

(** What a run changes: the calls made so far and the global
    [processing_history]. *)
Record RunState : Type := mkRunState {
  trace : list Action;
  history : ProcessingHistory.t
}.

(** A computation that may raise, over the run state.  The state survives
    a raise. *)
Definition Run (A : Type) : Type := RunState -> Res A * RunState.

Definition ret {A : Type} (a : A) : Run A := fun st => (Ok a, st).

Definition rbind {A B : Type} (m : Run A) (k : A -> Run B) : Run B :=
  fun st =>
    match m st with
    | (Ok a, st') => k a st'
    | (Raise e, st') => (Raise e, st')
    end.

Notation "x <~ m ;; k" := (rbind m (fun x => k))
  (at level 61, m at next level, right associativity).

(** [try: m except Exception as e: h e]. *)
Definition rtry {A : Type} (m : Run A) (h : exn -> Run A) : Run A :=
  fun st =>
    match m st with
    | (Ok a, st') => (Ok a, st')
    | (Raise e, st') => h e st'
    end.

(** A call on a collaborator: it is answered from the calls made before,
    and recorded. *)
Definition call {A : Type} (a : Action) (answer : list Action -> Res A) : Run A :=
  fun st => (answer (trace st), mkRunState (trace st ++ [a]) (history st)).

(** A step that cannot raise. *)
Definition lift {A : Type} (m : Res A) : Run A := fun st => (m, st).

(** [if c: m], the value of [m] dropped. *)
Definition when_ {A : Type} (c : bool) (m : Run A) : Run unit :=
  if c then (_ <~ m ;; ret tt) else ret tt.

(** [processing_history.add(processed)]. *)
Definition history_add (processed : ProcessedLead.t) : Run unit :=
  fun st => (Ok tt, mkRunState (trace st) (ProcessingHistory.add processed (history st))).

(** The part of [AppConfig] the orchestrator reads, with the collaborators
    and the commentary service of its qualifier. *)
Record Processor : Type := mkProcessor {
  qualification : QualificationConfig;
  claude : ClaudeConfig;
  clio_enabled : bool;
  email_enabled : bool;
  commentary : CommentaryService;
  services : Services
}.

(** The clock readings of one [process_lead] run: in the qualifier, in
    the fallback qualifier, and for the timestamp of the record. *)
Record Readings : Type := mkReadings {
  at_qualify : Clock;
  at_fallback : Clock;
  at_record : Datetime.t
}.

(** [AirtableClient.mark_for_review] of [src/airtable_client.py]. *)
Definition mark_for_review (sv : Services) (record_id reason : string) : Run bool :=
  let update :=
    QualificationUpdate.mk "In Review" 0
      (PyStr.fstr ["Requires manual review - processing error: "; reason])
      false None None in
  call (UpdateLead record_id update) (fun t => update_lead sv t record_id update).

Module LeadProcessor.

Definition _tier_to_status (tier : QualificationTier) : string :=
  match tier with
  | TIER_1_AUTO_ACCEPT => "Accepted"
  | TIER_2_REVIEW => "In Review"
  | TIER_3_AUTO_DECLINE => "Declined"
  end.

Definition notify_error (p : Processor) (message : string) (lead : option Lead)
  : Run bool :=
  call (SendErrorNotification message lead)
       (fun t => send_error_notification (services p) t message lead).

Definition airtable_update (p : Processor) (lead : Lead) (update : QualificationUpdate.t)
  : Run bool :=
  call (UpdateLead (record_id lead) update)
       (fun t => update_lead (services p) t (record_id lead) update).

Definition _handle_tier1 (p : Processor) (lead : Lead) (result : QualificationResult)
  : Run (option string) :=
  let update :=
    QualificationUpdate.mk "Accepted" (total_score result) (qualification_notes result)
      true (county result) (estimated_case_value result) in
  updated <~ airtable_update p lead update ;;
  _ <~ when_ (negb updated && email_enabled p)%bool
         (notify_error p "Failed to update Airtable for auto-accepted lead" (Some lead)) ;;
  clio_url <~
    (if clio_enabled p then
       rtry
         (let matter_request :=
            MatterCreateRequest.mk (name lead)
              (PyStr.fstr [injury_type result; " - ";
                           PyStr.or_else (accident_location lead) "Unknown Location"])
              (injury_type result)
              (PyStr.or_else (accident_location lead) "Unknown")
              (accident_date lead) (lead_source lead) (phone lead) (email lead) in
          matter <~ call (CreateMatter matter_request)
                      (fun t => create_matter (services p) t matter_request) ;;
          match matter with
          | Some m => ret (Some (web_url m))
          | None =>
              _ <~ when_ (email_enabled p)
                     (notify_error p
                        "Auto-accepted but failed to create Clio matter. Please create manually."
                        (Some lead)) ;;
              ret None
          end)
         (fun e =>
            _ <~ when_ (email_enabled p)
                   (notify_error p
                      (PyStr.fstr ["Clio API error: "; exn_text e;
                                   ". Please create matter manually."])
                      (Some lead)) ;;
            ret None)
     else ret None) ;;
  _ <~ when_ (email_enabled p)
         (call (SendAutoAcceptNotification lead result clio_url)
               (fun t => send_auto_accept_notification (services p) t lead result clio_url)) ;;
  ret clio_url.

Definition _handle_tier2 (p : Processor) (lead : Lead) (result : QualificationResult)
  : Run unit :=
  let update :=
    QualificationUpdate.mk "In Review" (total_score result) (qualification_notes result)
      false (county result) (estimated_case_value result) in
  _ <~ airtable_update p lead update ;;
  when_ (email_enabled p)
    (call (SendReviewNotification lead result)
          (fun t => send_review_notification (services p) t lead result)).

Definition _handle_tier3 (p : Processor) (lead : Lead) (result : QualificationResult)
  : Run unit :=
  let update :=
    QualificationUpdate.mk "Declined" (total_score result) (qualification_notes result)
      false (county result) None in
  _ <~ airtable_update p lead update ;;
  if email_enabled p then
    _ <~ when_ (PyStr.truthy (email lead))
           (call (SendReferralEmail lead)
                 (fun t => send_referral_email (services p) t lead)) ;;
    _ <~ call (SendDeclineNotification lead result)
           (fun t => send_decline_notification (services p) t lead result) ;;
    ret tt
  else ret tt.

Definition _handle_error (p : Processor) (lead : Lead) (error_message : string)
  : Run unit :=
  _ <~ mark_for_review (services p) (record_id lead) error_message ;;
  when_ (email_enabled p) (notify_error p error_message (Some lead)).

(** The requests a qualifier run sent to the commentary service enter
    the trace. *)
Definition record_commentary (sent : list AiRequest) : Run unit :=
  fun st =>
    (Ok tt, mkRunState (trace st ++ map RequestCommentary sent) (history st)).

(** [self.qualifier.qualify_lead(lead)], and [qualify_lead_fallback] when
    it raises.  A run of the engine that raises has sent no request: it
    raises in the SOL calculator, before the commentary call. *)
Definition qualify_with_fallback (p : Processor) (rd : Readings) (lead : Lead)
  : Run QualificationResult :=
  match qualify_lead (qualification p) (claude p) (commentary p) (at_qualify rd) lead with
  | Ok (result, sent) => _ <~ record_commentary sent ;; ret result
  | Raise _ =>
      match qualify_lead_fallback (qualification p) (commentary p) (at_fallback rd)
              lead with
      | Ok (result, sent) => _ <~ record_commentary sent ;; ret result
      | Raise e => lift (Raise e)
      end
  end.

Definition success_record (rd : Readings) (lead : Lead) (result : QualificationResult)
    (clio_url : option string) : ProcessedLead.t :=
  ProcessedLead.mk (record_id lead) (name lead) (at_record rd)
    (tier_value (tier result)) (total_score result) (_tier_to_status (tier result))
    (injury_type result) (county result) clio_url None.

Definition error_record (rd : Readings) (lead : Lead) (e : exn) : ProcessedLead.t :=
  ProcessedLead.mk (record_id lead) (name lead) (at_record rd)
    "error" 0 "In Review" "Unknown" None None (Some (exn_text e)).

Definition process_lead (p : Processor) (rd : Readings) (lead : Lead)
  : Run ProcessedLead.t :=
  rtry
    (result <~ qualify_with_fallback p rd lead ;;
     clio_url <~
       match tier result with
       | TIER_1_AUTO_ACCEPT => _handle_tier1 p lead result
       | TIER_2_REVIEW => _ <~ _handle_tier2 p lead result ;; ret None
       | TIER_3_AUTO_DECLINE => _ <~ _handle_tier3 p lead result ;; ret None
       end ;;
     let processed := success_record rd lead result clio_url in
     _ <~ history_add processed ;;
     ret processed)
    (fun e =>
       _ <~ _handle_error p lead (exn_text e) ;;
       let processed := error_record rd lead e in
       _ <~ history_add processed ;;
       ret processed).

(** The loop of [process_all_new_leads] from the lead with index [i] on.
    [shutdown] is the reading of [self._shutdown_event.is_set()], which may
    change as the run goes on; [readings] gives the clock readings of the
    [i]-th [process_lead] call. *)
Fixpoint process_leads (p : Processor) (shutdown : list Action -> bool)
    (readings : nat -> Readings) (i : nat) (leads : list Lead) (processed_count : Z)
  : Run Z :=
  match leads with
  | [] => ret processed_count
  | lead :: rest =>
      fun st =>
        if shutdown (trace st) then (Ok processed_count, st)
        else (_ <~ process_lead p (readings i) lead ;;
              process_leads p shutdown readings (S i) rest (processed_count + 1)) st
  end.

Definition process_all_new_leads (p : Processor) (shutdown : list Action -> bool)
    (readings : nat -> Readings) : Run Z :=
  rtry
    (leads <~ call GetNewLeads (get_new_leads (services p)) ;;
     process_leads p shutdown readings 0 leads 0)
    (fun e =>
       _ <~ when_ (email_enabled p)
              (notify_error p
                 (PyStr.fstr ["Failed to fetch leads from Airtable: "; exn_text e])
                 None) ;;
       ret 0).

End LeadProcessor.

(** The call is an Airtable update of the record [rid]. *)
Definition is_update_of (rid : string) (a : Action) : bool :=
  match a with
  | UpdateLead r _ => String.eqb r rid
  | _ => false
  end.

(** The call reaches Clio or sends an e-mail. *)
Definition is_clio_or_email (a : Action) : bool :=
  match a with
  | RequestCommentary _ | GetNewLeads | UpdateLead _ _ => false
  | _ => true
  end.

(** A run step only adds calls to the trace and leaves the history as it
    was. *)
Definition keeps_history {A : Type} (m : Run A) : Prop :=
  forall st, history (snd (m st)) = history st /\
             exists new, trace (snd (m st)) = trace st ++ new.

(** Sample collaborators and runs. *)
Module SampleRun.

Definition services_up : Services :=
  {| get_new_leads := fun _ => Ok [Sample.lead_recent; Sample.lead_out_of_state];
     update_lead := fun _ _ _ => Ok true;
     create_matter := fun _ _ => Ok (Some (mkCreatedMatter 7 "https://app.clio.com/matters/7"));
     send_auto_accept_notification := fun _ _ _ _ => Ok true;
     send_review_notification := fun _ _ _ => Ok true;
     send_decline_notification := fun _ _ _ => Ok true;
     send_referral_email := fun _ _ => Ok true;
     send_error_notification := fun _ _ _ => Ok true |}.

(** Airtable and the error notification answer; Clio and every other
    e-mail raise. *)
Definition services_degraded : Services :=
  {| get_new_leads := Sample.down;
     update_lead := fun _ _ _ => Ok false;
     create_matter := fun _ => Sample.down;
     send_auto_accept_notification := fun _ _ _ => Sample.down;
     send_review_notification := fun _ _ => Sample.down;
     send_decline_notification := fun _ _ => Sample.down;
     send_referral_email := fun _ => Sample.down;
     send_error_notification := fun _ _ _ => Ok false |}.

Definition starter (sv : Services) : Processor :=
  mkProcessor Sample.cfg ClaudeConfig_default false false Sample.commentary_down sv.

Definition pro (sv : Services) : Processor :=
  mkProcessor Sample.cfg Sample.keyed true true Sample.commentary sv.

Definition readings : Readings :=
  mkReadings Sample.clock Sample.clock (Datetime.of_ymd 2026 1 1).

Definition start : RunState := mkRunState [] (ProcessingHistory.init 100).

Definition processed (rid tier : string) : ProcessedLead.t :=
  ProcessedLead.mk rid "Test Lead" (Datetime.of_ymd 2026 1 1) tier 0 "In Review"
    "Unknown" None None None.

(** An accident dated in the year 9998: with three years of limitation
    the expiration date is past the last representable day. *)
Definition lead_far_future : Lead :=
  Sample.lead_on (Some (Datetime.of_ymd 9998 6 1)) "Charleston, SC".

End SampleRun.

(** The record was returned by some run of [process_lead]. *)
Definition produced (pl : ProcessedLead.t) : Prop :=
  exists p rd lead st st', LeadProcessor.process_lead p rd lead st = (Ok pl, st').

(** The two shapes of a record: a success record of some tier, or an error
    record. *)
Definition success_shape (pl : ProcessedLead.t) : Prop :=
  ProcessedLead.error pl = None /\
  exists t, ProcessedLead.tier pl = tier_value t /\
            ProcessedLead.status pl = LeadProcessor._tier_to_status t.

Definition error_shape (pl : ProcessedLead.t) : Prop :=
  ProcessedLead.tier pl = "error" /\ ProcessedLead.status pl = "In Review" /\
  ProcessedLead.score pl = 0 /\ ProcessedLead.clio_matter_url pl = None /\
  exists text, ProcessedLead.error pl = Some text.

Definition is_error_tier (pl : ProcessedLead.t) : bool :=
  String.eqb (ProcessedLead.tier pl) "error".

(* ===================================================================== *)
(** ** The setup validators ([setup/validators.py]) *)
(* ===================================================================== *)

Module Validators.

Record ValidationResult : Type := mk {
  valid : bool;
  message : string;
  details : option json
}.

(** [not api_key or not api_key.strip()]. *)
Definition blank (api_key : string) : bool :=
  (PyStr.is_empty api_key || PyStr.is_empty (PyStr.strip api_key))%bool.

Definition validate_airtable_key (api_key base_id table_id : string)
  : ValidationResult :=
  if blank api_key then
    mk false "API key is required. Get yours at airtable.com/create/tokens" None
  else if negb (PyStr.startswith "pat_" api_key || PyStr.startswith "key" api_key)%bool
  then mk false "Invalid key format. Airtable keys start with 'pat_' or 'key'" None
  else mk true "API key format looks valid. Connection will be tested on first run."
         None.

Definition validate_anthropic_key (api_key : string) : ValidationResult :=
  if blank api_key then
    mk false "API key is required. Get yours at console.anthropic.com" None
  else if negb (PyStr.startswith "sk-ant-" api_key)
  then mk false "Invalid key format. Anthropic keys start with 'sk-ant-'" None
  else mk true "API key format is valid." None.

Definition validate_openai_key (api_key : string) : ValidationResult :=
  if blank api_key then
    mk false "API key is required. Get yours at platform.openai.com" None
  else if (negb (PyStr.startswith "sk-" api_key)
           || PyStr.startswith "sk-ant-" api_key)%bool
  then mk false "Invalid key format. OpenAI keys start with 'sk-' (not 'sk-ant-')" None
  else mk true "API key format is valid." None.

Definition validate_clio_credentials (client_id client_secret : string)
  : ValidationResult :=
  if (PyStr.is_empty client_id || PyStr.is_empty client_secret)%bool then
    mk false "Both Client ID and Client Secret are required." None
  else if ((Z.of_nat (String.length client_id) <? 10)
           || (Z.of_nat (String.length client_secret) <? 10))%bool
  then mk false "Credentials appear too short. Check your Clio developer settings."
         None
  else mk true "Credentials format is valid. OAuth flow will verify on connection."
         None.

End Validators.
(* ===================================================================== *)
(** ** Properties of the tier decision function *)
(* ===================================================================== *)

Lemma mem_In (x : string) (xs : list string) :
  PyStr.mem x xs = true <-> In x xs.
Proof.
  unfold PyStr.mem. rewrite existsb_exists. split.
  - intros [y [Hy He]]. apply String.eqb_eq in He. now subst.
  - intros H. exists x. split; [assumption | apply String.eqb_refl].
Qed.

Lemma nonempty_filter {A : Type} (p : A -> bool) (l : list A) :
  nonempty (filter p l) = existsb p l.
Proof.
  induction l as [|a l IH]; simpl; [reflexivity|].
  destruct (p a); simpl; [reflexivity | exact IH].
Qed.

Lemma existsb_all_true {A : Type} (p q : A -> bool) (l : list A) :
  (forall x, In x l -> p x = q x) -> existsb p l = existsb q l.
Proof.
  induction l as [|a l IH]; simpl; intros H; [reflexivity|].
  rewrite (H a) by now left. rewrite IH; [reflexivity|].
  intros x Hx. apply H. now right.
Qed.

Lemma reviewable_mem (f : SafetyFlag) :
  PyStr.mem (severity f) ["block"; "review"] = reviewable f.
Proof.
  unfold PyStr.mem, reviewable. simpl. now rewrite orb_false_r.
Qed.

Lemma determine_tier_reviewable cfg score flags in_sc sol :
  _determine_tier cfg score flags in_sc sol
  = spec_tier_rules reviewable cfg score flags in_sc sol.
Proof.
  unfold _determine_tier, spec_tier_rules.
  rewrite nonempty_filter.
  rewrite (existsb_all_true _ reviewable) by (intros; apply reviewable_mem).
  reflexivity.
Qed.

Lemma first_flag_severity kws test mk f :
  (forall kw, severity (mk kw) = "review") ->
  In f (first_flag kws test mk) -> severity f = "review".
Proof.
  intros Hmk. unfold first_flag. destruct (find test kws); simpl.
  - intros [<- | []]. apply Hmk.
  - intros [].
Qed.

(** Every flag the detector emits has severity review. *)
Lemma check_safety_rules_severity cfg lead f :
  In f (_check_safety_rules cfg lead) -> severity f = "review".
Proof.
  unfold _check_safety_rules. intros H.
  repeat (apply in_app_or in H; destruct H as [H | H]);
    try (eapply first_flag_severity; [| exact H]; intros; reflexivity).
  destruct (_ || _)%bool in H.
  - destruct H as [<- | []]. reflexivity.
  - eapply first_flag_severity; [| exact H]. intros; reflexivity.
Qed.

(** C1, code at the input of the counterexample: one flag of severity
    info, an accept-level score, in jurisdiction, SOL adequate.  The code
    accepts; rule 3 as worded (any safety flag present) demands a review. *)
Lemma determine_tier_info_flag_counterexample :
  _determine_tier Sample.cfg 11 [Sample.info_flag] true true = TIER_1_AUTO_ACCEPT /\
  spec_tier_rules any_flag Sample.cfg 11 [Sample.info_flag] true true = TIER_2_REVIEW /\
  _determine_tier Sample.cfg 11 [Sample.info_flag] true true
    <> spec_tier_rules any_flag Sample.cfg 11 [Sample.info_flag] true true.
Proof. repeat split; try reflexivity. discriminate. Qed.

(** C1 (amended): for every input the tier decision follows the six
    ordered rules, rule 3 reading "a safety flag of severity block or
    review is present and score >= accept threshold"; and on the flags the
    detector itself produces this is the same as "any safety flag is
    present". *)
Theorem determine_tier_follows_rules :
  (forall cfg score flags in_sc sol,
      _determine_tier cfg score flags in_sc sol
      = spec_tier_rules reviewable cfg score flags in_sc sol) /\
  (forall cfg lead score in_sc sol,
      _determine_tier cfg score (_check_safety_rules cfg lead) in_sc sol
      = spec_tier_rules any_flag cfg score (_check_safety_rules cfg lead) in_sc sol).
Proof.
  split.
  - apply determine_tier_reviewable.
  - intros. rewrite determine_tier_reviewable. unfold spec_tier_rules.
    rewrite (existsb_all_true reviewable any_flag); [reflexivity|].
    intros f Hf. apply check_safety_rules_severity in Hf.
    unfold reviewable, any_flag. rewrite Hf. reflexivity.
Qed.

(** C4: the tier decision is monotonic in the score.  With the flags, the
    jurisdiction flag and the SOL flag fixed and [s1 <= s2], the tier for
    [s2] is never stricter than the tier for [s1], both in the order
    decline < review < accept and in the coarser order that ranks a
    flag-forced review at an accept-level score with accept. *)
Theorem determine_tier_monotone cfg flags in_sc sol (s1 s2 : Z) (H : s1 <= s2) :
  tier_rank (_determine_tier cfg s1 flags in_sc sol)
    <= tier_rank (_determine_tier cfg s2 flags in_sc sol) /\
  favourability cfg s1 (_determine_tier cfg s1 flags in_sc sol)
    <= favourability cfg s2 (_determine_tier cfg s2 flags in_sc sol).
Proof.
  rewrite !determine_tier_reviewable. unfold spec_tier_rules, favourability.
  destruct in_sc, sol; simpl; try lia.
  destruct (existsb reviewable flags); simpl;
    destruct (Z.leb_spec (tier1_threshold cfg) s1),
             (Z.leb_spec (tier1_threshold cfg) s2),
             (Z.leb_spec (tier2_threshold cfg) s1),
             (Z.leb_spec (tier2_threshold cfg) s2); simpl; lia.
Qed.

Lemma determine_tier_monotone_witness :
  tier_rank (_determine_tier Sample.cfg 8 [Sample.info_flag] true true)
    <= tier_rank (_determine_tier Sample.cfg 12 [Sample.info_flag] true true) /\
  favourability Sample.cfg 8 (_determine_tier Sample.cfg 8 [Sample.info_flag] true true)
    <= favourability Sample.cfg 12
         (_determine_tier Sample.cfg 12 [Sample.info_flag] true true).
Proof.
  apply (determine_tier_monotone Sample.cfg [Sample.info_flag] true true 8 12). lia.
Defined.

(* ===================================================================== *)
(** ** Properties of the Tier-1 threshold override *)
(* ===================================================================== *)

Lemma len_items_positive (items : list json) :
  (0 <? Z.of_nat (List.length items)) = nonempty items.
Proof. destruct items; simpl; [reflexivity|]. apply Z.ltb_lt. lia. Qed.

(** C7: on a score, a provider label and a missing-information list, the
    override returns FAST-TRACK at or above the fast-track threshold, else
    CLAUDE-REVIEW at or above the review threshold, else NEED-INFO at or
    above the need-info threshold with a non-empty list, else NEED-INFO when
    the provider's label is NEED-INFO and the list is non-empty, else
    DECLINE. *)
Theorem determine_recommendation_rules th score label (missing : list json) :
  _determine_recommendation th score label (JArr missing)
  = Ok (spec_recommendation th score label missing).
Proof.
  unfold _determine_recommendation, spec_recommendation.
  destruct (fast_track th <=? score); [reflexivity|].
  destruct (claude_review th <=? score); [reflexivity|].
  simpl. rewrite len_items_positive.
  destruct (need_info th <=? score), (nonempty missing),
    (String.eqb label "NEED-INFO"); reflexivity.
Qed.

(* ===================================================================== *)
(** ** Properties of the SOL calculator *)
(* ===================================================================== *)






(* ===================================================================== *)
(** ** Properties of the geography resolver *)
(* ===================================================================== *)

Lemma match_group_nonempty c s k g :
  match_group (String c s) k = Some g -> g <> "".
Proof.
  induction k as [|k IH]; simpl; [discriminate|].
  destruct (match_tail _ _).
  - intros [= <-]. discriminate.
  - exact IH.
Qed.

Lemma search_county_nonempty s : forall prev g,
  search_county prev s = Some g -> g <> "".
Proof.
  induction s as [|c s IH]; intros prev g; simpl.
  - unfold match_here. simpl. destruct (word_boundary _ _); discriminate.
  - destruct (match_here prev (String c s)) as [g'|] eqn:E.
    + intros [= <-]. unfold match_here in E.
      destruct (word_boundary _ _); [|discriminate].
      eapply match_group_nonempty; eassumption.
    + apply IH.
Qed.

Lemma lookup_city_nonempty s g : lookup_city s = Some g -> g <> "".
Proof.
  unfold lookup_city. destruct (find _ _) as [p|] eqn:E; [|discriminate].
  intros [= <-]. apply find_some in E as [Hin _].
  unfold city_to_county in Hin. simpl in Hin.
  repeat (destruct Hin as [<- | Hin]; [discriminate|]). destruct Hin.
Qed.

(** The county the resolver settles on, as a function of the text alone. *)
Lemma analyze_geography_county cfg loc c :
  fst (fst (_analyze_geography cfg loc)) = Some c -> c <> "".
Proof.
  unfold _analyze_geography. destruct (negb (PyStr.truthy loc)); simpl; [discriminate|].
  destruct (search_county None _) as [g|] eqn:E.
  - intros [= <-]. eapply search_county_nonempty; eassumption.
  - apply lookup_city_nonempty.
Qed.

Lemma truthy_some c : c <> "" -> PyStr.truthy (Some c) = true.
Proof. destruct c; [congruence | reflexivity]. Qed.

(** C6: the preferred-region flag is true exactly when a county was
    resolved and that county is in the configured preferred-counties list;
    it does not depend on the accepted-counties list; and there is a
    configuration and a location for which the resolver returns
    preferred-region true together with in-jurisdiction false. *)
Theorem analyze_geography_preferred_independent :
  (forall cfg loc,
      snd (fst (_analyze_geography cfg loc)) = true <->
      exists c, fst (fst (_analyze_geography cfg loc)) = Some c /\
                In c (preferred_counties cfg)) /\
  (forall cfg cfg' loc,
      preferred_counties cfg = preferred_counties cfg' ->
      snd (fst (_analyze_geography cfg loc)) = snd (fst (_analyze_geography cfg' loc))) /\
  (exists cfg loc,
      _analyze_geography cfg loc = (Some "charleston", true, false)).
Proof.
  split; [|split].
  - intros cfg loc.
    pose proof (analyze_geography_county cfg loc) as Hne.
    unfold _analyze_geography in *.
    destruct (negb (PyStr.truthy loc)); simpl in *.
    + split; [discriminate | intros (c & [=] & _)].
    + destruct (match search_county None _ with Some g => Some g | None => _ end)
        as [c|]; simpl.
      * pose proof (truthy_some c (Hne c eq_refl)) as Ht. simpl in Ht.
        rewrite Ht, mem_In. split.
        -- intros H. exists c. now split.
        -- intros (c' & [= <-] & H). exact H.
      * split; [discriminate | intros (c & [=] & _)].
  - intros cfg cfg' loc H. unfold _analyze_geography.
    destruct (negb (PyStr.truthy loc)); simpl; [reflexivity|].
    rewrite H. reflexivity.
  - exists Sample.cfg_preferred_only, (Some "Charleston"). reflexivity.
Qed.

Lemma analyze_geography_preferred_independent_witness :
  snd (fst (_analyze_geography Sample.cfg (Some "Goose Creek, SC"))) = true.
Proof.
  destruct analyze_geography_preferred_independent as (H & _ & _).
  apply (H Sample.cfg (Some "Goose Creek, SC")).
  exists "berkeley". split; [reflexivity | simpl; auto].
Defined.

(* ===================================================================== *)
(** ** Properties of the rule-based engine *)
(* ===================================================================== *)

(** What a returned result records, call by call. *)
Lemma qualify_lead_inv cfg cc svc clk lead r sent :
  qualify_lead cfg cc svc clk lead = Ok (r, sent) ->
  _calculate_sol_remaining cfg (today clk) (accident_date lead)
    = Ok (months_until_sol r) /\
  _analyze_geography cfg (accident_location lead)
    = (county r, is_tri_county r, is_in_sc r) /\
  safety_flags r = _check_safety_rules cfg lead /\
  fst (_analyze_medical_treatment cfg lead)
    = (medical_treatment_met r, medical_treatment_pts r) /\
  fst (_analyze_liability cfg lead) = (liability_met r, liability_points r) /\
  _analyze_insurance cfg lead = (insurance_identified r, insurance_points r) /\
  _analyze_sol cfg (months_until_sol r) = (sol_adequate r, sol_points r) /\
  _analyze_injury_severity cfg lead
    = (serious_injury r, serious_injury_pts r, injury_type r) /\
  geographic_bonus r
    = (if negb (is_in_sc r) then 0
       else if is_tri_county r then tri_county_bonus cfg else 0) /\
  total_score r = six_component_sum r /\
  tier r = _determine_tier cfg (total_score r) (safety_flags r) (is_in_sc r)
             (sol_adequate r) /\
  (strengths r, concerns r, missing_info r, recommended_questions r)
    = _build_analysis_lists lead (medical_treatment_met r) (liability_met r)
        (insurance_identified r) (sol_adequate r) (serious_injury r)
        (is_tri_county r) (county r)
        (snd (_analyze_medical_treatment cfg lead))
        (snd (_analyze_liability cfg lead)) /\
  estimated_case_value r
    = _estimate_case_value (serious_injury r) (medical_treatment_met r)
        (liability_met r) (is_tri_county r) /\
  (ai_analysis r, sent)
    = (if (claude_client cc && negb (tier_eqb (tier r) TIER_3_AUTO_DECLINE))%bool
       then _get_ai_analysis cc svc lead (total_score r) (tier r) (safety_flags r)
       else (None, [])) /\
  qualification_notes r
    = _generate_qualification_notes (stamp clk) (tier r) (total_score r)
        (strengths r) (concerns r) (missing_info r) (recommended_questions r)
        (safety_flags r) (ai_analysis r).
Proof.
  unfold qualify_lead.
  destruct (_analyze_geography cfg (accident_location lead)) as [[cty tri] insc].
  destruct (_calculate_sol_remaining cfg (today clk) (accident_date lead))
    as [months|e]; [|discriminate].
  unfold bind.
  destruct (_analyze_medical_treatment cfg lead) as [[mm mp] md].
  destruct (_analyze_liability cfg lead) as [[lm lp] ld].
  destruct (_analyze_insurance cfg lead) as [im ip].
  destruct (_analyze_sol cfg months) as [sa sp] eqn:ES.
  destruct (_analyze_injury_severity cfg lead) as [[se spt] ity].
  destruct (_build_analysis_lists _ _ _ _ _ _ _ _ _ _) as [[[st co] mi] qu] eqn:EL.
  destruct (if (claude_client cc && _)%bool then _ else _) as [ai snt] eqn:EA.
  intros [= <- <-]. cbn [months_until_sol county is_tri_county is_in_sc safety_flags
    medical_treatment_met medical_treatment_pts liability_met liability_points
    insurance_identified insurance_points sol_adequate sol_points serious_injury
    serious_injury_pts injury_type geographic_bonus total_score tier strengths
    concerns missing_info recommended_questions estimated_case_value ai_analysis
    qualification_notes fst snd].
  rewrite EL, EA, ES. unfold six_component_sum. cbn.
  repeat split; reflexivity.
Qed.

(** Names the outcome of every analysis call in the goal. *)
Ltac split_analyses cfg cc lead :=
  destruct (_analyze_medical_treatment cfg lead) as [[? ?] ?];
  destruct (_analyze_liability cfg lead) as [[? ?] ?];
  destruct (_analyze_insurance cfg lead) as [? ?];
  destruct (_analyze_sol cfg _) as [? ?];
  destruct (_analyze_injury_severity cfg lead) as [[? ?] ?];
  destruct (_build_analysis_lists _ _ _ _ _ _ _ _ _ _) as [[[? ?] ?] ?];
  destruct (if (claude_client cc && _)%bool then _ else _) as [? ?].

(** The engine returns whenever the SOL expiration date is representable. *)
Lemma qualify_lead_returns cfg cc svc clk lead :
  sol_representable cfg lead = true ->
  exists r sent, qualify_lead cfg cc svc clk lead = Ok (r, sent).
Proof.
  unfold sol_representable, qualify_lead, _calculate_sol_remaining.
  destruct (_analyze_geography cfg (accident_location lead)) as [[cty tri] insc].
  destruct (accident_date lead) as [d|].
  - destruct (Datetime.add_days d (sol_years cfg * 365)) as [e|]; [|discriminate].
    intros _. unfold bind.
    destruct (Datetime.geb (today clk) e); split_analyses cfg cc lead;
      eexists; eexists; reflexivity.
  - intros _. unfold bind. split_analyses cfg cc lead.
    eexists; eexists; reflexivity.
Qed.

(** Without a representable expiration date the engine raises. *)
Lemma qualify_lead_overflow cfg cc svc clk lead :
  sol_representable cfg lead = false ->
  exists e, qualify_lead cfg cc svc clk lead = Raise e /\ exn_class e = OverflowError.
Proof.
  unfold sol_representable, qualify_lead, _calculate_sol_remaining.
  destruct (_analyze_geography cfg (accident_location lead)) as [[cty tri] insc].
  destruct (accident_date lead) as [d|]; [|discriminate].
  destruct (Datetime.add_days d (sol_years cfg * 365)) as [x|e] eqn:E; [discriminate|].
  intros _. exists e. split; [reflexivity|].
  unfold Datetime.add_days in E.
  destruct (Z.abs _ <=? _); destruct (_ && _)%bool; inversion E; reflexivity.
Qed.

Lemma medical_points_met cfg lead :
  snd (fst (_analyze_medical_treatment cfg lead))
  = if fst (fst (_analyze_medical_treatment cfg lead))
    then medical_treatment_points cfg else 0.
Proof. reflexivity. Qed.

Lemma liability_points_met cfg lead :
  snd (fst (_analyze_liability cfg lead))
  = if fst (fst (_analyze_liability cfg lead))
    then clear_liability_points cfg else 0.
Proof.
  unfold _analyze_liability.
  destruct (PyStr.is_empty _); reflexivity.
Qed.

Lemma insurance_points_met cfg lead :
  snd (_analyze_insurance cfg lead)
  = if fst (_analyze_insurance cfg lead)
    then identified_insurance_points cfg else 0.
Proof.
  unfold _analyze_insurance.
  destruct (_ || _)%bool; [reflexivity|].
  destruct (PyStr.mem _ _); reflexivity.
Qed.

Lemma sol_points_met cfg months :
  snd (_analyze_sol cfg months)
  = if fst (_analyze_sol cfg months)
    then (if match months with Some m => 24 <? m | None => false end
          then sol_buffer_points cfg else 0)
    else 0.
Proof.
  unfold _analyze_sol. destruct months as [m|]; [|reflexivity].
  destruct (m <? _); [reflexivity|]. destruct (24 <? m); reflexivity.
Qed.

Lemma serious_points_met cfg lead :
  snd (fst (_analyze_injury_severity cfg lead))
  = if fst (fst (_analyze_injury_severity cfg lead))
    then serious_injury_points cfg else 0.
Proof. reflexivity. Qed.

(** Points of a component in a returned result: the configured value when
    the component is met and 0 otherwise, except that an adequate SOL earns
    its buffer point only beyond 24 months. *)
Lemma component_points_met cfg cc svc clk lead r sent c :
  qualify_lead cfg cc svc clk lead = Ok (r, sent) ->
  component_points r c
  = if component_met r c
    then match c with
         | Sol => if sol_buffer_earned r then sol_buffer_points cfg else 0
         | _ => configured_points cfg c
         end
    else 0.
Proof.
  intros H. apply qualify_lead_inv in H.
  destruct H as (_ & _ & _ & Hm & Hl & Hi & Hs & Hj & Hg & _).
  destruct c; simpl.
  - pose proof (medical_points_met cfg lead) as E. rewrite Hm in E. exact E.
  - pose proof (liability_points_met cfg lead) as E. rewrite Hl in E. exact E.
  - pose proof (insurance_points_met cfg lead) as E. rewrite Hi in E. exact E.
  - pose proof (sol_points_met cfg (months_until_sol r)) as E. rewrite Hs in E. exact E.
  - pose proof (serious_points_met cfg lead) as E. rewrite Hj in E. exact E.
  - rewrite Hg. destruct (is_in_sc r), (is_tri_county r); reflexivity.
Qed.

Lemma flip_difference (r1 r2 : QualificationResult) (c : Component) :
  total_score r1 = six_component_sum r1 ->
  total_score r2 = six_component_sum r2 ->
  (forall c', c' <> c -> component_points r1 c' = component_points r2 c') ->
  total_score r1 - total_score r2 = component_points r1 c - component_points r2 c.
Proof.
  intros -> -> H. unfold six_component_sum.
  destruct c;
    pose proof (H Medical) as H1; pose proof (H Liability) as H2;
    pose proof (H Insurance) as H3; pose proof (H Sol) as H4;
    pose proof (H Serious) as H5; pose proof (H Geographic) as H6;
    simpl in *;
    repeat match goal with
           | K : ?a <> ?b -> _ |- _ =>
               first [ specialize (K ltac:(discriminate)) | clear K ]
           end; lia.
Qed.

(** Two leads that differ only in the accident date. *)
Lemma sol_flip_runs :
  exists r1 r2,
    qualify_lead Sample.cfg ClaudeConfig_default Sample.commentary Sample.clock
      Sample.lead_23_months = Ok (r1, []) /\
    qualify_lead Sample.cfg ClaudeConfig_default Sample.commentary Sample.clock
      Sample.lead_11_months = Ok (r2, []) /\
    (months_until_sol r1, sol_adequate r1, sol_points r1, total_score r1)
      = (Some 23, true, 0, 15) /\
    (months_until_sol r2, sol_adequate r2, sol_points r2, total_score r2)
      = (Some 11, false, 0, 15) /\
    forall c, c <> Sol -> component_points r1 c = component_points r2 c.
Proof.
  eexists. eexists.
  split; [vm_compute; reflexivity|].
  split; [vm_compute; reflexivity|].
  split; [reflexivity|]. split; [reflexivity|].
  intros c _. destruct c; reflexivity.
Qed.

(** C2, counterexample to the flip clause as worded: two leads that
    differ only in the accident date (23 against 11 months remaining).  SOL
    adequacy flips from met to unmet and every other component scores the
    same, yet total_score is 15 in both runs, while the configured SOL
    point value is 1. *)
Lemma sol_flip_counterexample :
  exists r1 r2,
    qualify_lead Sample.cfg ClaudeConfig_default Sample.commentary Sample.clock
      Sample.lead_23_months = Ok (r1, []) /\
    qualify_lead Sample.cfg ClaudeConfig_default Sample.commentary Sample.clock
      Sample.lead_11_months = Ok (r2, []) /\
    flipped_only Sol r1 r2 /\
    total_score r1 - total_score r2 = 0 /\
    configured_points Sample.cfg Sol = 1 /\
    total_score r1 - total_score r2 <> configured_points Sample.cfg Sol.
Proof.
  destruct sol_flip_runs as (r1 & r2 & H1 & H2 & E1 & E2 & Hother).
  exists r1, r2. injection E1 as _ Ha1 _ Ht1. injection E2 as _ Ha2 _ Ht2.
  repeat split; try assumption.
  - rewrite Ht1, Ht2. reflexivity.
  - rewrite Ht1, Ht2. discriminate.
Qed.

(** C2 (amended): for every pair of leads scored under one configuration
    (each with a representable SOL expiration date) the engine returns, and
    total_score is exactly the sum of the six component point values.  When
    the two results differ in the met state of one component alone, the
    totals differ by exactly that component's configured point value for
    medical treatment, liability, insurance, serious injury and the
    geographic bonus; for SOL adequacy they differ by the configured buffer
    points when more than 24 months remain in the adequate result, and by 0
    otherwise. *)
Theorem total_score_sum_and_flips cfg cc1 cc2 svc1 svc2 clk1 clk2 l1 l2
    (H1 : sol_representable cfg l1 = true) (H2 : sol_representable cfg l2 = true) :
  exists r1 s1 r2 s2,
    qualify_lead cfg cc1 svc1 clk1 l1 = Ok (r1, s1) /\
    qualify_lead cfg cc2 svc2 clk2 l2 = Ok (r2, s2) /\
    total_score r1 = six_component_sum r1 /\
    total_score r2 = six_component_sum r2 /\
    forall c, flipped_only c r1 r2 ->
      total_score r1 - total_score r2
      = match c with
        | Sol => if sol_buffer_earned r1 then sol_buffer_points cfg else 0
        | _ => configured_points cfg c
        end.
Proof.
  destruct (qualify_lead_returns cfg cc1 svc1 clk1 l1 H1) as (r1 & s1 & E1).
  destruct (qualify_lead_returns cfg cc2 svc2 clk2 l2 H2) as (r2 & s2 & E2).
  exists r1, s1, r2, s2.
  pose proof (qualify_lead_inv _ _ _ _ _ _ _ E1) as I1.
  pose proof (qualify_lead_inv _ _ _ _ _ _ _ E2) as I2.
  destruct I1 as (_ & _ & _ & _ & _ & _ & _ & _ & _ & T1 & _).
  destruct I2 as (_ & _ & _ & _ & _ & _ & _ & _ & _ & T2 & _).
  repeat split; try assumption.
  intros c (Hm1 & Hm2 & Hother).
  rewrite (flip_difference r1 r2 c T1 T2 Hother).
  rewrite (component_points_met _ _ _ _ _ _ _ c E1).
  rewrite (component_points_met _ _ _ _ _ _ _ c E2).
  rewrite Hm1, Hm2. lia.
Qed.

Lemma total_score_sum_and_flips_witness :
  exists r1 r2,
    qualify_lead Sample.cfg ClaudeConfig_default Sample.commentary Sample.clock
      Sample.lead_recent = Ok (r1, []) /\
    qualify_lead Sample.cfg ClaudeConfig_default Sample.commentary Sample.clock
      Sample.lead_out_of_state = Ok (r2, []) /\
    total_score r1 = 16 /\ total_score r2 = 11 /\
    total_score r1 - total_score r2 = tri_county_bonus Sample.cfg.
Proof.
  destruct (total_score_sum_and_flips Sample.cfg ClaudeConfig_default
              ClaudeConfig_default Sample.commentary Sample.commentary
              Sample.clock Sample.clock Sample.lead_recent Sample.lead_out_of_state
              eq_refl eq_refl)
    as (r1 & s1 & r2 & s2 & E1 & E2 & T1 & T2 & Hflip).
  vm_compute in E1. vm_compute in E2.
  injection E1 as <- <-. injection E2 as <- <-.
  eexists. eexists.
  split; [vm_compute; reflexivity|]. split; [vm_compute; reflexivity|].
  split; [reflexivity|]. split; [reflexivity|].
  apply (Hflip Geographic).
  split; [reflexivity|]. split; [reflexivity|].
  intros c Hc. destruct c; try reflexivity. now contradiction Hc.
Defined.

Lemma set_ai_analysis_same r a : same_deterministic_output r (set_ai_analysis r a).
Proof. unfold same_deterministic_output. cbn. repeat split; reflexivity. Qed.

Lemma same_deterministic_output_trans r1 r2 r3 :
  same_deterministic_output r1 r2 -> same_deterministic_output r2 r3 ->
  same_deterministic_output r1 r3.
Proof.
  unfold same_deterministic_output. intros H1 H2.
  repeat match goal with H : _ /\ _ |- _ => destruct H end.
  repeat split; congruence.
Qed.

(** Two runs on one lead at one reading of the clock agree on every
    deterministic field, whatever the API key and the commentary service. *)
Lemma qualify_lead_deterministic cfg cc1 cc2 svc1 svc2 clk1 clk2 lead r1 s1 r2 s2 :
  today clk1 = today clk2 ->
  qualify_lead cfg cc1 svc1 clk1 lead = Ok (r1, s1) ->
  qualify_lead cfg cc2 svc2 clk2 lead = Ok (r2, s2) ->
  same_deterministic_output r1 r2.
Proof.
  intros Ht E1 E2.
  apply qualify_lead_inv in E1, E2.
  destruct E1 as (A1 & B1 & C1 & D1 & F1 & G1 & I1 & J1 & K1 & L1 & M1 & N1 & O1 & _).
  destruct E2 as (A2 & B2 & C2 & D2 & F2 & G2 & I2 & J2 & K2 & L2 & M2 & N2 & O2 & _).
  rewrite Ht, A2 in A1. injection A1 as Hmon.
  rewrite B2 in B1. injection B1 as Hcty Htri Hin.
  rewrite D2 in D1. injection D1 as Hmm Hmp.
  rewrite F2 in F1. injection F1 as Hlm Hlp.
  rewrite G2 in G1. injection G1 as Him Hip.
  rewrite <- Hmon, I2 in I1. injection I1 as Hsa Hsp.
  rewrite J2 in J1. injection J1 as Hse Hspt Hity.
  assert (Hgeo : geographic_bonus r1 = geographic_bonus r2)
    by (rewrite K1, K2, Hin, Htri; reflexivity).
  assert (Htot : total_score r1 = total_score r2)
    by (rewrite L1, L2; unfold six_component_sum; lia).
  assert (Hfl : safety_flags r1 = safety_flags r2) by congruence.
  assert (Htier : tier r1 = tier r2)
    by (rewrite M1, M2, Htot, C1, C2, Hin, Hsa; reflexivity).
  rewrite Hmm, Hlm, Him, Hsa, Hse, Htri, Hcty, <- N1 in N2.
  injection N2 as Hst Hco Hmi Hqu.
  assert (Hval : estimated_case_value r1 = estimated_case_value r2)
    by (rewrite O1, O2, Hse, Hmm, Hlm, Htri; reflexivity).
  unfold same_deterministic_output.
  repeat split; congruence.
Qed.

Lemma fallback_makes_no_call cfg svc clk lead r sent :
  qualify_lead cfg ClaudeConfig_default svc clk lead = Ok (r, sent) ->
  ai_analysis r = None /\ sent = [].
Proof.
  intros E. apply qualify_lead_inv in E.
  destruct E as (_ & _ & _ & _ & _ & _ & _ & _ & _ & _ & _ & _ & _ & N & _).
  cbn in N. injection N as -> ->. split; reflexivity.
Qed.

(** The normal run with a working commentary service, and the fallback
    run, on one lead at one reading of the clock. *)
Lemma commentary_runs :
  exists r req rf,
    qualify_lead Sample.cfg Sample.keyed Sample.commentary Sample.clock
      Sample.lead_recent = Ok (r, [req]) /\
    qualify_lead_fallback Sample.cfg Sample.commentary Sample.clock
      Sample.lead_recent = Ok (rf, []) /\
    tier r = TIER_1_AUTO_ACCEPT /\ ai_analysis r = Some "Strong case." /\
    PyStr.contains "AI ASSESSMENT" (qualification_notes r) = true /\
    PyStr.contains "AI ASSESSMENT" (qualification_notes rf) = false.
Proof.
  eexists. eexists. eexists.
  split; [vm_compute; reflexivity|].
  split; [vm_compute; reflexivity|].
  repeat split; vm_compute; reflexivity.
Qed.

(** C9, counterexample to "only the ai_analysis field may differ": the
    normal run of an accepted lead quotes the AI narrative in
    qualification_notes, the fallback run of the same lead at the same
    clock reading does not, so the two results differ in
    qualification_notes as well. *)
Lemma fallback_notes_differ_counterexample :
  exists r req rf,
    qualify_lead Sample.cfg Sample.keyed Sample.commentary Sample.clock
      Sample.lead_recent = Ok (r, [req]) /\
    qualify_lead_fallback Sample.cfg Sample.commentary Sample.clock
      Sample.lead_recent = Ok (rf, []) /\
    qualification_notes r <> qualification_notes rf.
Proof.
  destruct commentary_runs as (r & req & rf & E1 & E2 & _ & _ & C1 & C2).
  exists r, req, rf. repeat split; try assumption.
  intros Heq. rewrite Heq, C2 in C1. discriminate.
Qed.

(** C9 (amended): for every lead with a representable SOL expiration
    date, at one reading of the clock, two runs of qualify_lead (whatever
    the commentary service answers) and a run of the AI-disabled fallback
    all return, and agree on total_score, tier, every component outcome and
    every other field except ai_analysis and the qualification_notes text
    that quotes it.  Two runs of qualify_lead with the same ai_analysis
    have the same notes.  The fallback builds its notes before its
    ai_analysis is overwritten, so its notes are those of a run without
    narrative: they equal the notes of a normal run whenever that run has
    ai_analysis null.  The fallback sends no request. *)
Theorem deterministic_output_independent_of_commentary cfg cc svc1 svc2 clk lead
    (H : sol_representable cfg lead = true) :
  exists r1 s1 r2 s2 rf,
    qualify_lead cfg cc svc1 clk lead = Ok (r1, s1) /\
    qualify_lead cfg cc svc2 clk lead = Ok (r2, s2) /\
    qualify_lead_fallback cfg svc2 clk lead = Ok (rf, []) /\
    same_deterministic_output r1 r2 /\
    same_deterministic_output r1 rf /\
    (ai_analysis r1 = ai_analysis r2 ->
     qualification_notes r1 = qualification_notes r2) /\
    (ai_analysis r1 = None ->
     qualification_notes r1 = qualification_notes rf) /\
    ai_analysis rf
      = Some "AI analysis unavailable - using keyword-based scoring only".
Proof.
  destruct (qualify_lead_returns cfg cc svc1 clk lead H) as (r1 & s1 & E1).
  destruct (qualify_lead_returns cfg cc svc2 clk lead H) as (r2 & s2 & E2).
  destruct (qualify_lead_returns cfg ClaudeConfig_default svc2 clk lead H)
    as (r0 & s0 & E0).
  destruct (fallback_makes_no_call _ _ _ _ _ _ E0) as [Hai0 ->].
  exists r1, s1, r2, s2, (set_ai_analysis r0
    (Some "AI analysis unavailable - using keyword-based scoring only")).
  pose proof (qualify_lead_deterministic _ _ _ _ _ _ _ _ _ _ _ _ eq_refl E1 E2) as D12.
  pose proof (qualify_lead_deterministic _ _ _ _ _ _ _ _ _ _ _ _ eq_refl E1 E0) as D10.
  split; [exact E1|]. split; [exact E2|].
  split; [unfold qualify_lead_fallback; rewrite E0; reflexivity|].
  split; [exact D12|].
  split; [eapply same_deterministic_output_trans;
          [exact D10 | apply set_ai_analysis_same]|].
  apply qualify_lead_inv in E1, E2, E0.
  destruct E1 as (_ & _ & _ & _ & _ & _ & _ & _ & _ & _ & _ & _ & _ & _ & P1).
  destruct E2 as (_ & _ & _ & _ & _ & _ & _ & _ & _ & _ & _ & _ & _ & _ & P2).
  destruct E0 as (_ & _ & _ & _ & _ & _ & _ & _ & _ & _ & _ & _ & _ & _ & P0).
  split; [|split; [|reflexivity]].
  - intros Hai. rewrite P1, P2. unfold same_deterministic_output in D12.
    repeat match goal with K : _ /\ _ |- _ => destruct K end.
    congruence.
  - intros Hai. cbn [set_ai_analysis qualification_notes].
    rewrite P1, P0. unfold same_deterministic_output in D10.
    repeat match goal with K : _ /\ _ |- _ => destruct K end.
    congruence.
Qed.

Lemma deterministic_output_independent_of_commentary_witness :
  exists r1 s1 rf,
    qualify_lead Sample.cfg Sample.keyed Sample.commentary Sample.clock
      Sample.lead_recent = Ok (r1, s1) /\
    qualify_lead_fallback Sample.cfg Sample.commentary_down Sample.clock
      Sample.lead_recent = Ok (rf, []) /\
    same_deterministic_output r1 rf.
Proof.
  destruct (deterministic_output_independent_of_commentary Sample.cfg Sample.keyed
              Sample.commentary Sample.commentary_down Sample.clock
              Sample.lead_recent eq_refl)
    as (r1 & s1 & r2 & s2 & rf & E1 & E2 & Ef & D12 & D1f & _).
  exists r1, s1, rf. split; [exact E1 | split; [exact Ef | exact D1f]].
Defined.

(** C10: for every lead with a representable SOL expiration date the
    engine returns, and when the decided tier is TIER_3_AUTO_DECLINE the
    result's ai_analysis is null and no request was sent to the commentary
    service; a request is sent only when the tier is not a decline (and an
    API key is configured), and at most one is sent. *)
Theorem declined_lead_gets_no_commentary cfg cc svc clk lead
    (H : sol_representable cfg lead = true) :
  exists r sent,
    qualify_lead cfg cc svc clk lead = Ok (r, sent) /\
    (tier r = TIER_3_AUTO_DECLINE -> ai_analysis r = None /\ sent = []) /\
    (sent <> [] -> tier r <> TIER_3_AUTO_DECLINE /\ claude_client cc = true) /\
    (List.length sent <= 1)%nat.
Proof.
  destruct (qualify_lead_returns cfg cc svc clk lead H) as (r & sent & E).
  exists r, sent. split; [exact E|].
  apply qualify_lead_inv in E.
  destruct E as (_ & _ & _ & _ & _ & _ & _ & _ & _ & _ & _ & _ & _ & N & _).
  unfold _get_ai_analysis in N.
  destruct (claude_client cc); simpl in N.
  - destruct (tier r); simpl in N; injection N as Ha Hs; subst;
      repeat split; simpl; try discriminate; try congruence; auto.
  - injection N as Ha Hs; subst. repeat split; simpl; try congruence; auto.
Qed.

Lemma declined_lead_gets_no_commentary_witness :
  exists r,
    qualify_lead Sample.cfg Sample.keyed Sample.commentary Sample.clock
      Sample.lead_out_of_state = Ok (r, []) /\
    tier r = TIER_3_AUTO_DECLINE /\ ai_analysis r = None.
Proof.
  destruct (declined_lead_gets_no_commentary Sample.cfg Sample.keyed
              Sample.commentary Sample.clock Sample.lead_out_of_state eq_refl)
    as (r & sent & E & Hdecl & _).
  assert (Ht : tier r = TIER_3_AUTO_DECLINE).
  { vm_compute in E. injection E as <- _. reflexivity. }
  destruct (Hdecl Ht) as [Ha ->].
  exists r. repeat split; assumption.
Defined.

(* ===================================================================== *)
(** ** Properties of the two-tier engine *)
(* ===================================================================== *)

Lemma recommendation_value_review r :
  recommendation_value r = "CLAUDE-REVIEW" <-> r = CLAUDE_REVIEW.
Proof. destruct r; simpl; split; intros H; try reflexivity; discriminate. Qed.

Lemma score_lead_failed env lead :
  tier1_failed env lead -> conservative (tier1_result env lead).
Proof.
  unfold tier1_result, score_lead, score_lead_body, conservative.
  intros [e He | raw e He Hp]; unfold tier1_call in He; rewrite He; simpl.
  - repeat split; eauto.
  - unfold ChatGPTScorer._parse_response. rewrite Hp. simpl.
    destruct (exn_class e); simpl; repeat split; eauto.
Qed.

Lemma conservative_request env lead g :
  conservative g -> exists req, tier2_request env lead g = Ok req.
Proof.
  intros (_ & _ & _ & text & Hf).
  unfold tier2_request, build_analysis_request, render_red_flags.
  rewrite Hf. simpl. eexists. reflexivity.
Qed.

Lemma analyze_lead_failed env lead g req :
  tier2_request env lead g = Ok req ->
  tier2_failed env req ->
  exists c, tier2_result env lead g = Ok c /\
            final_recommendation c = JStr "Need More Info" /\ confidence_t2 c = 0.
Proof.
  unfold tier2_request, tier2_result, analyze_lead. intros -> Hfail. simpl.
  eexists. split; [reflexivity|].
  unfold analyze_lead_body.
  destruct Hfail as [e He | raw e He Hp]; rewrite He; simpl.
  - split; reflexivity.
  - unfold ClaudeAnalyzer._parse_response. rewrite Hp. simpl.
    destruct (exn_class e); simpl; split; reflexivity.
Qed.

(** The two failure cases the specification names, each on its own.  When
    Tier 1 fails (the call raises, or the reply cannot be cleaned, decoded
    or converted), the Tier-1 result is the conservative one, score 0 and
    CLAUDE-REVIEW, and the engine returns a result carrying them.  When the
    Tier-2 call is made and fails in any of these ways, the Tier-2 result
    carries final_recommendation "Need More Info" with confidence 0, and the
    engine returns a result with that decision and confidence. *)
Theorem provider_failures_degrade env lead :
  (tier1_failed env lead ->
   score (tier1_result env lead) = 0 /\
   recommendation (tier1_result env lead) = CLAUDE_REVIEW /\
   exists r,
     TwoTierQualifier.qualify_lead env lead = Ok r /\
     chatgpt_score r = 0 /\ chatgpt_recommendation r = "CLAUDE-REVIEW" /\
     claude_triggered r = true) /\
  (forall req,
      recommendation (tier1_result env lead) = CLAUDE_REVIEW ->
      tier2_request env lead (tier1_result env lead) = Ok req ->
      tier2_failed env req ->
      exists c r,
        tier2_result env lead (tier1_result env lead) = Ok c /\
        final_recommendation c = JStr "Need More Info" /\ confidence_t2 c = 0 /\
        TwoTierQualifier.qualify_lead env lead = Ok r /\
        claude_recommendation r = Some (JStr "Need More Info") /\
        claude_confidence r = Some 0 /\
        final_decision r = JStr "Need More Info" /\ final_confidence r = 0).
Proof.
  split.
  - intros Hfail.
    pose proof (score_lead_failed env lead Hfail) as Hc.
    destruct (conservative_request env lead _ Hc) as (req & Hreq).
    destruct Hc as (Hs & Hr & _).
    split; [exact Hs|]. split; [exact Hr|].
    unfold TwoTierQualifier.qualify_lead. rewrite Hr.
    unfold tier2_request in Hreq. unfold tier2_result, analyze_lead.
    rewrite Hreq. simpl. eexists. split; [reflexivity|].
    simpl. rewrite Hs, Hr. repeat split; reflexivity.
  - intros req Hr Hreq Hfail.
    destruct (analyze_lead_failed env lead _ req Hreq Hfail) as (c & Hc & Hf & Hn).
    exists c. eexists. split; [exact Hc|]. split; [exact Hf|]. split; [exact Hn|].
    unfold TwoTierQualifier.qualify_lead. rewrite Hr, Hc. simpl.
    split; [reflexivity|]. simpl. rewrite Hf, Hn. repeat split; reflexivity.
Qed.

Lemma provider_failures_degrade_witness :
  exists r,
    TwoTierQualifier.qualify_lead Sample.env_all_down Sample.lead_recent = Ok r /\
    chatgpt_score r = 0 /\ chatgpt_recommendation r = "CLAUDE-REVIEW" /\
    final_decision r = JStr "Need More Info" /\ final_confidence r = 0.
Proof.
  destruct (provider_failures_degrade Sample.env_all_down Sample.lead_recent)
    as [H1 H2].
  destruct H1 as (_ & Hrec & r & Hr & Hs & Hl & _).
  { apply tier1_call_raised with (e := mkExn ServiceError "connection refused").
    reflexivity. }
  destruct (conservative_request Sample.env_all_down Sample.lead_recent
              (tier1_result Sample.env_all_down Sample.lead_recent))
    as (req & Hreq).
  { apply score_lead_failed.
    apply tier1_call_raised with (e := mkExn ServiceError "connection refused").
    reflexivity. }
  destruct (H2 req Hrec Hreq) as (c & r' & _ & _ & _ & Hr' & _ & _ & Hd & Hc).
  { apply tier2_call_raised with (e := mkExn ServiceError "connection refused").
    reflexivity. }
  rewrite Hr in Hr'. injection Hr' as <-.
  exists r. repeat split; assumption.
Defined.

(** C3: routing of the two-tier engine.  The engine returns whenever the
    threshold-adjusted Tier-1 recommendation is not CLAUDE-REVIEW or Tier 2
    yields a result, and for every result it returns: claude_triggered is
    true exactly when the recommendation is CLAUDE-REVIEW; for FAST-TRACK,
    DECLINE and NEED-INFO the Tier-2 fields are null, final_decision is
    "Accept", "Decline" and "Need More Info" respectively, and
    final_confidence is the Tier-1 confidence; for CLAUDE-REVIEW,
    final_decision and final_confidence are the Tier-2 recommendation and
    confidence. *)
Theorem two_tier_routing env lead :
  (recommendation (tier1_result env lead) <> CLAUDE_REVIEW ->
   exists r, TwoTierQualifier.qualify_lead env lead = Ok r) /\
  (forall c, tier2_result env lead (tier1_result env lead) = Ok c ->
             exists r, TwoTierQualifier.qualify_lead env lead = Ok r) /\
  (forall r, TwoTierQualifier.qualify_lead env lead = Ok r ->
     chatgpt_recommendation r
       = recommendation_value (recommendation (tier1_result env lead)) /\
     chatgpt_confidence r = confidence (tier1_result env lead) /\
     (claude_triggered r = true <-> chatgpt_recommendation r = "CLAUDE-REVIEW") /\
     (chatgpt_recommendation r = "FAST-TRACK" ->
      tier2_fields_null r /\ final_decision r = JStr "Accept" /\
      final_confidence r = chatgpt_confidence r) /\
     (chatgpt_recommendation r = "DECLINE" ->
      tier2_fields_null r /\ final_decision r = JStr "Decline" /\
      final_confidence r = chatgpt_confidence r) /\
     (chatgpt_recommendation r = "NEED-INFO" ->
      tier2_fields_null r /\ final_decision r = JStr "Need More Info" /\
      final_confidence r = chatgpt_confidence r) /\
     (chatgpt_recommendation r = "CLAUDE-REVIEW" ->
      exists c,
        tier2_result env lead (tier1_result env lead) = Ok c /\
        claude_recommendation r = Some (final_recommendation c) /\
        claude_confidence r = Some (confidence_t2 c) /\
        final_decision r = final_recommendation c /\
        final_confidence r = confidence_t2 c)).
Proof.
  unfold TwoTierQualifier.qualify_lead.
  destruct (recommendation (tier1_result env lead)) eqn:R.
  - split; [eauto|]. split; [eauto|].
    intros r [= <-]. unfold tier1_only, tier2_fields_null. simpl. rewrite R. simpl.
    repeat split; try reflexivity; try discriminate.
  - split; [intros H; now contradiction H|].
    split; [intros c ->; simpl; eauto|].
    intros r. destruct (tier2_result env lead (tier1_result env lead)) as [c|e];
      simpl; [|discriminate].
    intros [= <-]. unfold with_tier2. simpl. rewrite R. simpl.
    repeat split; try reflexivity; try discriminate.
    intros _. exists c. repeat split; reflexivity.
  - split; [eauto|]. split; [eauto|].
    intros r [= <-]. unfold tier1_only, tier2_fields_null. simpl. rewrite R. simpl.
    repeat split; try reflexivity; try discriminate.
  - split; [eauto|]. split; [eauto|].
    intros r [= <-]. unfold tier1_only, tier2_fields_null. simpl. rewrite R. simpl.
    repeat split; try reflexivity; try discriminate.
Qed.

Lemma two_tier_routing_witness :
  (exists r,
     TwoTierQualifier.qualify_lead Sample.env_tier1_down Sample.lead_recent = Ok r /\
     claude_triggered r = true /\
     final_decision r = JStr "Accept" /\ final_confidence r = 80) /\
  (exists r,
     TwoTierQualifier.qualify_lead Sample.env_tier1_empty Sample.lead_recent = Ok r /\
     claude_triggered r = false /\
     final_decision r = JStr "Decline" /\ final_confidence r = 50).
Proof.
  split.
  - destruct (two_tier_routing Sample.env_tier1_down Sample.lead_recent)
      as (_ & Hret & Hinv).
    destruct (Hret _ eq_refl) as (r & Hr).
    destruct (Hinv r Hr) as (Hrec & _ & _ & _ & _ & _ & Hrev).
    destruct (Hrev Hrec) as (c & Hc & _ & _ & Hd & Hconf).
    vm_compute in Hc. injection Hc as <-.
    exists r. split; [exact Hr|]. split; [|split; assumption].
    vm_compute in Hr. injection Hr as <-. reflexivity.
  - destruct (two_tier_routing Sample.env_tier1_empty Sample.lead_recent)
      as (Hret & _ & Hinv).
    destruct Hret as (r & Hr); [discriminate|].
    destruct (Hinv r Hr) as (Hrec & Hconf & Htrig & _ & Hdecl & _).
    destruct (Hdecl Hrec) as (_ & Hd & Hfc).
    exists r. split; [exact Hr|]. split; [|split; [exact Hd|]].
    + destruct (claude_triggered r); [|reflexivity].
      destruct Htrig as [Ht _]. rewrite Hrec in Ht. specialize (Ht eq_refl).
      discriminate.
    + rewrite Hfc, Hconf. reflexivity.
Defined.

(** C8, the code at the failing input: a malformed Tier-1 reply that
    decodes and scores in the review band, but whose red_flags entry is a
    list of numbers.  [analyze_lead] joins the red flags into the Tier-2
    prompt before its [try] block, so the join raises [TypeError], no
    handler catches it, and the engine raises with it instead of returning
    a conservative result. *)
Lemma nontext_red_flags_raise :
  let loads : JsonLoads :=
    fun _ => Some (JObj [("score", JInt 60); ("red_flags", JArr [JInt 1])]) in
  let env :=
    {| env_loads := loads;
       env_openai := env_openai Sample.env_all_down;
       env_claude := Sample.keyed;
       env_thresholds := ScoringThresholds_default;
       env_scoring := fun _ => Ok (Some "reply");
       env_analysis := fun _ => Ok "t2-accept";
       env_drive := None;
       env_now := Datetime.of_ymd 2026 1 1 |} in
  recommendation (tier1_result env Sample.lead_recent) = CLAUDE_REVIEW /\
  exists e, TwoTierQualifier.qualify_lead env Sample.lead_recent = Raise e /\
            exn_class e = TypeError.
Proof.
  split; [reflexivity|]. eexists. split; [vm_compute; reflexivity | reflexivity].
Qed.
(* ===================================================================== *)
(** ** Further properties of the tier decision and the rule-based engine *)
(* ===================================================================== *)

(** X1: safety flags can only turn an accept into a review.  For every
    input the decision with the flags equals the decision without any
    flag, unless the flagless decision is accept and the flagged one is
    review; a flag never produces a decline and never improves a tier. *)
Theorem safety_flags_only_downgrade cfg score flags in_sc sol :
  _determine_tier cfg score flags in_sc sol = _determine_tier cfg score [] in_sc sol \/
  (_determine_tier cfg score [] in_sc sol = TIER_1_AUTO_ACCEPT /\
   _determine_tier cfg score flags in_sc sol = TIER_2_REVIEW).
Proof.
  rewrite !determine_tier_reviewable. unfold spec_tier_rules. simpl.
  destruct in_sc, sol; simpl; auto.
  destruct (existsb reviewable flags), (tier1_threshold cfg <=? score); simpl; auto.
Qed.

(** X2: a lead without an accident date is always auto-declined, whatever
    its score: the months remaining are unknown, SOL counts as inadequate,
    no commentary request is sent, and the missing date is listed. *)
Theorem missing_accident_date_declines cfg cc svc clk lead
    (H : accident_date lead = None) :
  exists r,
    qualify_lead cfg cc svc clk lead = Ok (r, []) /\
    tier r = TIER_3_AUTO_DECLINE /\
    months_until_sol r = None /\ sol_adequate r = false /\ sol_points r = 0 /\
    ai_analysis r = None /\
    In "Accident date not provided" (missing_info r) /\
    In "When did the accident occur?" (recommended_questions r).
Proof.
  assert (Hrep : sol_representable cfg lead = true)
    by (unfold sol_representable; rewrite H; reflexivity).
  destruct (qualify_lead_returns cfg cc svc clk lead Hrep) as (r & sent & E).
  pose proof (qualify_lead_inv _ _ _ _ _ _ _ E) as I.
  destruct I as (A & _ & _ & _ & _ & _ & S & _ & _ & _ & T & L & _ & N & _).
  rewrite H in A. simpl in A. injection A as Hm.
  rewrite <- Hm in S. simpl in S. injection S as Hsa Hsp.
  assert (Ht : tier r = TIER_3_AUTO_DECLINE).
  { rewrite T, <- Hsa. unfold _determine_tier. destruct (is_in_sc r); reflexivity. }
  rewrite Ht in N. rewrite andb_false_r in N. injection N as Ha Hs. subst sent.
  exists r. repeat split; auto.
  - unfold _build_analysis_lists in L. rewrite H in L. cbv zeta in L.
    injection L as _ _ Hmi _. rewrite Hmi. simpl. auto.
  - unfold _build_analysis_lists in L. rewrite H in L. cbv zeta in L.
    injection L as _ _ _ Hq. rewrite Hq.
    apply in_or_app. right. apply in_or_app. right. apply in_or_app. right.
    simpl. auto.
Qed.

Lemma missing_accident_date_declines_witness :
  exists r,
    qualify_lead Sample.cfg Sample.keyed Sample.commentary Sample.clock
      (Sample.lead_on None "Charleston, SC") = Ok (r, []) /\
    tier r = TIER_3_AUTO_DECLINE /\ total_score r = 15.
Proof.
  destruct (missing_accident_date_declines Sample.cfg Sample.keyed Sample.commentary
              Sample.clock (Sample.lead_on None "Charleston, SC") eq_refl)
    as (r & E & Ht & _).
  exists r. split; [exact E|]. split; [exact Ht|].
  vm_compute in E. injection E as <-. reflexivity.
Defined.



Lemma detector_flags_reviewable cfg lead :
  existsb reviewable (_check_safety_rules cfg lead)
  = nonempty (_check_safety_rules cfg lead).
Proof.
  pose proof (check_safety_rules_severity cfg lead) as H.
  destruct (_check_safety_rules cfg lead) as [|f fs]; [reflexivity|].
  simpl. unfold reviewable at 1. rewrite (H f) by (left; reflexivity). reflexivity.
Qed.

(** X4: what a returned tier guarantees.  An accepted lead is in the
    jurisdiction, has adequate SOL, scores at least the accept threshold
    and carries no safety flag at all; a lead in review is in the
    jurisdiction with adequate SOL and either scores at accept level with
    a safety flag or scores in the review band; adequate SOL means the
    months remaining are known and at least the configured minimum. *)
Theorem returned_tier_guarantees cfg cc svc clk lead
    (Hrep : sol_representable cfg lead = true) :
  exists r sent,
    qualify_lead cfg cc svc clk lead = Ok (r, sent) /\
    (tier r = TIER_1_AUTO_ACCEPT ->
     is_in_sc r = true /\ sol_adequate r = true /\
     tier1_threshold cfg <= total_score r /\ safety_flags r = []) /\
    (tier r = TIER_2_REVIEW ->
     is_in_sc r = true /\ sol_adequate r = true /\
     ((tier1_threshold cfg <= total_score r /\ safety_flags r <> []) \/
      (total_score r < tier1_threshold cfg /\ tier2_threshold cfg <= total_score r))) /\
    (sol_adequate r = true ->
     exists m, months_until_sol r = Some m /\ min_sol_months_remaining cfg <= m).
Proof.
  destruct (qualify_lead_returns cfg cc svc clk lead Hrep) as (r & sent & E).
  exists r, sent. split; [exact E|].
  apply qualify_lead_inv in E.
  destruct E as (_ & _ & F & _ & _ & _ & S & _ & _ & _ & T & _).
  rewrite determine_tier_reviewable in T. unfold spec_tier_rules in T.
  rewrite F, detector_flags_reviewable, <- F in T.
  split; [|split].
  - intros Ht. rewrite Ht in T.
    destruct (is_in_sc r), (sol_adequate r); simpl in T; try discriminate.
    destruct (safety_flags r); simpl in T;
      destruct (Z.leb_spec (tier1_threshold cfg) (total_score r));
      try discriminate; try (destruct (tier2_threshold cfg <=? total_score r);
      discriminate); auto.
  - intros Ht. rewrite Ht in T.
    destruct (is_in_sc r), (sol_adequate r); simpl in T; try discriminate.
    split; [reflexivity|]. split; [reflexivity|].
    destruct (safety_flags r); simpl in T;
      destruct (Z.leb_spec (tier1_threshold cfg) (total_score r));
      try discriminate;
      try (destruct (Z.leb_spec (tier2_threshold cfg) (total_score r));
           [right; split; assumption | discriminate]).
    left. split; [assumption | discriminate].
  - intros Hs. unfold _analyze_sol in S.
    destruct (months_until_sol r) as [m|]; [|rewrite Hs in S; discriminate].
    exists m. split; [reflexivity|].
    destruct (Z.ltb_spec m (min_sol_months_remaining cfg)); [|lia].
    rewrite Hs in S. discriminate.
Qed.

Lemma returned_tier_guarantees_witness :
  exists r sent,
    qualify_lead Sample.cfg Sample.keyed Sample.commentary Sample.clock
      Sample.lead_recent = Ok (r, sent) /\
    safety_flags r = [] /\ 11 <= total_score r.
Proof.
  destruct (returned_tier_guarantees Sample.cfg Sample.keyed Sample.commentary
              Sample.clock Sample.lead_recent eq_refl)
    as (r & sent & E & Hacc & _).
  assert (Ht : tier r = TIER_1_AUTO_ACCEPT).
  { vm_compute in E. injection E as <- _. reflexivity. }
  destruct (Hacc Ht) as (_ & _ & Hs & Hf).
  exists r, sent. repeat split; assumption.
Defined.

(** X5: with no negative point value configured, total_score lies between
    0 and the sum of the six configured point values. *)
Theorem total_score_bounds cfg cc svc clk lead
    (Hpos : forall c, 0 <= configured_points cfg c)
    (Hrep : sol_representable cfg lead = true) :
  exists r sent,
    qualify_lead cfg cc svc clk lead = Ok (r, sent) /\
    0 <= total_score r
      <= medical_treatment_points cfg + clear_liability_points cfg
         + identified_insurance_points cfg + sol_buffer_points cfg
         + serious_injury_points cfg + tri_county_bonus cfg.
Proof.
  destruct (qualify_lead_returns cfg cc svc clk lead Hrep) as (r & sent & E).
  exists r, sent. split; [exact E|].
  pose proof (fun c => component_points_met _ _ _ _ _ _ _ c E) as P.
  apply qualify_lead_inv in E.
  destruct E as (_ & _ & _ & _ & _ & _ & _ & _ & _ & T & _).
  rewrite T. unfold six_component_sum.
  pose proof (P Medical) as P1. pose proof (P Liability) as P2.
  pose proof (P Insurance) as P3. pose proof (P Sol) as P4.
  pose proof (P Serious) as P5. pose proof (P Geographic) as P6.
  pose proof (Hpos Medical) as Q1. pose proof (Hpos Liability) as Q2.
  pose proof (Hpos Insurance) as Q3. pose proof (Hpos Sol) as Q4.
  pose proof (Hpos Serious) as Q5. pose proof (Hpos Geographic) as Q6.
  simpl in *.
  destruct (medical_treatment_met r), (liability_met r), (insurance_identified r),
    (sol_adequate r), (sol_buffer_earned r), (serious_injury r),
    (is_in_sc r && is_tri_county r)%bool; lia.
Qed.

Lemma total_score_bounds_witness :
  exists r sent,
    qualify_lead Sample.cfg Sample.keyed Sample.commentary Sample.clock
      Sample.lead_recent = Ok (r, sent) /\
    0 <= total_score r <= 16.
Proof.
  apply (total_score_bounds Sample.cfg Sample.keyed Sample.commentary Sample.clock
           Sample.lead_recent).
  - intros c. destruct c; simpl; lia.
  - reflexivity.
Defined.

Lemma accepted_has_no_flag cfg cc svc clk lead r sent :
  qualify_lead cfg cc svc clk lead = Ok (r, sent) ->
  tier r = TIER_1_AUTO_ACCEPT -> safety_flags r = [].
Proof.
  intros E Ht. apply qualify_lead_inv in E.
  destruct E as (_ & _ & F & _ & _ & _ & _ & _ & _ & _ & T & _).
  rewrite determine_tier_reviewable in T. unfold spec_tier_rules in T.
  rewrite F, detector_flags_reviewable, <- F in T. rewrite Ht in T.
  destruct (is_in_sc r), (sol_adequate r); simpl in T; try discriminate.
  destruct (safety_flags r); [reflexivity|]. simpl in T.
  destruct (tier1_threshold cfg <=? total_score r); [discriminate|].
  destruct (tier2_threshold cfg <=? total_score r); discriminate.
Qed.

(** X6: under the default point values (3, 3, 2, 1, 2) and the default
    accept threshold 11, a lead outside the preferred region is accepted
    only with a perfect score and a clean record: medical treatment,
    liability, insurance and serious injury all met, more than 24 months of
    SOL remaining (total exactly 11), and no safety flag raised. *)
Theorem accept_outside_preferred_region cfg cc svc clk lead r sent
    (Hm : medical_treatment_points cfg = 3) (Hl : clear_liability_points cfg = 3)
    (Hi : identified_insurance_points cfg = 2) (Hb : sol_buffer_points cfg = 1)
    (Hs : serious_injury_points cfg = 2) (Ht1 : tier1_threshold cfg = 11)
    (E : qualify_lead cfg cc svc clk lead = Ok (r, sent))
    (Hacc : tier r = TIER_1_AUTO_ACCEPT) (Htri : is_tri_county r = false) :
  medical_treatment_met r = true /\ liability_met r = true /\
  insurance_identified r = true /\ serious_injury r = true /\
  sol_buffer_earned r = true /\ total_score r = 11 /\
  safety_flags r = [].
Proof.
  pose proof (accepted_has_no_flag _ _ _ _ _ _ _ E Hacc) as Hflags.
  pose proof (fun c => component_points_met _ _ _ _ _ _ _ c E) as P.
  apply qualify_lead_inv in E.
  destruct E as (_ & _ & _ & _ & _ & _ & _ & _ & _ & T & D & _).
  unfold _determine_tier in D. rewrite Hacc, Ht1 in D.
  assert (Hge : 11 <= total_score r).
  { destruct (negb (is_in_sc r)); [discriminate|].
    destruct (negb (sol_adequate r)); [discriminate|].
    destruct (Z.leb_spec 11 (total_score r)); [assumption|].
    rewrite andb_false_r in D.
    destruct (tier2_threshold cfg <=? total_score r); discriminate. }
  rewrite T in *. unfold six_component_sum in *.
  pose proof (P Medical) as P1. pose proof (P Liability) as P2.
  pose proof (P Insurance) as P3. pose proof (P Sol) as P4.
  pose proof (P Serious) as P5. pose proof (P Geographic) as P6.
  simpl in *. rewrite Htri, andb_false_r in P6.
  rewrite Hm in P1. rewrite Hl in P2. rewrite Hi in P3. rewrite Hb in P4.
  rewrite Hs in P5.
  destruct (medical_treatment_met r), (liability_met r), (insurance_identified r),
    (sol_adequate r), (sol_buffer_earned r), (serious_injury r);
    repeat split; try reflexivity; try exact Hflags; lia.
Qed.

Lemma accept_outside_preferred_region_witness :
  exists r sent,
    qualify_lead Sample.cfg Sample.keyed Sample.commentary Sample.clock
      (Sample.lead_on (Some (Datetime.of_ymd 2025 11 2)) "Greenville, SC")
      = Ok (r, sent) /\
    medical_treatment_met r = true /\ sol_buffer_earned r = true /\
    total_score r = 11 /\ safety_flags r = [].
Proof.
  eexists. eexists. split; [vm_compute; reflexivity|].
  destruct (accept_outside_preferred_region Sample.cfg Sample.keyed
              Sample.commentary Sample.clock
              (Sample.lead_on (Some (Datetime.of_ymd 2025 11 2)) "Greenville, SC")
              _ _ eq_refl eq_refl eq_refl eq_refl eq_refl eq_refl
              ltac:(vm_compute; reflexivity) eq_refl eq_refl)
    as (H1 & _ & _ & _ & H5 & H6 & H7).
  repeat split; assumption.
Defined.

Lemma first_flag_cases kws test mk :
  first_flag kws test mk = [] \/ exists kw, first_flag kws test mk = [mk kw].
Proof. unfold first_flag. destruct (find test kws); eauto. Qed.

(** X7: the safety-flag detector returns at most five flags, no two of
    the same type, each of severity review and of one of the six known
    types; the types no_medical_treatment and insufficient_treatment never
    occur together. *)
Theorem safety_flags_shape cfg lead :
  (List.length (_check_safety_rules cfg lead) <= 5)%nat /\
  NoDup (map flag_type (_check_safety_rules cfg lead)) /\
  (forall f, In f (_check_safety_rules cfg lead) ->
     severity f = "review" /\
     In (flag_type f)
        ["disputed_liability"; "no_medical_treatment"; "insufficient_treatment";
         "minor_plaintiff"; "multiple_parties"; "commercial_vehicle"]) /\
  ~ (In "no_medical_treatment" (map flag_type (_check_safety_rules cfg lead)) /\
     In "insufficient_treatment" (map flag_type (_check_safety_rules cfg lead))).
Proof.
  unfold _check_safety_rules. cbv zeta.
  repeat match goal with
         | |- context [first_flag ?k ?t ?m] =>
             let H := fresh "H" in
             destruct (first_flag_cases k t m) as [H | [? H]]; rewrite H; clear H
         end.
  all: destruct (_ || _)%bool; simpl.
  all: split; [lia|].
  all: split; [repeat constructor; simpl; intuition discriminate|].
  all: split; [|intuition discriminate].
  all: intros f Hf;
    repeat (destruct Hf as [<- | Hf]; [simpl; split; [reflexivity | auto 10]|]);
    destruct Hf.
Qed.

(** X8: the analysis lists mirror the component outcomes.  The concerns
    list is empty exactly when medical treatment, liability, insurance and
    SOL are all met; strengths and concerns together always hold four
    entries for those criteria plus one for a serious injury and one for
    the preferred region; the recommended questions are empty exactly when
    medical treatment, liability and insurance are met and the accident
    date is present. *)
Theorem analysis_lists_mirror_outcomes cfg cc svc clk lead
    (Hrep : sol_representable cfg lead = true) :
  exists r sent,
    qualify_lead cfg cc svc clk lead = Ok (r, sent) /\
    (concerns r = [] <->
     (medical_treatment_met r && liability_met r && insurance_identified r
      && sol_adequate r)%bool = true) /\
    (List.length (strengths r) + List.length (concerns r)
     = 4 + (if serious_injury r then 1 else 0)
         + (if is_tri_county r then 1 else 0))%nat /\
    (recommended_questions r = [] <->
     (medical_treatment_met r && liability_met r && insurance_identified r)%bool = true
     /\ accident_date lead <> None).
Proof.
  destruct (qualify_lead_returns cfg cc svc clk lead Hrep) as (r & sent & E).
  exists r, sent. split; [exact E|].
  apply qualify_lead_inv in E.
  destruct E as (_ & _ & _ & _ & _ & _ & _ & _ & _ & _ & _ & L & _).
  unfold _build_analysis_lists in L. cbv zeta in L.
  injection L as Hst Hco _ Hq. rewrite Hst, Hco, Hq. clear Hst Hco Hq.
  destruct (medical_treatment_met r), (liability_met r), (insurance_identified r),
    (sol_adequate r), (serious_injury r), (is_tri_county r),
    (accident_date lead); simpl;
    (split; [split; [intros; try reflexivity; discriminate
                    | intros; try reflexivity; discriminate]|]);
    (split; [reflexivity|]);
    (split; [intros Hn; first [discriminate
                              | split; [reflexivity | discriminate]]
            | intros [Hb Hd];
              first [reflexivity | discriminate | now contradiction Hd]]).
Qed.

Lemma analysis_lists_mirror_outcomes_witness :
  exists r sent,
    qualify_lead Sample.cfg Sample.keyed Sample.commentary Sample.clock
      Sample.lead_recent = Ok (r, sent) /\
    concerns r = [] /\ recommended_questions r = [] /\
    List.length (strengths r) = 6%nat.
Proof.
  destruct (analysis_lists_mirror_outcomes Sample.cfg Sample.keyed Sample.commentary
              Sample.clock Sample.lead_recent eq_refl)
    as (r & sent & E & Hc & Hlen & Hq).
  exists r, sent. split; [exact E|].
  vm_compute in E. injection E as <- _.
  split; [apply Hc; reflexivity|].
  split; [apply Hq; split; [reflexivity | discriminate]|].
  reflexivity.
Defined.

(* ===================================================================== *)
(** ** The calendar behind the SOL calculator *)
(* ===================================================================== *)

Lemma all_from_spec p count : forall start,
  all_from p start count = true ->
  forall n, start <= n < start + Z.of_nat count -> p n = true.
Proof.
  induction count as [|c IH]; intros start H n Hn; [lia|].
  simpl in H. apply andb_prop in H as [H0 H1].
  destruct (Z.eq_dec n start) as [->|Hne]; [exact H0|].
  apply (IH (start + 1) H1). lia.
Qed.

(** One full 400-year cycle, day by day. *)
Lemma month_step_cycle : all_from month_step_ok 1 (Z.to_nat 146097) = true.
Proof. vm_cast_no_check (eq_refl true). Qed.

(** The conversion repeats every 146097 days, 400 years later. *)
Lemma ord2ymd_shift n k :
  Datetime.ord2ymd (n + k * 146097)
  = (fst (fst (Datetime.ord2ymd n)) + 400 * k,
     snd (fst (Datetime.ord2ymd n)), snd (Datetime.ord2ymd n)).
Proof.
  unfold Datetime.ord2ymd, Datetime.DI400Y.
  replace (n + k * 146097 - 1) with (n - 1 + k * 146097) by lia.
  rewrite Z.div_add, Z.mod_add by lia.
  cbv zeta.
  destruct ((_ =? 4) || (_ =? 4))%bool; cbn [fst snd];
    [apply f_equal2; [apply f_equal2; [lia | reflexivity] | reflexivity]|].
  destruct (_ <? _); cbn [fst snd];
    (apply f_equal2; [apply f_equal2; [lia | reflexivity] | reflexivity]).
Qed.

Lemma month_step n :
  month_index n <= month_index (n + 1) /\
  1 <= snd (fst (Datetime.ord2ymd n)) <= 12.
Proof.
  pose (k := (n - 1) / 146097). pose (r := (n - 1) mod 146097 + 1).
  assert (Hn : n = r + k * 146097).
  { unfold r, k. pose proof (Z.div_mod (n - 1) 146097). lia. }
  assert (Hr : 1 <= r < 1 + Z.of_nat (Z.to_nat 146097)).
  { unfold r. pose proof (Z.mod_pos_bound (n - 1) 146097). lia. }
  pose proof (all_from_spec _ _ _ month_step_cycle r Hr) as Hok.
  unfold month_step_ok in Hok. cbv zeta in Hok.
  apply andb_prop in Hok as [Hok H12]. apply andb_prop in Hok as [Hidx H1].
  apply Z.leb_le in Hidx, H1, H12.
  unfold month_index in *.
  replace (n + 1) with (r + 1 + k * 146097) by lia. rewrite Hn.
  rewrite !ord2ymd_shift. simpl. lia.
Qed.

Lemma month_index_mono a b : a <= b -> month_index a <= month_index b.
Proof.
  intros H. replace b with (a + Z.of_nat (Z.to_nat (b - a))) by lia.
  induction (Z.to_nat (b - a)) as [|d IH]; [rewrite Z.add_0_r; lia|].
  replace (a + Z.of_nat (S d)) with (a + Z.of_nat d + 1) by lia.
  pose proof (month_step (a + Z.of_nat d)). lia.
Qed.

Lemma geb_false_le now e :
  Datetime.geb now e = false -> Datetime.ordinal now <= Datetime.ordinal e.
Proof.
  unfold Datetime.geb. intros H. apply orb_false_iff in H as [H _].
  apply Z.ltb_ge in H. exact H.
Qed.

(** X9: while the SOL has not expired the month-field difference is
    never negative, so the clamp at 0 never changes the result; and the
    calculator returns 0 exactly when the SOL has expired or the
    expiration date falls in the current calendar month. *)
Theorem sol_months_without_clamp cfg now d expiration
    (H : Datetime.add_days d (sol_years cfg * 365) = Ok expiration) :
  exists months,
    _calculate_sol_remaining cfg now (Some d) = Ok (Some months) /\
    (Datetime.geb now expiration = false ->
     months = (Datetime.year expiration - Datetime.year now) * 12
              + (Datetime.month expiration - Datetime.month now)) /\
    (months = 0 <->
     Datetime.geb now expiration = true \/
     (Datetime.year expiration = Datetime.year now /\
      Datetime.month expiration = Datetime.month now)).
Proof.
  unfold _calculate_sol_remaining. rewrite H. simpl.
  destruct (Datetime.geb now expiration) eqn:G.
  - exists 0. split; [reflexivity|]. split; [discriminate|]. tauto.
  - eexists. split; [reflexivity|].
    pose proof (month_index_mono _ _ (geb_false_le _ _ G)) as Hm.
    pose proof (month_step (Datetime.ordinal now)) as [_ Hn].
    pose proof (month_step (Datetime.ordinal expiration)) as [_ He].
    unfold month_index in Hm. unfold Datetime.year, Datetime.month.
    split; [intros _; lia|].
    split.
    + intros Hz. right. lia.
    + intros [Hc | [Hy Hmo]]; [discriminate | lia].
Qed.

Lemma sol_months_without_clamp_witness :
  _calculate_sol_remaining Sample.cfg (Datetime.of_ymd 2026 12 1)
    (Some (Datetime.of_ymd 2024 1 1)) = Ok (Some 0).
Proof.
  destruct (sol_months_without_clamp Sample.cfg (Datetime.of_ymd 2026 12 1)
              (Datetime.of_ymd 2024 1 1) (Datetime.of_ymd 2026 12 31) eq_refl)
    as (months & Hrun & _ & Hzero).
  rewrite Hrun. f_equal. f_equal. apply Hzero. right. split; reflexivity.
Defined.

(* ===================================================================== *)
(** ** Letter case *)
(* ===================================================================== *)

Ltac each_ascii c :=
  destruct c as [[] [] [] [] [] [] [] []]; vm_compute; reflexivity.

Lemma lower_upper_char c : PyStr.lower_char (PyStr.upper_char c) = PyStr.lower_char c.
Proof. each_ascii c. Qed.

Lemma space_upper_char c :
  PyStr.is_space_char (PyStr.upper_char c) = PyStr.is_space_char c.
Proof. each_ascii c. Qed.

Lemma lower_upper s : PyStr.lower (PyStr.upper s) = PyStr.lower s.
Proof.
  unfold PyStr.lower, PyStr.upper.
  induction s as [|c s IH]; cbn [PyStr.map_chars]; [reflexivity|].
  rewrite lower_upper_char. f_equal. exact IH.
Qed.

Lemma is_empty_upper s : PyStr.is_empty (PyStr.upper s) = PyStr.is_empty s.
Proof. destruct s; reflexivity. Qed.

Lemma lstrip_upper s : PyStr.lstrip (PyStr.upper s) = PyStr.upper (PyStr.lstrip s).
Proof.
  unfold PyStr.upper.
  induction s as [|c s IH]; cbn [PyStr.map_chars PyStr.lstrip]; [reflexivity|].
  rewrite space_upper_char. destruct (PyStr.is_space_char c); [exact IH | reflexivity].
Qed.

Lemma rstrip_upper s : PyStr.rstrip (PyStr.upper s) = PyStr.upper (PyStr.rstrip s).
Proof.
  unfold PyStr.upper.
  induction s as [|c s IH]; cbn [PyStr.map_chars PyStr.rstrip]; [reflexivity|].
  rewrite IH.
  destruct (PyStr.rstrip s); cbn [PyStr.map_chars].
  - rewrite space_upper_char. destruct (PyStr.is_space_char c); reflexivity.
  - reflexivity.
Qed.

Lemma strip_upper s : PyStr.strip (PyStr.upper s) = PyStr.upper (PyStr.strip s).
Proof. unfold PyStr.strip. now rewrite lstrip_upper, rstrip_upper. Qed.

Lemma truthy_shout o : PyStr.truthy (shout o) = PyStr.truthy o.
Proof. destruct o as [s|]; simpl; [now rewrite is_empty_upper | reflexivity]. Qed.

Lemma or_else_shout o : PyStr.or_else (shout o) "" = PyStr.upper (PyStr.or_else o "").
Proof.
  destruct o as [s|]; simpl; [|reflexivity].
  rewrite is_empty_upper. destruct (PyStr.is_empty s); reflexivity.
Qed.

Lemma lower_or_else_shout o :
  PyStr.lower (PyStr.or_else (shout o) "") = PyStr.lower (PyStr.or_else o "").
Proof. now rewrite or_else_shout, lower_upper. Qed.

Lemma lower_app a b :
  PyStr.lower (a ++ b)%string = (PyStr.lower a ++ PyStr.lower b)%string.
Proof.
  unfold PyStr.lower.
  induction a as [|c a IH]; cbn [PyStr.map_chars append]; [reflexivity|].
  f_equal. exact IH.
Qed.

Lemma lower_join sep l :
  PyStr.lower (PyStr.join sep l) = PyStr.join (PyStr.lower sep) (map PyStr.lower l).
Proof.
  unfold PyStr.join. induction l as [|x l IH]; [reflexivity|].
  destruct l as [|y l]; [reflexivity|].
  change (String.concat sep (x :: y :: l))
    with (x ++ sep ++ String.concat sep (y :: l))%string.
  rewrite !lower_app, IH. reflexivity.
Qed.

Lemma filter_truthy_shout xs :
  filter_truthy (map shout xs) = map PyStr.upper (filter_truthy xs).
Proof.
  unfold filter_truthy. induction xs as [|o xs IH]; [reflexivity|].
  simpl. rewrite truthy_shout, IH.
  destruct (PyStr.truthy o); simpl; [now rewrite or_else_shout | reflexivity].
Qed.

Lemma map_lower_upper l : map PyStr.lower (map PyStr.upper l) = map PyStr.lower l.
Proof. rewrite map_map. apply map_ext. apply lower_upper. Qed.

Lemma geography_shout cfg loc :
  _analyze_geography cfg (shout loc) = _analyze_geography cfg loc.
Proof.
  unfold _analyze_geography. now rewrite truthy_shout, lower_or_else_shout.
Qed.

Lemma safety_rules_upper cfg l :
  _check_safety_rules cfg (upper_lead l) = _check_safety_rules cfg l.
Proof.
  unfold _check_safety_rules, upper_lead. cbn [injury_description medical_treatment
    liability_notes].
  change [shout (injury_description l); shout (medical_treatment l);
          shout (liability_notes l)]
    with (map shout [injury_description l; medical_treatment l; liability_notes l]).
  rewrite filter_truthy_shout, !lower_join, map_lower_upper, lower_or_else_shout.
  reflexivity.
Qed.

Lemma medical_upper cfg l :
  _analyze_medical_treatment cfg (upper_lead l) = _analyze_medical_treatment cfg l.
Proof.
  unfold _analyze_medical_treatment, upper_lead.
  cbn [injury_description medical_treatment]. now rewrite !lower_or_else_shout.
Qed.

Lemma liability_upper cfg l :
  _analyze_liability cfg (upper_lead l) = _analyze_liability cfg l.
Proof.
  unfold _analyze_liability, upper_lead.
  cbn [liability_notes]. now rewrite !lower_or_else_shout.
Qed.

Lemma insurance_upper cfg l :
  _analyze_insurance cfg (upper_lead l) = _analyze_insurance cfg l.
Proof.
  unfold _analyze_insurance, upper_lead. cbn [insurance_carrier].
  now rewrite or_else_shout, strip_upper, lower_upper.
Qed.

Lemma severity_upper cfg l :
  _analyze_injury_severity cfg (upper_lead l) = _analyze_injury_severity cfg l.
Proof.
  unfold _analyze_injury_severity, upper_lead.
  cbn [injury_description medical_treatment]. now rewrite !lower_or_else_shout.
Qed.

Lemma analysis_lists_upper l b1 b2 b3 b4 b5 b6 cty md ld :
  let a := _build_analysis_lists (upper_lead l) b1 b2 b3 b4 b5 b6 cty md ld in
  let b := _build_analysis_lists l b1 b2 b3 b4 b5 b6 cty md ld in
  snd (fst (fst a)) = snd (fst (fst b)) /\ snd (fst a) = snd (fst b) /\ snd a = snd b.
Proof.
  unfold _build_analysis_lists, upper_lead.
  cbn [accident_date accident_location injury_description medical_treatment
       liability_notes insurance_carrier fst snd].
  rewrite !truthy_shout. repeat split; reflexivity.
Qed.

(** X10: scoring ignores the letter case of ASCII text.  For a lead whose
    location, injury, treatment, insurance and liability texts are ASCII,
    writing them in capitals changes neither the tier, the score, any
    component outcome, the resolved county, the injury type, the safety
    flags, the concerns, the missing information nor the recommended
    questions.  (Outside ASCII the property fails in Python: [str.upper]
    turns some single letters into ASCII pairs.) *)
Theorem scoring_ignores_letter_case cfg cc svc clk lead
    (Hascii : ascii_lead lead = true)
    (Hrep : sol_representable cfg lead = true) :
  exists r1 s1 r2 s2,
    qualify_lead cfg cc svc clk lead = Ok (r1, s1) /\
    qualify_lead cfg cc svc clk (upper_lead lead) = Ok (r2, s2) /\
    same_scoring r1 r2.
Proof.
  destruct (qualify_lead_returns cfg cc svc clk lead Hrep) as (r1 & s1 & E1).
  destruct (qualify_lead_returns cfg cc svc clk (upper_lead lead) Hrep)
    as (r2 & s2 & E2).
  exists r1, s1, r2, s2. split; [exact E1|]. split; [exact E2|].
  apply qualify_lead_inv in E1, E2.
  destruct E1 as (A1 & B1 & C1 & D1 & F1 & G1 & I1 & J1 & K1 & L1 & M1 & N1 & O1 & _).
  destruct E2 as (A2 & B2 & C2 & D2 & F2 & G2 & I2 & J2 & K2 & L2 & M2 & N2 & O2 & _).
  cbn [upper_lead accident_date accident_location] in A2, B2.
  rewrite geography_shout in B2. rewrite safety_rules_upper in C2.
  rewrite medical_upper in D2, N2. rewrite liability_upper in F2, N2.
  rewrite insurance_upper in G2. rewrite severity_upper in J2.
  rewrite A2 in A1. injection A1 as Hmon.
  rewrite B2 in B1. injection B1 as Hcty Htri Hin.
  rewrite D2 in D1. injection D1 as Hmm Hmp.
  rewrite F2 in F1. injection F1 as Hlm Hlp.
  rewrite G2 in G1. injection G1 as Him Hip.
  rewrite <- Hmon, I2 in I1. injection I1 as Hsa Hsp.
  rewrite J2 in J1. injection J1 as Hse Hspt Hity.
  assert (Hgeo : geographic_bonus r1 = geographic_bonus r2)
    by (rewrite K1, K2, Hin, Htri; reflexivity).
  assert (Htot : total_score r1 = total_score r2)
    by (rewrite L1, L2; unfold six_component_sum; lia).
  assert (Htier : tier r1 = tier r2)
    by (rewrite M1, M2, Htot, C1, C2, Hin, Hsa; reflexivity).
  assert (Hval : estimated_case_value r1 = estimated_case_value r2)
    by (rewrite O1, O2, Hse, Hmm, Hlm, Htri; reflexivity).
  rewrite Hmm, Hlm, Him, Hsa, Hse, Htri, Hcty in N2.
  pose proof (analysis_lists_upper lead (medical_treatment_met r1) (liability_met r1)
                (insurance_identified r1) (sol_adequate r1) (serious_injury r1)
                (is_tri_county r1) (county r1)
                (snd (_analyze_medical_treatment cfg lead))
                (snd (_analyze_liability cfg lead))) as Hl.
  cbv zeta in Hl. rewrite <- N1, <- N2 in Hl. cbn [fst snd] in Hl.
  destruct Hl as (Hco & Hmi & Hqu).
  unfold same_scoring. repeat split; congruence.
Qed.

Lemma scoring_ignores_letter_case_witness :
  exists r1 s1 r2 s2,
    qualify_lead Sample.cfg Sample.keyed Sample.commentary Sample.clock
      Sample.lead_recent = Ok (r1, s1) /\
    qualify_lead Sample.cfg Sample.keyed Sample.commentary Sample.clock
      (upper_lead Sample.lead_recent) = Ok (r2, s2) /\
    same_scoring r1 r2.
Proof.
  apply (scoring_ignores_letter_case Sample.cfg Sample.keyed Sample.commentary
           Sample.clock Sample.lead_recent eq_refl eq_refl).
Defined.

(* ===================================================================== *)
(** ** Further properties of the geography resolver *)
(* ===================================================================== *)

Lemma take_run_all p s : forall k,
  (k <= run_length p s)%nat -> all_chars p (PyStr.take k s) = true.
Proof.
  induction s as [|c s IH]; intros k Hk.
  - destruct k; reflexivity.
  - destruct k as [|k]; [reflexivity|].
    simpl in Hk. simpl. destruct (p c); [|lia].
    simpl. apply IH. lia.
Qed.

Lemma match_group_lower s k : forall g,
  (k <= run_length PyStr.is_lower_char s)%nat ->
  match_group s k = Some g -> all_chars PyStr.is_lower_char g = true.
Proof.
  induction k as [|k IH]; intros g Hk; [discriminate|].
  cbn [match_group]. destruct (match_tail _ _).
  - intros [= <-]. exact (take_run_all _ s (S k) Hk).
  - apply IH. lia.
Qed.

Lemma search_county_lower s : forall prev g,
  search_county prev s = Some g -> all_chars PyStr.is_lower_char g = true.
Proof.
  induction s as [|c s IH]; intros prev g; cbn [search_county].
  - unfold match_here. destruct (word_boundary _ _); [|discriminate].
    simpl. discriminate.
  - destruct (match_here prev (String c s)) as [g'|] eqn:E.
    + intros [= <-]. unfold match_here in E.
      destruct (word_boundary _ _); [|discriminate].
      eapply match_group_lower; [|exact E]. lia.
    + apply IH.
Qed.

Lemma lookup_city_lower s g :
  lookup_city s = Some g -> all_chars PyStr.is_lower_char g = true.
Proof.
  unfold lookup_city. destruct (find _ _) as [p|] eqn:E; [|discriminate].
  intros [= <-]. apply find_some in E as [Hin _].
  unfold city_to_county in Hin. simpl in Hin.
  repeat (destruct Hin as [<- | Hin]; [reflexivity|]). destruct Hin.
Qed.

(** X11: whatever the location text, a county the resolver returns is a
    non-empty word of lowercase ASCII letters. *)
Theorem resolved_county_is_lowercase_word cfg loc c
    (H : fst (fst (_analyze_geography cfg loc)) = Some c) :
  c <> "" /\ all_chars PyStr.is_lower_char c = true.
Proof.
  split; [exact (analyze_geography_county cfg loc c H)|].
  unfold _analyze_geography in H.
  destruct (negb (PyStr.truthy loc)); simpl in H; [discriminate|].
  destruct (search_county None _) as [g|] eqn:E.
  - injection H as <-. eapply search_county_lower; eassumption.
  - eapply lookup_city_lower; eassumption.
Qed.

Lemma resolved_county_is_lowercase_word_witness :
  all_chars PyStr.is_lower_char "berkeley" = true.
Proof.
  apply (resolved_county_is_lowercase_word Sample.cfg
           (Some "I-26 near BERKELEY County line") "berkeley" eq_refl).
Defined.

(* ===================================================================== *)
(** ** Further properties of the Tier-1 scorer *)
(* ===================================================================== *)

(** X12: the threshold override is monotonic in the score.  For a fixed
    provider label and missing-information list, and any thresholds, a
    higher score never yields a recommendation further from acceptance
    (decline, need-info, review, fast-track in rising order). *)
Theorem determine_recommendation_monotone th label (missing : list json) s1 s2
    (H : s1 <= s2) :
  exists r1 r2,
    _determine_recommendation th s1 label (JArr missing) = Ok r1 /\
    _determine_recommendation th s2 label (JArr missing) = Ok r2 /\
    recommendation_rank r1 <= recommendation_rank r2.
Proof.
  unfold _determine_recommendation. simpl.
  destruct (Z.leb_spec (fast_track th) s1), (Z.leb_spec (fast_track th) s2),
    (Z.leb_spec (claude_review th) s1), (Z.leb_spec (claude_review th) s2),
    (Z.leb_spec (need_info th) s1), (Z.leb_spec (need_info th) s2);
    try lia; simpl;
    destruct (0 <? Z.of_nat (List.length missing)),
      (String.eqb label "NEED-INFO"); simpl;
    eexists; eexists; (split; [reflexivity|]); (split; [reflexivity|]);
    simpl; lia.
Qed.

Lemma determine_recommendation_monotone_witness :
  exists r1 r2,
    _determine_recommendation ScoringThresholds_default 30 "DECLINE"
      (JArr [JStr "accident date"]) = Ok r1 /\
    _determine_recommendation ScoringThresholds_default 60 "DECLINE"
      (JArr [JStr "accident date"]) = Ok r2 /\
    recommendation_rank r1 <= recommendation_rank r2.
Proof.
  apply (determine_recommendation_monotone ScoringThresholds_default "DECLINE"
           [JStr "accident date"] 30 60). lia.
Defined.

Lemma determine_recommendation_ok th s label missing r :
  _determine_recommendation th s label missing = Ok r ->
  (r = FAST_TRACK /\ fast_track th <= s) \/
  (r = CLAUDE_REVIEW /\ claude_review th <= s < fast_track th) \/
  ((r = NEED_INFO \/ r = DECLINE) /\ s < fast_track th /\ s < claude_review th).
Proof.
  unfold _determine_recommendation.
  destruct (Z.leb_spec (fast_track th) s); [intros [= <-]; auto|].
  destruct (Z.leb_spec (claude_review th) s); [intros [= <-]; right; left; split; [reflexivity | lia]|].
  intros E. right. right. split; [|lia].
  destruct (need_info th <=? s), (String.eqb label "NEED-INFO"),
    (Py.len missing) as [n|e]; simpl in E;
    try discriminate; try (destruct (0 <? n); simpl in E);
    injection E as <-; auto.
Qed.

Ltac step_bind E :=
  match type of E with
  | bind ?m _ = Ok _ =>
      let x := fresh "x" in
      let Ex := fresh "Ex" in
      destruct m as [x|] eqn:Ex; cbn [bind] in E; [|discriminate]
  end.

Lemma parse_body_recommendation loads th raw g :
  ChatGPTScorer._parse_response_body loads th raw = Ok g ->
  exists label missing,
    _determine_recommendation th (score g) label missing = Ok (recommendation g).
Proof.
  unfold ChatGPTScorer._parse_response_body. intros E.
  do 9 step_bind E.
  match type of Ex7 with
  | _determine_recommendation th ?s ?l ?m = _ => exists l, m
  end.
  repeat step_bind E. injection E as <-. exact Ex7.
Qed.

(** X13: whatever the provider replies, a Tier-1 result's recommendation
    is consistent with its score.  FAST-TRACK is returned only at or above
    the fast-track threshold; NEED-INFO and DECLINE only below the review
    threshold; CLAUDE-REVIEW either in the review band or as the
    conservative result with score 0 and confidence 0. *)
Theorem score_lead_recommendation_matches_score loads cfg th svc now lead :
  let g := score_lead loads cfg th svc now lead in
  (recommendation g = FAST_TRACK -> fast_track th <= score g) /\
  (recommendation g = NEED_INFO \/ recommendation g = DECLINE ->
   score g < claude_review th /\ score g < fast_track th) /\
  (recommendation g = CLAUDE_REVIEW ->
   claude_review th <= score g < fast_track th \/
   (score g = 0 /\ confidence g = 0)).
Proof.
  unfold score_lead, score_lead_body.
  destruct (svc _) as [raw|e]; cbn [bind try_except];
    [|repeat split; simpl; intros; try discriminate; intuition discriminate].
  unfold ChatGPTScorer._parse_response, except_json_decode.
  destruct (ChatGPTScorer._parse_response_body loads th raw) as [g|e] eqn:E.
  - cbn [bind try_except]. unfold set_raw_response.
    cbn [score recommendation confidence].
    destruct (parse_body_recommendation _ _ _ _ E) as (label & missing & D).
    apply determine_recommendation_ok in D.
    split; [|split]; intros Hr; destruct D as [[D ?] | [[D ?] | [[D | D] ?]]];
      try (rewrite D in Hr; try discriminate; destruct Hr; discriminate);
      try lia; auto.
  - destruct (exn_class e); cbn [bind try_except];
      repeat split; simpl; intros; try discriminate; intuition discriminate.
Qed.

Lemma score_lead_recommendation_matches_score_witness :
  score (tier1_result Sample.env_tier1_empty Sample.lead_recent) < 50.
Proof.
  pose proof (score_lead_recommendation_matches_score
                (env_loads Sample.env_tier1_empty) (env_openai Sample.env_tier1_empty)
                (env_thresholds Sample.env_tier1_empty)
                (env_scoring Sample.env_tier1_empty)
                (env_now Sample.env_tier1_empty) Sample.lead_recent) as (_ & H & _).
  apply H. right. reflexivity.
Defined.

Lemma split1_tail_no_separator c s :
  PyStr.contains (String c EmptyString) s = false ->
  split1_tail c s = Py.raise IndexError "list index out of range".
Proof.
  induction s as [|d s IH]; [reflexivity|].
  cbn [PyStr.contains split1_tail String.prefix]. intros H.
  apply orb_false_iff in H as [H1 H2].
  destruct (Ascii.eqb_spec d c) as [->|Hne].
  - destruct (ascii_dec c c) as [_|Hn]; [|now contradiction Hn].
    destruct s; discriminate.
  - apply IH. exact H2.
Qed.

(** X14: a reply wrapped in a code fence on a single line, with no line
    break after the opening fence, is never decoded, even when the text
    inside is valid JSON: cleaning it raises, and the lead is escalated
    with the conservative result (score 0, CLAUDE-REVIEW, confidence 0). *)
Theorem single_line_fenced_reply_is_escalated loads cfg th svc now lead raw
    (Hcall : svc (mkScoringRequest (ChatGPTScorer._format_lead_data now lead)
                    (openai_model cfg) (openai_max_tokens cfg)) = Ok (Some raw))
    (Hfence : PyStr.startswith fence (PyStr.strip raw) = true)
    (Hline : PyStr.contains nl (PyStr.strip raw) = false) :
  score_lead loads cfg th svc now lead
  = scorer_failure (mkExn IndexError "list index out of range").
Proof.
  unfold score_lead, score_lead_body. rewrite Hcall. cbn [bind].
  unfold ChatGPTScorer._parse_response, ChatGPTScorer._parse_response_body,
    clean_response.
  rewrite Hfence. unfold nl in Hline.
  rewrite (split1_tail_no_separator _ _ Hline). reflexivity.
Qed.

Lemma single_line_fenced_reply_is_escalated_witness :
  score (score_lead (fun _ => Some (JObj [("score", JInt 90)]))
           (env_openai Sample.env_all_down) ScoringThresholds_default
           (fun _ => Ok (Some "```{}```")) (Datetime.of_ymd 2026 1 1)
           Sample.lead_recent) = 0.
Proof.
  rewrite (single_line_fenced_reply_is_escalated _ _ _ _ _ _ "```{}```"
             eq_refl eq_refl eq_refl).
  reflexivity.
Defined.

(* ===================================================================== *)
(** ** Further properties of the two-tier engine and the analyzer *)
(* ===================================================================== *)

(** X15: when Tier 2 is not triggered, the record status derived from
    the final decision follows the Tier-1 recommendation: FAST-TRACK gives
    Accepted, DECLINE gives Declined, NEED-INFO gives Need More Info, and
    deriving it never raises. *)
Theorem status_follows_tier1_routing env lead r
    (E : TwoTierQualifier.qualify_lead env lead = Ok r)
    (Hno : claude_triggered r = false) :
  (chatgpt_recommendation r = "FAST-TRACK" /\
   get_status_for_decision (final_decision r) = Ok "Accepted") \/
  (chatgpt_recommendation r = "DECLINE" /\
   get_status_for_decision (final_decision r) = Ok "Declined") \/
  (chatgpt_recommendation r = "NEED-INFO" /\
   get_status_for_decision (final_decision r) = Ok "Need More Info").
Proof.
  unfold TwoTierQualifier.qualify_lead in E.
  destruct (recommendation (tier1_result env lead)) eqn:R.
  - injection E as <-. unfold tier1_only. simpl. rewrite R. auto.
  - destruct (tier2_result env lead (tier1_result env lead)); simpl in E;
      [|discriminate].
    injection E as <-. discriminate.
  - injection E as <-. unfold tier1_only. simpl. rewrite R. auto.
  - injection E as <-. unfold tier1_only. simpl. rewrite R. auto.
Qed.

Lemma status_follows_tier1_routing_witness :
  exists r,
    TwoTierQualifier.qualify_lead Sample.env_tier1_empty Sample.lead_recent = Ok r /\
    get_status_for_decision (final_decision r) = Ok "Declined".
Proof.
  eexists. split; [vm_compute; reflexivity|].
  destruct (status_follows_tier1_routing Sample.env_tier1_empty Sample.lead_recent _
              ltac:(vm_compute; reflexivity) eq_refl)
    as [[H _] | [[_ H] | [H _]]]; [discriminate | exact H | discriminate].
Defined.

(** X16: carrier intelligence for a carrier text that is not empty but
    holds only whitespace.  The stripped text is the empty string, which
    is a substring of every known carrier name, so the first table entry
    (State Farm) is reported for it. *)
Theorem blank_carrier_reports_first_entry carrier
    (Hne : carrier <> "") (Hblank : PyStr.strip (PyStr.lower carrier) = "") :
  _get_carrier_intelligence (Some carrier)
  = PyStr.fstr [nl; "Carrier: "; carrier; nl;
                "Settlement Tendency: "; "moderate"; nl;
                "Litigation Likelihood: "; "low"; nl;
                "Notes: ";
                "Generally reasonable but slow. Expect 60-day response times. Often settles at 70-80% of demand.";
                nl].
Proof.
  unfold _get_carrier_intelligence.
  assert (Ht : PyStr.truthy (Some carrier) = true)
    by (destruct carrier; [congruence | reflexivity]).
  rewrite Ht. cbn [negb].
  assert (Ho : PyStr.or_else (Some carrier) "" = carrier)
    by (destruct carrier; reflexivity).
  rewrite Ho, Hblank. reflexivity.
Qed.

Lemma blank_carrier_reports_first_entry_witness :
  PyStr.contains "Settlement Tendency: moderate"
    (_get_carrier_intelligence (Some "   ")) = true.
Proof.
  rewrite (blank_carrier_reports_first_entry "   "); [reflexivity | discriminate
                                                     | reflexivity].
Defined.

(* ===================================================================== *)
(** ** The processing history ([ProcessingHistory] of [src/main.py]) *)
(* ===================================================================== *)

Lemma firstn_cons_firstn {A : Type} (n : nat) (a : A) (l : list A) :
  firstn n (a :: firstn n l) = firstn n (a :: l).
Proof.
  destruct n as [|k]; [reflexivity|].
  rewrite !firstn_cons. f_equal.
  rewrite firstn_firstn. f_equal. lia.
Qed.

Lemma history_add_step (n : Z) (a : ProcessedLead.t) (h : ProcessingHistory.t)
    (X : list ProcessedLead.t) :
  0 <= n ->
  ProcessingHistory.max_size h = n ->
  ProcessingHistory._history h = firstn (Z.to_nat n) X ->
  ProcessingHistory.max_size (ProcessingHistory.add a h) = n /\
  ProcessingHistory._history (ProcessingHistory.add a h)
  = firstn (Z.to_nat n) (a :: X).
Proof.
  intros Hn Hm Hh. unfold ProcessingHistory.add. cbn [ProcessingHistory.max_size
    ProcessingHistory._history]. split; [exact Hm|].
  rewrite Hm, Hh.
  destruct (Z.ltb_spec n (Z.of_nat (List.length (a :: firstn (Z.to_nat n) X))))
    as [Hlt|Hge].
  - unfold py_prefix. destruct (Z.leb_spec 0 n) as [_|]; [|lia].
    apply firstn_cons_firstn.
  - cbn [List.length] in Hge.
    assert (Hl : (List.length (firstn (Z.to_nat n) X) < Z.to_nat n)%nat) by lia.
    rewrite length_firstn in Hl.
    assert (HX : (List.length X < Z.to_nat n)%nat) by lia.
    destruct (Z.to_nat n) as [|k] eqn:Ek; [lia|].
    rewrite firstn_cons. f_equal.
    rewrite !firstn_all2 by lia. reflexivity.
Qed.

Lemma history_fold (n : Z) (leads : list ProcessedLead.t) :
  0 <= n ->
  forall (h : ProcessingHistory.t) (X : list ProcessedLead.t),
    ProcessingHistory.max_size h = n ->
    ProcessingHistory._history h = firstn (Z.to_nat n) X ->
    ProcessingHistory.max_size
      (fold_left (fun h l => ProcessingHistory.add l h) leads h) = n /\
    ProcessingHistory._history
      (fold_left (fun h l => ProcessingHistory.add l h) leads h)
    = firstn (Z.to_nat n) (rev leads ++ X).
Proof.
  intros Hn. induction leads as [|a leads IH]; intros h X Hm Hh.
  - split; assumption.
  - cbn [fold_left rev].
    destruct (history_add_step n a h X Hn Hm Hh) as [Hm' Hh'].
    destruct (IH _ _ Hm' Hh') as [Hm'' Hh''].
    split; [exact Hm''|].
    rewrite Hh'', <- app_assoc. reflexivity.
Qed.

(** X17: a history created with a non-negative [max_size] holds, after
    any sequence of [add] calls, the most recent [max_size] records, newest
    first; [get_recent(limit)] with a non-negative limit returns the most
    recent [min(limit, max_size)] of them. *)
Theorem history_keeps_newest (n limit : Z) (leads : list ProcessedLead.t)
    (Hn : 0 <= n) (Hlimit : 0 <= limit) :
  let h := fold_left (fun h l => ProcessingHistory.add l h) leads
             (ProcessingHistory.init n) in
  ProcessingHistory._history h = firstn (Z.to_nat n) (rev leads) /\
  ProcessingHistory.get_recent limit h
  = firstn (Z.to_nat (Z.min limit n)) (rev leads).
Proof.
  cbv zeta.
  destruct (history_fold n leads Hn (ProcessingHistory.init n) []) as [_ H].
  - reflexivity.
  - cbn. now rewrite firstn_nil.
  - rewrite app_nil_r in H. split; [exact H|].
    unfold ProcessingHistory.get_recent, py_prefix. rewrite H.
    destruct (Z.leb_spec 0 limit) as [_|]; [|lia].
    rewrite firstn_firstn. f_equal. lia.
Qed.

Lemma history_keeps_newest_witness :
  ProcessingHistory._history
    (fold_left (fun h l => ProcessingHistory.add l h)
       [SampleRun.processed "recA" "tier1"; SampleRun.processed "recB" "tier2";
        SampleRun.processed "recC" "tier3"]
       (ProcessingHistory.init 2))
  = [SampleRun.processed "recC" "tier3"; SampleRun.processed "recB" "tier2"].
Proof.
  exact (proj1 (history_keeps_newest 2 1
                  [SampleRun.processed "recA" "tier1"; SampleRun.processed "recB" "tier2";
                   SampleRun.processed "recC" "tier3"]
                  ltac:(lia) ltac:(lia))).
Defined.

(* ===================================================================== *)
(** ** The orchestrator ([LeadProcessor] of [src/main.py]) *)
(* ===================================================================== *)

Lemma keeps_ret {A : Type} (a : A) : keeps_history (ret a).
Proof. intros st. split; [reflexivity|]. exists []. cbn. now rewrite app_nil_r. Qed.

Lemma keeps_lift {A : Type} (m : Res A) : keeps_history (lift m).
Proof. intros st. split; [reflexivity|]. exists []. cbn. now rewrite app_nil_r. Qed.

Lemma keeps_call {A : Type} (a : Action) (answer : list Action -> Res A) :
  keeps_history (call a answer).
Proof. intros st. split; [reflexivity|]. exists [a]. reflexivity. Qed.

Lemma keeps_bind {A B : Type} (m : Run A) (k : A -> Run B) :
  keeps_history m -> (forall a, keeps_history (k a)) -> keeps_history (rbind m k).
Proof.
  intros Hm Hk st. unfold rbind.
  destruct (Hm st) as [H1 [n1 T1]].
  destruct (m st) as [[a|e] st1]; cbn [snd] in *.
  - destruct (Hk a st1) as [H2 [n2 T2]]. split; [congruence|].
    exists (n1 ++ n2). rewrite T2, T1. now rewrite app_assoc.
  - split; [exact H1|]. now exists n1.
Qed.

Lemma keeps_try {A : Type} (m : Run A) (h : exn -> Run A) :
  keeps_history m -> (forall e, keeps_history (h e)) -> keeps_history (rtry m h).
Proof.
  intros Hm Hh st. unfold rtry.
  destruct (Hm st) as [H1 [n1 T1]].
  destruct (m st) as [[a|e] st1]; cbn [snd] in *.
  - split; [exact H1|]. now exists n1.
  - destruct (Hh e st1) as [H2 [n2 T2]]. split; [congruence|].
    exists (n1 ++ n2). rewrite T2, T1. now rewrite app_assoc.
Qed.

Lemma keeps_when {A : Type} (c : bool) (m : Run A) :
  keeps_history m -> keeps_history (when_ c m).
Proof.
  intros Hm. unfold when_. destruct c; [|apply keeps_ret].
  apply keeps_bind; [exact Hm|]. intros _. apply keeps_ret.
Qed.

Ltac keeps :=
  repeat first
    [ apply keeps_ret | apply keeps_lift | apply keeps_call
    | apply keeps_when
    | apply keeps_bind; [|intros ?]
    | apply keeps_try; [|intros ?]
    | match goal with
      | |- keeps_history (if ?c then _ else _) => destruct c
      | |- keeps_history (match ?x with _ => _ end) => destruct x
      end ].

Lemma handle_tier1_keeps p lead result :
  keeps_history (LeadProcessor._handle_tier1 p lead result).
Proof.
  unfold LeadProcessor._handle_tier1, LeadProcessor.airtable_update,
    LeadProcessor.notify_error. keeps.
Qed.

Lemma handle_tier2_keeps p lead result :
  keeps_history (LeadProcessor._handle_tier2 p lead result).
Proof.
  unfold LeadProcessor._handle_tier2, LeadProcessor.airtable_update. keeps.
Qed.

Lemma handle_tier3_keeps p lead result :
  keeps_history (LeadProcessor._handle_tier3 p lead result).
Proof.
  unfold LeadProcessor._handle_tier3, LeadProcessor.airtable_update. keeps.
Qed.

Lemma handle_error_keeps p lead message :
  keeps_history (LeadProcessor._handle_error p lead message).
Proof.
  unfold LeadProcessor._handle_error, mark_for_review, LeadProcessor.notify_error.
  keeps.
Qed.

Lemma record_commentary_keeps sent : keeps_history (LeadProcessor.record_commentary sent).
Proof.
  intros st. split; [reflexivity|]. now exists (map RequestCommentary sent).
Qed.

Lemma qualify_with_fallback_keeps p rd lead :
  keeps_history (LeadProcessor.qualify_with_fallback p rd lead).
Proof.
  unfold LeadProcessor.qualify_with_fallback.
  destruct (qualify_lead _ _ _ _ _) as [[r sent]|e].
  - apply keeps_bind; [apply record_commentary_keeps | intros; apply keeps_ret].
  - destruct (qualify_lead_fallback _ _ _ _) as [[r sent]|e'].
    + apply keeps_bind; [apply record_commentary_keeps | intros; apply keeps_ret].
    + apply keeps_lift.
Qed.

(** The requests one run of the engine sends: none, or one about the lead
    itself. *)
Lemma qualify_lead_sent cfg cc svc clk lead r sent :
  qualify_lead cfg cc svc clk lead = Ok (r, sent) ->
  sent = [] \/
  sent = [mkAiRequest lead (total_score r) (tier r) (safety_flags r)
            (model cc) (max_tokens cc)].
Proof.
  intros E. apply qualify_lead_inv in E.
  destruct E as (_ & _ & _ & _ & _ & _ & _ & _ & _ & _ & _ & _ & _ & N & _).
  destruct (claude_client cc && negb (tier_eqb (tier r) TIER_3_AUTO_DECLINE))%bool.
  - unfold _get_ai_analysis in N.
    destruct (negb (claude_client cc)); injection N as _ ->; auto.
  - injection N as _ ->. auto.
Qed.

(** What the qualifier step of a run adds to the trace: the requests of
    the run that returned, at most one and about the lead itself; none when
    both the engine and the fallback raise. *)
Lemma qualify_with_fallback_trace p rd lead st :
  exists sent,
    snd (LeadProcessor.qualify_with_fallback p rd lead st)
    = mkRunState (trace st ++ map RequestCommentary sent) (history st) /\
    (List.length sent <= 1)%nat /\
    (forall request, In request sent -> req_lead request = lead) /\
    (forall e, fst (LeadProcessor.qualify_with_fallback p rd lead st) = Raise e ->
               sent = [] /\
               qualify_lead_fallback (qualification p) (commentary p) (at_fallback rd)
                 lead = Raise e).
Proof.
  unfold LeadProcessor.qualify_with_fallback.
  destruct (qualify_lead _ _ _ _ _) as [[r sent]|e0] eqn:E.
  - exists sent. split; [reflexivity|].
    destruct (qualify_lead_sent _ _ _ _ _ _ _ E) as [-> | ->]; cbn;
      repeat split; try lia; try discriminate; intros request [<- | []]; reflexivity.
  - destruct (qualify_lead_fallback _ _ _ _) as [[r sent]|e'] eqn:E'.
    + exists sent. split; [reflexivity|].
      unfold qualify_lead_fallback in E'.
      destruct (qualify_lead _ ClaudeConfig_default _ _ _) as [[r0 s0]|] eqn:E0;
        [|discriminate].
      cbn in E'. injection E' as _ <-.
      destruct (fallback_makes_no_call _ _ _ _ _ _ E0) as [_ ->]. cbn.
      repeat split; try lia; try discriminate; intros request [].
    + exists []. cbn. rewrite app_nil_r. destruct st as [t h].
      split; [reflexivity|]. split; [cbn; lia|]. split; [intros request []|].
      intros e1 [= <-]. split; reflexivity.
Qed.

(** What a returned record is, and what the run did to the history. *)
Lemma process_lead_result p rd lead st pl st' :
  LeadProcessor.process_lead p rd lead st = (Ok pl, st') ->
  history st' = ProcessingHistory.add pl (history st) /\
  ((exists result clio_url st0 st1,
       LeadProcessor.qualify_with_fallback p rd lead st = (Ok result, st0) /\
       match tier result with
       | TIER_1_AUTO_ACCEPT => LeadProcessor._handle_tier1 p lead result
       | TIER_2_REVIEW => _ <~ LeadProcessor._handle_tier2 p lead result ;; ret None
       | TIER_3_AUTO_DECLINE => _ <~ LeadProcessor._handle_tier3 p lead result ;; ret None
       end st0 = (Ok clio_url, st1) /\
       pl = LeadProcessor.success_record rd lead result clio_url) \/
   (exists e, pl = LeadProcessor.error_record rd lead e)).
Proof.
  unfold LeadProcessor.process_lead, rtry.
  assert (Herr : forall e st0,
    history st0 = history st ->
    (_ <~ LeadProcessor._handle_error p lead (exn_text e) ;;
     _ <~ history_add (LeadProcessor.error_record rd lead e) ;;
     ret (LeadProcessor.error_record rd lead e)) st0 = (Ok pl, st') ->
    history st' = ProcessingHistory.add pl (history st) /\
    exists e, pl = LeadProcessor.error_record rd lead e).
  { intros e st0 H0. unfold rbind at 1.
    destruct (handle_error_keeps p lead (exn_text e) st0) as [Hh _].
    destruct (LeadProcessor._handle_error p lead (exn_text e) st0) as [[[]|e'] st2];
      cbn [snd] in Hh; [|discriminate].
    cbn. intros E. injection E as <- <-. cbn. split; [congruence | now exists e]. }
  unfold rbind at 1.
  destruct (qualify_with_fallback_keeps p rd lead st) as [Hq _].
  destruct (LeadProcessor.qualify_with_fallback p rd lead st) as [[result|e] st0] eqn:Q;
    cbn [snd] in Hq.
  - unfold rbind at 1.
    match goal with
    | |- context [match ?m st0 with _ => _ end] =>
        assert (K : keeps_history m);
        [ destruct (tier result); keeps;
          first [apply handle_tier1_keeps | apply handle_tier2_keeps
                | apply handle_tier3_keeps]
        | destruct (K st0) as [Hh _]; clear K;
          destruct (m st0) as [[clio_url|e] st1] eqn:EH ]
    end; cbn [snd] in Hh.
    + cbn. intros E. injection E as <- <-. cbn. split; [congruence|].
      left. exists result, clio_url, st0, st1.
      split; [reflexivity | split; [exact EH | reflexivity]].
    + intros E. destruct (Herr e st1 ltac:(congruence) E) as [H1 H2].
      split; [exact H1|now right].
  - intros E. destruct (Herr e st0 Hq E) as [H1 H2]. split; [exact H1|now right].
Qed.

Lemma process_lead_raise_history p rd lead st e st' :
  LeadProcessor.process_lead p rd lead st = (Raise e, st') ->
  history st' = history st.
Proof.
  unfold LeadProcessor.process_lead, rtry.
  assert (Herr : forall e0 st0,
    history st0 = history st ->
    (_ <~ LeadProcessor._handle_error p lead (exn_text e0) ;;
     _ <~ history_add (LeadProcessor.error_record rd lead e0) ;;
     ret (LeadProcessor.error_record rd lead e0)) st0 = (Raise e, st') ->
    history st' = history st).
  { intros e0 st0 H0. unfold rbind at 1.
    destruct (handle_error_keeps p lead (exn_text e0) st0) as [Hh _].
    destruct (LeadProcessor._handle_error p lead (exn_text e0) st0) as [[[]|e'] st2];
      cbn [snd] in Hh.
    - cbn. discriminate.
    - intros E. injection E as <- <-. congruence. }
  unfold rbind at 1.
  destruct (qualify_with_fallback_keeps p rd lead st) as [Hq _].
  destruct (LeadProcessor.qualify_with_fallback p rd lead st) as [[result|e0] st0] eqn:Q;
    cbn [snd] in Hq.
  - unfold rbind at 1.
    match goal with
    | |- context [match ?m st0 with _ => _ end] =>
        assert (K : keeps_history m);
        [ destruct (tier result); keeps;
          first [apply handle_tier1_keeps | apply handle_tier2_keeps
                | apply handle_tier3_keeps]
        | destruct (K st0) as [Hh _]; clear K;
          destruct (m st0) as [[clio_url|e1] st1] eqn:EH ]
    end; cbn [snd] in Hh.
    + cbn. discriminate.
    + intros E. exact (Herr e1 st1 ltac:(congruence) E).
  - intros E. exact (Herr e0 st0 Hq E).
Qed.

Lemma produced_shape pl : produced pl -> success_shape pl \/ error_shape pl.
Proof.
  intros (p & rd & lead & st & st' & E).
  destruct (process_lead_result _ _ _ _ _ _ E)
    as [_ [(r & u & st0 & st1 & _ & _ & ->) | [e ->]]].
  - left. split; [reflexivity|]. exists (tier r). split; reflexivity.
  - right. repeat split. now exists (exn_text e).
Qed.

(** X18: a lead for which [process_lead] returns a record is entered in
    the processing history exactly once, under its own record id, either
    as a success record (a tier with its status, no error text) or as an
    error record (tier "error", status "In Review", score 0).  When
    [process_lead] itself raises, the history is left as it was. *)
Theorem process_lead_records_once p rd lead st :
  match LeadProcessor.process_lead p rd lead st with
  | (Ok pl, st') =>
      history st' = ProcessingHistory.add pl (history st) /\
      ProcessedLead.record_id pl = record_id lead /\
      (success_shape pl \/ error_shape pl)
  | (Raise _, st') => history st' = history st
  end.
Proof.
  destruct (LeadProcessor.process_lead p rd lead st) as [[pl|e] st'] eqn:E.
  - destruct (process_lead_result _ _ _ _ _ _ E) as [H R]. split; [exact H|].
    split.
    + destruct R as [(r & u & st0 & st1 & _ & _ & ->) | [e ->]]; reflexivity.
    + apply produced_shape. now exists p, rd, lead, st, st'.
  - exact (process_lead_raise_history _ _ _ _ _ _ E).
Qed.

Lemma count_if_cons {A : Type} (p : A -> bool) (a : A) (l : list A) :
  count_if p (a :: l) = (if p a then 1 else 0) + count_if p l.
Proof.
  unfold count_if. cbn [filter]. destruct (p a); cbn [List.length]; lia.
Qed.

Lemma count_if_nonneg {A : Type} (p : A -> bool) (l : list A) : 0 <= count_if p l.
Proof. unfold count_if. lia. Qed.

Ltac eval_eqb :=
  repeat match goal with
  | |- context [String.eqb ?a ?b] =>
      let v := eval vm_compute in (String.eqb a b) in
      change (String.eqb a b) with v
  end.

(** X19: the statistics of a history made of records that [process_lead]
    returned.  Every record falls in exactly one of the classes accepted,
    review, declined and error-tier, so the three tier counters and the
    number of error-tier records add up to the total; the [errors] counter
    never exceeds the number of error-tier records (it misses those whose
    exception text is empty). *)
Theorem stats_partition_history (h : ProcessingHistory.t)
    (H : Forall produced (ProcessingHistory._history h)) :
  let s := ProcessingHistory.get_stats h in
  total_processed s
  = auto_accepted s + needs_review s + auto_declined s
    + count_if is_error_tier (ProcessingHistory._history h) /\
  0 <= errors s <= count_if is_error_tier (ProcessingHistory._history h).
Proof.
  cbv zeta. unfold ProcessingHistory.get_stats.
  cbn [total_processed auto_accepted needs_review auto_declined errors].
  induction H as [|pl l Hp Hl IH].
  - cbn. lia.
  - rewrite !count_if_cons. cbn [List.length]. rewrite Nat2Z.inj_succ.
    destruct IH as [IH1 IH2].
    unfold is_error_tier at 1 3.
    destruct (produced_shape pl Hp) as [[He [t [Ht _]]] | (Ht & _ & _ & _ & text & He)];
      rewrite Ht, He.
    + destruct t; cbn [tier_value PyStr.truthy]; eval_eqb; lia.
    + eval_eqb. destruct (PyStr.truthy (Some text)); lia.
Qed.

Lemma stats_partition_history_witness :
  let h := history (snd (LeadProcessor.process_lead
                           (SampleRun.starter SampleRun.services_up)
                           SampleRun.readings Sample.lead_recent SampleRun.start)) in
  total_processed (ProcessingHistory.get_stats h) = 1 /\
  auto_accepted (ProcessingHistory.get_stats h) = 1.
Proof.
  cbv zeta.
  assert (HF : Forall produced
                 (ProcessingHistory._history
                    (history (snd (LeadProcessor.process_lead
                                     (SampleRun.starter SampleRun.services_up)
                                     SampleRun.readings Sample.lead_recent
                                     SampleRun.start))))).
  { match goal with
    | |- Forall _ ?l => let v := eval vm_compute in l in change l with v
    end.
    constructor; [|constructor].
    exists (SampleRun.starter SampleRun.services_up), SampleRun.readings,
      Sample.lead_recent, SampleRun.start,
      (snd (LeadProcessor.process_lead (SampleRun.starter SampleRun.services_up)
              SampleRun.readings Sample.lead_recent SampleRun.start)).
    vm_compute. reflexivity. }
  destruct (stats_partition_history _ HF) as [H1 H2].
  split; [rewrite H1|]; vm_compute; reflexivity.
Defined.

Ltac run_unfold :=
  unfold LeadProcessor.process_lead, LeadProcessor._handle_tier1,
    LeadProcessor._handle_tier2, LeadProcessor._handle_tier3,
    LeadProcessor._handle_error, mark_for_review, LeadProcessor.airtable_update,
    LeadProcessor.notify_error, when_, rtry, rbind, call, lift, ret, history_add.

Ltac run_simpl :=
  cbv beta iota; cbn [fst snd trace history andb negb];
  rewrite ?andb_false_r, ?andb_true_r; cbv beta iota.

Ltac run_cases :=
  repeat (progress run_simpl ||
          match goal with
          | |- context [match ?x with _ => _ end] =>
              lazymatch x with
              | context [match _ with _ => _ end] => fail
              | _ => destruct x eqn:?
              end
          end).

(** X20: in starter mode (Clio and e-mail disabled) [process_lead]
    creates no Clio matter and sends no e-mail.  Its calls are, in order,
    at most one commentary request of the qualifier, about the lead itself,
    and then one or two Airtable updates of the lead's own record, whatever
    the qualifier returns and whatever Airtable answers. *)
Theorem starter_mode_calls_no_clio_no_email p rd lead st
    (Hclio : clio_enabled p = false) (Hemail : email_enabled p = false) :
  exists sent new,
    trace (snd (LeadProcessor.process_lead p rd lead st))
    = trace st ++ map RequestCommentary sent ++ new /\
    (List.length sent <= 1)%nat /\
    (forall request, In request sent -> req_lead request = lead) /\
    forallb (is_update_of (record_id lead)) new = true /\
    (1 <= List.length new <= 2)%nat.
Proof.
  destruct (qualify_with_fallback_trace p rd lead st) as (sent & Hst & Hlen & Hreq & _).
  exists sent.
  unfold LeadProcessor.process_lead, rtry, rbind. cbv beta.
  destruct (LeadProcessor.qualify_with_fallback p rd lead st) as [[result|e] st0];
    cbn [snd] in Hst; subst st0;
    run_unfold; rewrite ?Hclio, ?Hemail;
    run_cases;
    cbn [fst snd trace history]; rewrite <- ?app_assoc;
    eexists; (split; [reflexivity|]);
    (split; [exact Hlen|]); (split; [exact Hreq|]);
    cbn [forallb is_update_of List.length app]; rewrite ?String.eqb_refl;
    (split; [reflexivity | lia]).
Qed.

Lemma starter_mode_calls_no_clio_no_email_witness :
  exists sent new,
    trace (snd (LeadProcessor.process_lead (SampleRun.starter SampleRun.services_up)
                  SampleRun.readings Sample.lead_recent SampleRun.start))
    = trace SampleRun.start ++ map RequestCommentary sent ++ new /\
    (List.length sent <= 1)%nat /\
    forallb (is_update_of (record_id Sample.lead_recent)) new = true.
Proof.
  destruct (starter_mode_calls_no_clio_no_email
              (SampleRun.starter SampleRun.services_up)
              SampleRun.readings Sample.lead_recent SampleRun.start eq_refl eq_refl)
    as (sent & new & H1 & H2 & _ & H4 & _).
  exists sent, new. split; [exact H1 | split; [exact H2 | exact H4]].
Defined.

Lemma process_lead_returns_record p rd lead st :
  (forall t rid u, exists b, update_lead (services p) t rid u = Ok b) ->
  (forall t m l, exists b, send_error_notification (services p) t m l = Ok b) ->
  exists pl, fst (LeadProcessor.process_lead p rd lead st) = Ok pl.
Proof.
  intros Hup Herr.
  unfold LeadProcessor.process_lead, rtry.
  match goal with
  | |- context [match ?m st with _ => _ end] => destruct (m st) as [[pl|e] st1]
  end; [now exists pl|].
  unfold LeadProcessor._handle_error, mark_for_review, LeadProcessor.notify_error,
    when_, rbind, call, history_add, ret.
  destruct (Hup (trace st1) (record_id lead)
              (QualificationUpdate.mk "In Review" 0
                 (PyStr.fstr ["Requires manual review - processing error: ";
                              exn_text e]) false None None)) as [b ->].
  destruct (email_enabled p).
  - cbn [trace].
    match goal with
    | |- context [send_error_notification ?s ?t ?m ?l] =>
        destruct (Herr t m l) as [b' ->]
    end.
    eexists. reflexivity.
  - eexists. reflexivity.
Qed.

(** X21: failures are contained.  If the Airtable update and the error
    notification never raise (they may well report failure), then
    [process_lead] returns a record for every lead, whatever the
    qualifier, Clio and the other e-mails do. *)
Theorem process_lead_contains_failures p rd lead st
    (Hup : forall t rid u, exists b, update_lead (services p) t rid u = Ok b)
    (Herr : forall t m l, exists b,
              send_error_notification (services p) t m l = Ok b) :
  exists pl, fst (LeadProcessor.process_lead p rd lead st) = Ok pl.
Proof. exact (process_lead_returns_record p rd lead st Hup Herr). Qed.

Lemma process_lead_contains_failures_witness :
  exists pl,
    fst (LeadProcessor.process_lead (SampleRun.pro SampleRun.services_degraded)
           SampleRun.readings Sample.lead_recent SampleRun.start) = Ok pl.
Proof.
  apply process_lead_contains_failures.
  - intros t rid u. exists false. reflexivity.
  - intros t m l. exists false. reflexivity.
Defined.

Lemma handle_tier1_url p lead result st u st1 :
  LeadProcessor._handle_tier1 p lead result st = (Ok (Some u), st1) ->
  clio_enabled p = true /\
  exists t request m,
    create_matter (services p) t request = Ok (Some m) /\ web_url m = u /\
    MatterCreateRequest.client_name request = name lead.
Proof.
  run_unfold. run_cases; intros E; try discriminate;
    injection E as E1 E2; try discriminate;
    (split; [reflexivity|]);
    match goal with
    | H : create_matter _ ?t ?r = Ok (Some ?m) |- _ =>
        exists t, r, m; split; [exact H | split; [congruence | reflexivity]]
    end.
Qed.

(** X22: a record carries a Clio matter URL only for an accepted lead in
    a run with Clio enabled, and the URL is the one Clio returned for a
    matter created in the lead's name. *)
Theorem clio_url_only_for_accepted_lead p rd lead st pl u
    (E : fst (LeadProcessor.process_lead p rd lead st) = Ok pl)
    (Hu : ProcessedLead.clio_matter_url pl = Some u) :
  clio_enabled p = true /\
  ProcessedLead.tier pl = "tier1" /\ ProcessedLead.status pl = "Accepted" /\
  exists t request m,
    create_matter (services p) t request = Ok (Some m) /\ web_url m = u /\
    MatterCreateRequest.client_name request = name lead.
Proof.
  destruct (LeadProcessor.process_lead p rd lead st) as [r st'] eqn:R.
  cbn [fst] in E. subst r.
  destruct (process_lead_result _ _ _ _ _ _ R)
    as [_ [(r & cu & st0 & st1 & _ & H & ->) | [e ->]]]; [|discriminate].
  cbn in Hu. subst cu.
  unfold LeadProcessor.success_record. cbn [ProcessedLead.tier ProcessedLead.status].
  destruct (tier r).
  - destruct (handle_tier1_url _ _ _ _ _ _ H) as [Hc Hm].
    repeat split; [exact Hc | exact Hm].
  - unfold rbind, ret in H.
    destruct (LeadProcessor._handle_tier2 p lead r st0) as [[[]|?] ?]; discriminate.
  - unfold rbind, ret in H.
    destruct (LeadProcessor._handle_tier3 p lead r st0) as [[[]|?] ?]; discriminate.
Qed.

Lemma clio_url_only_for_accepted_lead_witness :
  clio_enabled (SampleRun.pro SampleRun.services_up) = true /\
  exists t request m,
    create_matter (services (SampleRun.pro SampleRun.services_up)) t request
    = Ok (Some m) /\
    web_url m = "https://app.clio.com/matters/7" /\
    MatterCreateRequest.client_name request = name Sample.lead_recent.
Proof.
  destruct (clio_url_only_for_accepted_lead (SampleRun.pro SampleRun.services_up)
              SampleRun.readings Sample.lead_recent SampleRun.start _
              "https://app.clio.com/matters/7"
              ltac:(vm_compute; reflexivity) eq_refl) as (H1 & _ & _ & H2).
  split; [exact H1 | exact H2].
Defined.

Lemma qualify_with_fallback_overflow p rd lead st :
  sol_representable (qualification p) lead = false ->
  exists e, LeadProcessor.qualify_with_fallback p rd lead st = (Raise e, st) /\
            exn_class e = OverflowError.
Proof.
  intros H. unfold LeadProcessor.qualify_with_fallback, qualify_lead_fallback.
  destruct (qualify_lead_overflow (qualification p) (claude p) (commentary p)
              (at_qualify rd) lead H) as (e1 & -> & _).
  destruct (qualify_lead_overflow (qualification p) ClaudeConfig_default (commentary p)
              (at_fallback rd) lead H) as (e2 & -> & H2).
  exists e2. split; [reflexivity | exact H2].
Qed.

(** X23: a lead whose limitation period ends past the last representable
    date cannot be qualified, by the engine or by the fallback.
    [process_lead] then marks the record "In Review" in Airtable with
    score 0 and the exception text in the notes, sends at most the error
    notification after it, and any record it returns is the error record. *)
Theorem unrepresentable_sol_goes_to_review p rd lead st
    (H : sol_representable (qualification p) lead = false) :
  exists e rest,
    exn_class e = OverflowError /\
    trace (snd (LeadProcessor.process_lead p rd lead st))
    = trace st
      ++ UpdateLead (record_id lead)
           (QualificationUpdate.mk "In Review" 0
              (PyStr.fstr ["Requires manual review - processing error: "; exn_text e])
              false None None)
         :: rest /\
    (rest = [] \/ rest = [SendErrorNotification (exn_text e) (Some lead)]) /\
    (forall pl, fst (LeadProcessor.process_lead p rd lead st) = Ok pl ->
                pl = LeadProcessor.error_record rd lead e).
Proof.
  destruct (qualify_with_fallback_overflow p rd lead st H) as (e & Q & He).
  exists e. unfold LeadProcessor.process_lead, rtry, rbind. cbv beta.
  rewrite !Q. run_unfold.
  run_cases; rewrite <- ?app_assoc; eexists;
    (split; [exact He|]); (split; [reflexivity|]);
    (split; [first [left; reflexivity | right; reflexivity]|]);
    intros pl E; first [discriminate | injection E as <-; reflexivity].
Qed.

Lemma unrepresentable_sol_goes_to_review_witness :
  exists e rest,
    exn_class e = OverflowError /\
    trace (snd (LeadProcessor.process_lead (SampleRun.pro SampleRun.services_up)
                  SampleRun.readings SampleRun.lead_far_future SampleRun.start))
    = trace SampleRun.start
      ++ UpdateLead (record_id SampleRun.lead_far_future)
           (QualificationUpdate.mk "In Review" 0
              (PyStr.fstr ["Requires manual review - processing error: "; exn_text e])
              false None None)
         :: rest /\
    (rest = [] \/ rest = [SendErrorNotification (exn_text e)
                            (Some SampleRun.lead_far_future)]) /\
    (forall pl,
       fst (LeadProcessor.process_lead (SampleRun.pro SampleRun.services_up)
              SampleRun.readings SampleRun.lead_far_future SampleRun.start) = Ok pl ->
       pl = LeadProcessor.error_record SampleRun.readings SampleRun.lead_far_future e).
Proof.
  exact (unrepresentable_sol_goes_to_review (SampleRun.pro SampleRun.services_up)
           SampleRun.readings SampleRun.lead_far_future SampleRun.start eq_refl).
Defined.

(** X24: for a lead processed without error, the calls of the run are,
    in order: at most one commentary request of the qualifier, then the
    Airtable update of the lead's record, then only Clio and e-mail calls,
    so that the record is updated exactly once.  The update carries the
    status, score and county of the returned record and is marked
    auto-qualified exactly for tier 1.  This holds whether or not Airtable
    reports the update as done. *)
Theorem airtable_update_matches_record p rd lead st pl
    (E : fst (LeadProcessor.process_lead p rd lead st) = Ok pl)
    (Hok : ProcessedLead.error pl = None) :
  exists sent u rest,
    trace (snd (LeadProcessor.process_lead p rd lead st))
    = trace st ++ map RequestCommentary sent ++ UpdateLead (record_id lead) u :: rest /\
    (List.length sent <= 1)%nat /\
    QualificationUpdate.status u = ProcessedLead.status pl /\
    QualificationUpdate.qualification_score u = ProcessedLead.score pl /\
    QualificationUpdate.county u = ProcessedLead.county pl /\
    (QualificationUpdate.auto_qualified u = true <-> ProcessedLead.tier pl = "tier1") /\
    forallb is_clio_or_email rest = true.
Proof.
  destruct (qualify_with_fallback_trace p rd lead st) as (sent & Hst & Hlen & _).
  exists sent. revert E Hok.
  unfold LeadProcessor.process_lead, rtry, rbind. cbv beta.
  destruct (LeadProcessor.qualify_with_fallback p rd lead st) as [[result|e] st0];
    cbn [snd] in Hst; subst st0;
    run_unfold;
    run_cases; intros E Hok; try discriminate;
    injection E as <-; try discriminate;
    rewrite <- ?app_assoc; cbn [app];
    match goal with
    | Ht : tier ?r = _ |- _ =>
        unfold LeadProcessor.success_record;
        cbn [ProcessedLead.status ProcessedLead.score ProcessedLead.county
             ProcessedLead.tier];
        rewrite Ht
    end;
    eexists; eexists; (split; [reflexivity|]); (split; [exact Hlen|]);
    cbn [QualificationUpdate.status QualificationUpdate.qualification_score
         QualificationUpdate.county QualificationUpdate.auto_qualified
         LeadProcessor._tier_to_status tier_value forallb is_clio_or_email andb];
    repeat split; intros; try reflexivity; try discriminate.
Qed.

Lemma airtable_update_matches_record_witness :
  exists sent u rest,
    trace (snd (LeadProcessor.process_lead (SampleRun.pro SampleRun.services_up)
                  SampleRun.readings Sample.lead_recent SampleRun.start))
    = trace SampleRun.start ++ map RequestCommentary sent
      ++ UpdateLead (record_id Sample.lead_recent) u :: rest /\
    QualificationUpdate.status u = "Accepted".
Proof.
  destruct (airtable_update_matches_record (SampleRun.pro SampleRun.services_up)
              SampleRun.readings Sample.lead_recent SampleRun.start _
              ltac:(vm_compute; reflexivity) eq_refl)
    as (sent & u & rest & H1 & _ & H2 & _).
  exists sent, u, rest. split; [exact H1|]. rewrite H2. vm_compute. reflexivity.
Defined.

Lemma process_leads_all p shutdown readings
    (Hrun : forall t, shutdown t = false)
    (Hup : forall t rid u, exists b, update_lead (services p) t rid u = Ok b)
    (Herr : forall t m l, exists b,
              send_error_notification (services p) t m l = Ok b)
    (leads : list Lead) :
  forall i c st,
  exists pls st',
    LeadProcessor.process_leads p shutdown readings i leads c st
    = (Ok (c + Z.of_nat (List.length leads)), st') /\
    history st' = fold_left (fun h l => ProcessingHistory.add l h) pls (history st) /\
    map ProcessedLead.record_id pls = map record_id leads.
Proof.
  induction leads as [|lead rest IH]; intros i c st.
  - exists [], st. cbn. rewrite Z.add_0_r. repeat split.
  - cbn [LeadProcessor.process_leads]. rewrite Hrun. unfold rbind at 1.
    destruct (process_lead_returns_record p (readings i) lead st Hup Herr) as [pl E].
    destruct (LeadProcessor.process_lead p (readings i) lead st) as [r st1] eqn:R.
    cbn [fst] in E. subst r.
    destruct (process_lead_result _ _ _ _ _ _ R) as [Hh Hs].
    destruct (IH (S i) (c + 1) st1) as (pls & st' & E' & Hh' & Hr').
    exists (pl :: pls), st'. split; [|split].
    + rewrite E'. do 2 f_equal. cbn [List.length]. lia.
    + rewrite Hh', Hh. reflexivity.
    + cbn [map]. f_equal; [|exact Hr'].
      destruct Hs as [(r & u & s0 & s1 & _ & _ & ->) | [e ->]]; reflexivity.
Qed.

(** X25: one polling pass.  If Airtable returns the new leads, no
    shutdown is requested, and the Airtable update and the error
    notification never raise, then [process_all_new_leads] returns the
    number of leads fetched, and the processing history has received one
    record per fetched lead, in the order fetched, under the leads' record
    ids. *)
Theorem every_fetched_lead_is_recorded p shutdown readings st leads
    (Hfetch : get_new_leads (services p) (trace st) = Ok leads)
    (Hrun : forall t, shutdown t = false)
    (Hup : forall t rid u, exists b, update_lead (services p) t rid u = Ok b)
    (Herr : forall t m l, exists b,
              send_error_notification (services p) t m l = Ok b) :
  exists pls,
    fst (LeadProcessor.process_all_new_leads p shutdown readings st)
    = Ok (Z.of_nat (List.length leads)) /\
    history (snd (LeadProcessor.process_all_new_leads p shutdown readings st))
    = fold_left (fun h l => ProcessingHistory.add l h) pls (history st) /\
    map ProcessedLead.record_id pls = map record_id leads.
Proof.
  unfold LeadProcessor.process_all_new_leads, rtry, rbind, call.
  rewrite Hfetch.
  destruct (process_leads_all p shutdown readings Hrun Hup Herr leads 0%nat 0
              (mkRunState (trace st ++ [GetNewLeads]) (history st)))
    as (pls & st' & E & Hh & Hr).
  rewrite E. exists pls. cbn [fst snd]. repeat split; assumption.
Qed.

Lemma every_fetched_lead_is_recorded_witness :
  exists pls,
    fst (LeadProcessor.process_all_new_leads (SampleRun.pro SampleRun.services_up)
           (fun _ => false) (fun _ => SampleRun.readings) SampleRun.start)
    = Ok 2 /\
    map ProcessedLead.record_id pls = ["recTEST123"; "recTEST123"].
Proof.
  destruct (every_fetched_lead_is_recorded (SampleRun.pro SampleRun.services_up)
              (fun _ => false) (fun _ => SampleRun.readings) SampleRun.start
              [Sample.lead_recent; Sample.lead_out_of_state] eq_refl
              (fun _ => eq_refl)
              (fun _ _ _ => ex_intro _ true eq_refl)
              (fun _ _ _ => ex_intro _ true eq_refl))
    as (pls & H1 & _ & H3).
  exists pls. split; [exact H1 | exact H3].
Defined.

Lemma process_leads_count p shutdown readings (leads : list Lead) :
  forall i c st,
  exists pls,
    history (snd (LeadProcessor.process_leads p shutdown readings i leads c st))
    = fold_left (fun h l => ProcessingHistory.add l h) pls (history st) /\
    (forall n, fst (LeadProcessor.process_leads p shutdown readings i leads c st) = Ok n ->
               n = c + Z.of_nat (List.length pls)).
Proof.
  induction leads as [|lead rest IH]; intros i c st.
  - exists []. cbn. split; [reflexivity|]. intros n E. injection E as <-. lia.
  - cbn [LeadProcessor.process_leads].
    destruct (shutdown (trace st)).
    + exists []. cbn. split; [reflexivity|]. intros n E. injection E as <-. lia.
    + unfold rbind at 1 2.
      destruct (LeadProcessor.process_lead p (readings i) lead st) as [[pl|e] st1] eqn:R.
      * destruct (process_lead_result _ _ _ _ _ _ R) as [Hh _].
        destruct (IH (S i) (c + 1) st1) as (pls & Hh' & Hn).
        exists (pl :: pls). split.
        -- rewrite Hh', Hh. reflexivity.
        -- intros n E. rewrite (Hn n E). cbn [List.length]. lia.
      * exists []. cbn [fst snd fold_left]. split.
        -- exact (process_lead_raise_history _ _ _ _ _ _ R).
        -- discriminate.
Qed.

(** X26: the count [process_all_new_leads] returns never over-reports.
    Whatever the collaborators do, the records added to the history during
    the pass are as many as the returned count, or the returned count is 0
    (the pass was cut short by an exception after some leads had been
    recorded, or the fetch failed). *)
Theorem returned_count_never_over_reports p shutdown readings st :
  exists pls,
    history (snd (LeadProcessor.process_all_new_leads p shutdown readings st))
    = fold_left (fun h l => ProcessingHistory.add l h) pls (history st) /\
    (forall n, fst (LeadProcessor.process_all_new_leads p shutdown readings st) = Ok n ->
               n = Z.of_nat (List.length pls) \/ n = 0).
Proof.
  assert (Hh : forall e st0 r st',
    (_ <~ when_ (email_enabled p)
            (LeadProcessor.notify_error p
               (PyStr.fstr ["Failed to fetch leads from Airtable: "; exn_text e])
               None) ;;
     ret 0) st0 = (r, st') ->
    history st' = history st0 /\ (forall n, r = Ok n -> n = 0)).
  { intros e st0 r st'.
    unfold when_, LeadProcessor.notify_error, rbind, call, ret.
    destruct (email_enabled p).
    - destruct (send_error_notification _ _ _ _); intros E; injection E as <- <-;
        (split; [reflexivity|]); intros n E; [now injection E | discriminate].
    - intros E. injection E as <- <-. split; [reflexivity|].
      intros n E. now injection E. }
  destruct (LeadProcessor.process_all_new_leads p shutdown readings st)
    as [r st'] eqn:R.
  cbn [fst snd].
  unfold LeadProcessor.process_all_new_leads, rtry in R.
  unfold rbind at 1 in R. unfold call at 1 in R.
  destruct (get_new_leads (services p) (trace st)) as [leads|e].
  - destruct (process_leads_count p shutdown readings leads 0%nat 0
                (mkRunState (trace st ++ [GetNewLeads]) (history st)))
      as (pls & H1 & H2).
    exists pls.
    destruct (LeadProcessor.process_leads p shutdown readings 0 leads 0
                (mkRunState (trace st ++ [GetNewLeads]) (history st)))
      as [[n0|e] st1]; cbn [fst snd history] in *.
    + injection R as <- <-. split; [exact H1|].
      intros n E. left. rewrite (H2 n E). lia.
    + destruct (Hh e st1 r st' R) as [K1 K2]. split; [congruence|].
      intros n E. right. exact (K2 n E).
  - exists [].
    destruct (Hh e (mkRunState (trace st ++ [GetNewLeads]) (history st)) r st' R)
      as [K1 K2].
    split; [exact K1|]. intros n E. right. exact (K2 n E).
Qed.

(* ===================================================================== *)
(** ** The setup validators ([setup/validators.py]) *)
(* ===================================================================== *)

Lemma prefix_cons a p s :
  String.prefix (String a p) s = true ->
  exists s', s = String a s' /\ String.prefix p s' = true.
Proof.
  destruct s as [|b s]; cbn [String.prefix]; [discriminate|].
  destruct (ascii_dec a b) as [->|]; [|discriminate].
  intros H. now exists s.
Qed.

Ltac peel H :=
  repeat (apply prefix_cons in H; destruct H as (? & ? & H)); subst.

(** X27: the three API-key validators accept pairwise disjoint sets of
    keys, and none accepts a blank key.  An Anthropic key does start with
    "sk-": it is only the explicit exclusion in the OpenAI validator that
    keeps an Anthropic key from passing as an OpenAI key. *)
Theorem key_validators_accept_disjoint_keys (k base_id table_id : string) :
  let airtable := Validators.valid (Validators.validate_airtable_key k base_id table_id) in
  let anthropic := Validators.valid (Validators.validate_anthropic_key k) in
  let openai := Validators.valid (Validators.validate_openai_key k) in
  (airtable && anthropic = false)%bool /\
  (airtable && openai = false)%bool /\
  (anthropic && openai = false)%bool /\
  ((airtable || anthropic || openai)%bool = true -> PyStr.strip k <> "") /\
  (anthropic = true -> PyStr.startswith "sk-" k = true).
Proof.
  cbv zeta.
  unfold Validators.validate_airtable_key, Validators.validate_anthropic_key,
    Validators.validate_openai_key, Validators.blank, PyStr.startswith.
  destruct (PyStr.is_empty k) eqn:E1; cbn [orb Validators.valid andb];
    [repeat split; try reflexivity; intros; discriminate|].
  destruct (PyStr.is_empty (PyStr.strip k)) eqn:E2; cbn [orb Validators.valid andb];
    [repeat split; try reflexivity; intros; discriminate|].
  assert (Hs : PyStr.strip k <> "") by (intros Hk; rewrite Hk in E2; discriminate).
  destruct (String.prefix "pat_" k) eqn:P1;
  destruct (String.prefix "key" k) eqn:P2;
  destruct (String.prefix "sk-ant-" k) eqn:P3;
  destruct (String.prefix "sk-" k) eqn:P4;
  cbn [orb negb andb Validators.valid];
  repeat split; try reflexivity; try (intros; assumption); try (intros; discriminate);
  exfalso;
  try (peel P1; peel P3; discriminate);
  try (peel P1; peel P4; discriminate);
  try (peel P2; peel P3; discriminate);
  try (peel P2; peel P4; discriminate);
  try (peel P3; cbn in P4; discriminate).
Qed.
